(** * Low level binary OPC UA client: request multiplexer and service facade

    Shallow embedding of [opcua/client/async_ua_client.py]
    (classes [UASocketProtocol] and [UaClient]) together with the
    properties its specification states about them.

    Python integers are unbounded, so counters are [Z] without wrap-around.
    Dictionaries are [gmap]s, shared [asyncio.Future] objects live in a
    store indexed by allocation number, and coroutines ([async def]) are
    resumptions that run until their first pending [await]. *)

From stdpp Require Import gmap strings list fin_maps.
From Stdlib Require Import ZArith Lia.

Local Open Scope Z_scope.

(** ** Exceptions and results *)

(** The exception classes that occur in the module, all of them deriving
    from Python's [Exception].  [UaStatusCodeError c] is the class that
    [StatusCode.check] raises for the status code [c]; [BadTimeout],
    [BadNoSubscription] and [BadSessionClosed] are its instances at the
    corresponding codes.  [UserError] stands for whatever client code
    raises. *)
Inductive exn : Type :=
| UaError
| UaStatusCodeError (code : Z)
| InvalidStateError
| CancelledError
| TimeoutError
| AttributeError
| TypeError
| KeyError
| IndexError
| ValueError
| CodecError (tag : Z)
| UserError (tag : Z).

#[global] Instance exn_eq_dec : EqDecision exn.
Proof. solve_decision. Defined.

Inductive result (A : Type) : Type :=
| Ok (a : A)
| Raise (e : exn).
Arguments Ok {A} a.
Arguments Raise {A} e.

Definition is_Ok {A} (r : result A) : bool :=
  match r with Ok _ => true | Raise _ => false end.

(** ** UA data *)

Definition Buffer : Type := list Z.

Record NodeId : Type := mkNodeId { NamespaceIndex : Z; Identifier : Z }.

#[global] Instance NodeId_eq_dec : EqDecision NodeId.
Proof. solve_decision. Defined.

(** [ua.NodeId()] *)
Definition NodeId_default : NodeId := mkNodeId 0 0.

Inductive MessageType : Type := Hello | SecureOpen | SecureMessage | SecureClose.

Record RequestHeader : Type := mkRequestHeader {
  AuthenticationToken : NodeId;
  RequestHandle : Z;
  TimeoutHint : Z
}.

(** [ua.RequestHeader()] *)
Definition RequestHeader_default : RequestHeader :=
  mkRequestHeader NodeId_default 0 0.

Record ReadValueId : Type := mkReadValueId { rv_NodeId : NodeId; AttributeId : Z }.

(** The typed requests built by the facade; the parameter structures that
    the facade only forwards are kept as buffers. *)
Inductive RequestBody : Type :=
| OpenSecureChannelRequest (Parameters : Buffer)
| CloseSecureChannelRequest
| CreateSessionRequest (Parameters : Buffer)
| ActivateSessionRequest (Parameters : Buffer)
| CloseSessionRequest (DeleteSubscriptions : bool)
| ReadRequest (NodesToRead : list ReadValueId)
| CreateSubscriptionRequest (Parameters : Buffer)
| PublishRequest (SubscriptionAcknowledgements : list Z).

Record Request : Type := mkRequest {
  req_header : RequestHeader;
  req_body : RequestBody
}.

(** A freshly constructed request object, e.g. [ua.ReadRequest()]. *)
Definition new_request (b : RequestBody) : Request :=
  mkRequest RequestHeader_default b.

Record ResponseHeader : Type := mkResponseHeader {
  rh_RequestHandle : Z;
  ServiceResult : Z
}.

(** The value held by a [Variant]: a plain integer as decoded from the
    wire, a member of one of the two enumerations, or anything else. *)
Inductive VariantValue : Type :=
| VInt (v : Z)
| VNodeClass (v : Z)
| VValueRank (v : Z)
| VOther (b : Buffer).

Record DataValue : Type := mkDataValue {
  Value : VariantValue;
  StatusCode : Z
}.

Record ReadResponse : Type := mkReadResponse {
  rr_header : ResponseHeader;
  rr_Results : list DataValue
}.

Record SessionParameters : Type := mkSessionParameters {
  SessionId : NodeId;
  sp_AuthenticationToken : NodeId
}.

Record CreateSessionResponse : Type := mkCreateSessionResponse {
  cs_header : ResponseHeader;
  cs_Parameters : SessionParameters
}.

Record PublishResult : Type := mkPublishResult {
  SubscriptionId : Z;
  NotificationData : Buffer
}.

Record PublishResponse : Type := mkPublishResponse {
  pr_header : ResponseHeader;
  pr_Parameters : PublishResult
}.

Record ChannelParameters : Type := mkChannelParameters {
  ChannelId : Z;
  TokenId : Z
}.

Record OpenSecureChannelResponse : Type := mkOpenSecureChannelResponse {
  osc_header : ResponseHeader;
  osc_Parameters : ChannelParameters
}.

(** ** The imported UA library

    [opcua.ua], [opcua.ua.ua_binary] and
    [opcua.common.async_connection.AsyncSecureConnection] are imported by
    the module and are not part of it; the operations the module calls are
    the fields of this interface.  [Conn] is the state of the
    [AsyncSecureConnection] object. *)
Class UaLibrary : Type := {
  Conn : Type;
  (** [AsyncSecureConnection(security_policy)] *)
  Conn_new : Conn;
  (** [struct_to_binary(request)] *)
  struct_to_binary : Request -> result Buffer;
  (** [self._connection.message_to_binary(binreq, message_type, request_id)] *)
  message_to_binary : Conn -> Buffer -> MessageType -> Z -> result Buffer * Conn;
  (** [self._connection.set_channel(params)] *)
  set_channel : Conn -> ChannelParameters -> Conn;
  (** [uatcp_to_binary(ua.MessageType.Hello, hello)] for the given url *)
  hello_to_binary : Buffer -> Z -> Z -> Buffer;
  (** [nodeid_from_binary(data)]: the node id read and the unread rest *)
  nodeid_from_binary : Buffer -> result (NodeId * Buffer);
  (** [ua.FourByteNodeId(ua.ObjectIds.ServiceFault_Encoding_DefaultBinary)] *)
  ServiceFault_typeid : NodeId;
  (** [struct_from_binary(T, data)] at the types the module decodes *)
  decode_ResponseHeader : Buffer -> result ResponseHeader;
  decode_OpenSecureChannelResponse : Buffer -> result OpenSecureChannelResponse;
  decode_CreateSessionResponse : Buffer -> result CreateSessionResponse;
  decode_ActivateSessionResponse : Buffer -> result (ResponseHeader * Buffer);
  decode_CloseSessionResponse : Buffer -> result ResponseHeader;
  decode_ReadResponse : Buffer -> result ReadResponse;
  decode_PublishResponse : Buffer -> result PublishResponse;
  (** [StatusCode.is_good()] *)
  is_good : Z -> bool;
  (** the status codes of the exception classes the module catches *)
  BadTimeout : Z;
  BadNoSubscription : Z;
  BadSessionClosed : Z;
  (** [ua.AttributeIds.NodeClass], [ua.AttributeIds.ValueRank] *)
  AttributeIds_NodeClass : Z;
  AttributeIds_ValueRank : Z;
  AttributeIds_distinct : AttributeIds_NodeClass <> AttributeIds_ValueRank;
  (** the values that have a member in [ua.NodeClass] and [ua.ValueRank] *)
  NodeClass_member : Z -> bool;
  ValueRank_member : Z -> bool
}.

(** Modelled from the spec: [StatusCode.check] of [opcua.ua.uatypes], which
    surfaces any non-good service result as the error of its code and
    returns on a good one. *)
Definition StatusCode_check `{UaLibrary} (code : Z) : result unit :=
  if is_good code then Ok tt else Raise (UaStatusCodeError code).

(** Calling an [IntEnum] class on a value: the member with that value, or
    [ValueError] when there is none.  Members are integers themselves, so
    a member of either enumeration is looked up by its integer value. *)
Definition enum_call (member : Z -> bool) (mk : Z -> VariantValue)
    (x : VariantValue) : result VariantValue :=
  match x with
  | VInt v | VNodeClass v | VValueRank v =>
      if member v then Ok (mk v) else Raise ValueError
  | VOther _ => Raise ValueError
  end.

(** [ua.NodeClass(x)] and [ua.ValueRank(x)] *)
Definition NodeClass_call `{UaLibrary} : VariantValue -> result VariantValue :=
  enum_call NodeClass_member VNodeClass.
Definition ValueRank_call `{UaLibrary} : VariantValue -> result VariantValue :=
  enum_call ValueRank_member VValueRank.

(** [x in (-3, -2, -1, 0, 1, 2, 3, 4)]: equality with an integer of the
    tuple, which enumeration members satisfy through their value. *)
Definition in_value_ranks (x : VariantValue) : bool :=
  match x with
  | VInt v | VNodeClass v | VValueRank v =>
      bool_decide (v ∈ [-3; -2; -1; 0; 1; 2; 3; 4])
  | VOther _ => false
  end.

(** ** Program state *)

Inductive LogLevel : Type := DEBUG | INFO | WARNING | ERROR.

(** A subscription callback supplied by the user of the client. *)
Definition UserCallback : Type := PublishResult -> result unit.

(** The done-callbacks the module attaches to the futures of requests. *)
Inductive Callback : Type :=
| call_publish_callback
| other_callback (tag : Z).

Inductive FutureState : Type :=
| PENDING
| FINISHED (value : Buffer)
| CANCELLED.

(** An [asyncio.Future] object. *)
Record Future : Type := mkFuture {
  fut_state : FutureState;
  fut_callbacks : list Callback
}.

Section Client.
Context `{UaLibrary}.

(** The attributes of a [UASocketProtocol] object.  [transport] is [None]
    until [connection_made]; a connected transport is the list of messages
    written to it, oldest first.  [_callbackmap] maps a request id to the
    future (its number in the store) waiting for the response. *)
Record UASocketProtocol : Type := mkProtocol {
  transport : option (list Buffer);
  timeout : Z;
  authentication_token : NodeId;
  _request_id : Z;
  _request_handle : Z;
  _callbackmap : gmap Z nat;
  _connection : Conn
}.

(** [UASocketProtocol.__init__] *)
Definition UASocketProtocol_init (timeout : Z) : UASocketProtocol :=
  {| transport := None;
     timeout := timeout;
     authentication_token := NodeId_default;
     _request_id := 0;
     _request_handle := 0;
     _callbackmap := ∅;
     _connection := Conn_new |}.

(** Everything the two classes act on: the protocol object, the
    attributes of [UaClient], the store of future objects with its
    allocation counter, the done-callbacks the event loop has been asked
    to call, and the log records emitted. *)
Record World : Type := mkWorld {
  protocol : UASocketProtocol;
  _publishcallbacks : gmap Z UserCallback;
  _timeout : Z;
  futures : gmap nat Future;
  next_future : nat;
  scheduled : list (Callback * nat);
  logs : list (LogLevel * string)
}.

Definition set_protocol (f : UASocketProtocol -> UASocketProtocol) (w : World) : World :=
  {| protocol := f (protocol w);
     _publishcallbacks := _publishcallbacks w;
     _timeout := _timeout w;
     futures := futures w;
     next_future := next_future w;
     scheduled := scheduled w;
     logs := logs w |}.

Definition set_futures (f : gmap nat Future -> gmap nat Future) (w : World) : World :=
  {| protocol := protocol w;
     _publishcallbacks := _publishcallbacks w;
     _timeout := _timeout w;
     futures := f (futures w);
     next_future := next_future w;
     scheduled := scheduled w;
     logs := logs w |}.

Definition set_request_handle (h : Z) (p : UASocketProtocol) : UASocketProtocol :=
  {| transport := transport p; timeout := timeout p;
     authentication_token := authentication_token p;
     _request_id := _request_id p; _request_handle := h;
     _callbackmap := _callbackmap p; _connection := _connection p |}.

Definition set_request_id (i : Z) (p : UASocketProtocol) : UASocketProtocol :=
  {| transport := transport p; timeout := timeout p;
     authentication_token := authentication_token p;
     _request_id := i; _request_handle := _request_handle p;
     _callbackmap := _callbackmap p; _connection := _connection p |}.

Definition set_callbackmap (m : gmap Z nat) (p : UASocketProtocol) : UASocketProtocol :=
  {| transport := transport p; timeout := timeout p;
     authentication_token := authentication_token p;
     _request_id := _request_id p; _request_handle := _request_handle p;
     _callbackmap := m; _connection := _connection p |}.

Definition set_connection (c : Conn) (p : UASocketProtocol) : UASocketProtocol :=
  {| transport := transport p; timeout := timeout p;
     authentication_token := authentication_token p;
     _request_id := _request_id p; _request_handle := _request_handle p;
     _callbackmap := _callbackmap p; _connection := c |}.

Definition set_transport (t : option (list Buffer)) (p : UASocketProtocol) : UASocketProtocol :=
  {| transport := t; timeout := timeout p;
     authentication_token := authentication_token p;
     _request_id := _request_id p; _request_handle := _request_handle p;
     _callbackmap := _callbackmap p; _connection := _connection p |}.

Definition set_authentication_token (t : NodeId) (p : UASocketProtocol) : UASocketProtocol :=
  {| transport := transport p; timeout := timeout p;
     authentication_token := t;
     _request_id := _request_id p; _request_handle := _request_handle p;
     _callbackmap := _callbackmap p; _connection := _connection p |}.

(** ** Ordinary (non-coroutine) methods: state and exceptions *)

Definition S (A : Type) : Type := World -> result A * World.

Definition ret {A} (a : A) : S A := fun w => (Ok a, w).
Definition raise {A} (e : exn) : S A := fun w => (Raise e, w).
Definition bind {A B} (m : S A) (k : A -> S B) : S B :=
  fun w => match m w with
           | (Ok a, w') => k a w'
           | (Raise e, w') => (Raise e, w')
           end.
Definition get_protocol : S UASocketProtocol := fun w => (Ok (protocol w), w).
Definition modify_protocol (f : UASocketProtocol -> UASocketProtocol) : S unit :=
  fun w => (Ok tt, set_protocol f w).
Definition lift {A} (r : result A) : S A := fun w => (r, w).

(** [self.logger.<level>(msg, ...)] *)
Definition log (l : LogLevel) (msg : string) : S unit :=
  fun w => (Ok tt,
            {| protocol := protocol w;
               _publishcallbacks := _publishcallbacks w;
               _timeout := _timeout w;
               futures := futures w;
               next_future := next_future w;
               scheduled := scheduled w;
               logs := logs w ++ [(l, msg)] |}).

End Client.

Notation "'let*' x ':=' m 'in' k" := (bind m (fun x => k))
  (at level 10, x binder, m at level 100, k at level 200,
   format "'[v' 'let*'  x  ':='  m  'in' '/' k ']'").
Notation "m '>>' k" := (bind m (fun _ => k))
  (at level 90, right associativity).

Section Protocol.
Context `{UaLibrary}.

(** *** [asyncio.Future] *)

(** The object a reference points to.  Every reference the program holds
    comes from [new_future], so the default is never used on them. *)
Definition get_future (f : nat) (w : World) : Future :=
  default (mkFuture PENDING []) (futures w !! f).

(** [asyncio.Future()] *)
Definition new_future : S nat :=
  fun w => (Ok (next_future w),
            {| protocol := protocol w;
               _publishcallbacks := _publishcallbacks w;
               _timeout := _timeout w;
               futures := <[next_future w := mkFuture PENDING []]> (futures w);
               next_future := Datatypes.S (next_future w);
               scheduled := scheduled w;
               logs := logs w |}).

(** The loop's [call_soon(callback, future)] for each done-callback. *)
Definition schedule_callbacks (f : nat) (cbs : list Callback) (w : World) : World :=
  {| protocol := protocol w;
     _publishcallbacks := _publishcallbacks w;
     _timeout := _timeout w;
     futures := futures w;
     next_future := next_future w;
     scheduled := scheduled w ++ map (fun cb => (cb, f)) cbs;
     logs := logs w |}.

(** [future.add_done_callback(cb)] *)
Definition add_done_callback (f : nat) (cb : Callback) : S unit :=
  fun w =>
    let fut := get_future f w in
    match fut_state fut with
    | PENDING =>
        (Ok tt, set_futures <[f := mkFuture PENDING (fut_callbacks fut ++ [cb])]> w)
    | _ => (Ok tt, schedule_callbacks f [cb] w)
    end.

(** [future.set_result(value)] *)
Definition set_result (f : nat) (value : Buffer) : S unit :=
  fun w =>
    let fut := get_future f w in
    match fut_state fut with
    | PENDING =>
        (Ok tt, schedule_callbacks f (fut_callbacks fut)
                  (set_futures <[f := mkFuture (FINISHED value) []]> w))
    | _ => (Raise InvalidStateError, w)
    end.

(** [future.cancel()] *)
Definition cancel (f : nat) : S bool :=
  fun w =>
    let fut := get_future f w in
    match fut_state fut with
    | PENDING =>
        (Ok true, schedule_callbacks f (fut_callbacks fut)
                    (set_futures <[f := mkFuture CANCELLED []]> w))
    | _ => (Ok false, w)
    end.

(** [future.result()] *)
Definition future_result (f : nat) : S Buffer :=
  fun w =>
    match fut_state (get_future f w) with
    | FINISHED v => (Ok v, w)
    | CANCELLED => (Raise CancelledError, w)
    | PENDING => (Raise InvalidStateError, w)
    end.

(** *** [UASocketProtocol] *)

(** [self.transport.write(msg)] *)
Definition transport_write (msg : Buffer) : S unit :=
  let* p := get_protocol in
  match transport p with
  | None => raise AttributeError
  | Some written => modify_protocol (set_transport (Some (written ++ [msg])))
  end.

(** [UASocketProtocol._create_request_header] *)
Definition _create_request_header (timeout : Z) : S RequestHeader :=
  let* p := get_protocol in
  let token := authentication_token p in
  modify_protocol (fun p => set_request_handle (_request_handle p + 1) p) >>
  let* p := get_protocol in
  ret {| AuthenticationToken := token;
         RequestHandle := _request_handle p;
         TimeoutHint := timeout |}.

(** [UASocketProtocol._send_request].  The request object is updated in
    place with its header; the updated request is returned with the
    future. *)
Definition _send_request (request : Request) (callback : option Callback)
    (timeout : Z) (message_type : MessageType) : S (Request * nat) :=
  let* hdr := _create_request_header timeout in
  let request := {| req_header := hdr; req_body := req_body request |} in
  log DEBUG "Sending: %s" >>
  match struct_to_binary request with
  | Raise e =>
      (* reset request handle if any error *)
      modify_protocol (fun p => set_request_handle (_request_handle p - 1) p) >>
      raise e
  | Ok binreq =>
      modify_protocol (fun p => set_request_id (_request_id p + 1) p) >>
      let* future := new_future in
      match callback with
      | Some cb => add_done_callback future cb
      | None => ret tt
      end >>
      modify_protocol (fun p => set_callbackmap (<[_request_id p := future]> (_callbackmap p)) p) >>
      let* p := get_protocol in
      let '(msg, conn) := message_to_binary (_connection p) binreq message_type (_request_id p) in
      modify_protocol (set_connection conn) >>
      let* msg := lift msg in
      transport_write msg >>
      ret (request, future)
  end.

(** [UASocketProtocol._call_callback] *)
Definition _call_callback (request_id : Z) (body : Buffer) : S unit :=
  let* p := get_protocol in
  let future := _callbackmap p !! request_id in
  modify_protocol (set_callbackmap (delete request_id (_callbackmap p))) >>
  match future with
  | None => raise UaError
  | Some future => set_result future body
  end.

(** [UASocketProtocol.check_answer].  The node id is read from a copy of
    the data, and the response header from what follows it in the copy. *)
Definition check_answer (data : Buffer) (context : string) : S bool :=
  let* '(typeid, rest) := lift (nodeid_from_binary data) in
  if decide (typeid = ServiceFault_typeid) then
    log WARNING "ServiceFault from server received %s" >>
    let* hdr := lift (decode_ResponseHeader rest) in
    lift (StatusCode_check (ServiceResult hdr)) >>
    ret false
  else ret true.

End Protocol.

(** ** Coroutines

    The body of an [async def] runs until it finishes or reaches an
    [await] on a future that is still pending.  There it hands control
    back to the event loop together with its continuation, which the loop
    resumes with what happened to the future. *)

Inductive wake : Type :=
| Completed (value : Buffer)
| Cancelled
| TimedOut.

Section Coroutines.
Context `{UaLibrary}.

Inductive step (A : Type) : Type :=
| Done (r : result A) (w : World)
| Await (f : nat) (deadline : option Z) (w : World) (k : wake -> World -> step A).
Arguments Done {A} r w.
Arguments Await {A} f deadline w k.

Definition Coro (A : Type) : Type := World -> step A.

Fixpoint step_bind {A B} (s : step A) (k : A -> Coro B) : step B :=
  match s with
  | Done (Ok a) w => k a w
  | Done (Raise e) w => Done (Raise e) w
  | Await f d w c => Await f d w (fun r w' => step_bind (c r w') k)
  end.

Definition cbind {A B} (m : Coro A) (k : A -> Coro B) : Coro B :=
  fun w => step_bind (m w) k.

(** An ordinary call inside a coroutine. *)
Definition run {A} (m : S A) : Coro A :=
  fun w => let '(r, w') := m w in Done r w'.

(** Calling an [async def] function without awaiting the call only makes
    a coroutine object: none of the body runs. *)
Definition coroutine_object {A} (c : Coro A) : S unit := ret tt.

(** [await future] *)
Definition await_future (f : nat) : Coro Buffer :=
  fun w =>
    match fut_state (get_future f w) with
    | FINISHED v => Done (Ok v) w
    | CANCELLED => Done (Raise CancelledError) w
    | PENDING =>
        Await f None w (fun r w' =>
          match r with
          | Completed v => Done (Ok v) w'
          | Cancelled | TimedOut => Done (Raise CancelledError) w'
          end)
    end.

(** [await asyncio.wait_for(future, timeout)]: the result of the future,
    or, when the deadline passes first, the future is cancelled and
    [TimeoutError] raised. *)
Definition wait_for (f : nat) (timeout : Z) : Coro Buffer :=
  fun w =>
    match fut_state (get_future f w) with
    | FINISHED v => Done (Ok v) w
    | CANCELLED => Done (Raise CancelledError) w
    | PENDING =>
        if decide (timeout <= 0) then
          run (cancel f >> raise TimeoutError) w
        else
          Await f (Some timeout) w (fun r w' =>
            match r with
            | Completed v => Done (Ok v) w'
            | Cancelled => Done (Raise CancelledError) w'
            | TimedOut => run (cancel f >> raise TimeoutError) w'
            end)
    end.

(** [await asyncio.wait_for(data, timeout)] on a response body: a bytes
    buffer is not awaitable. *)
Definition wait_for_buffer (data : Buffer) (timeout : Z) : Coro Buffer :=
  run (raise TypeError).

End Coroutines.

Arguments Done {_ A} r w.
Arguments Await {_ A} f deadline w k.

Notation "'let+' x ':=' m 'in' k" := (cbind m (fun x => k))
  (at level 10, x binder, m at level 100, k at level 200,
   format "'[v' 'let+'  x  ':='  m  'in' '/' k ']'").

Section Methods.
Context `{UaLibrary}.

(** What a variable named [data] can hold when it reaches the decoder: a
    response body, [None], or the coroutine object of a call that was not
    awaited. *)
Inductive pyobj : Type :=
| PyBuffer (b : Buffer)
| PyNone
| PyCoroutine.

(** [struct_from_binary(T, data)]; the decoder reads from a buffer, which
    a coroutine object is not. *)
Definition struct_from_binary {T} (decode : Buffer -> result T) (data : pyobj) : S T :=
  match data with
  | PyBuffer b => lift (decode b)
  | PyNone | PyCoroutine => raise AttributeError
  end.

(** [UASocketProtocol.send_request].  Without a callback, the argument
    [future.result()] of [asyncio.wait_for] is evaluated first, on the
    future that [_send_request] has just created. *)
Definition send_request (request : Request) (callback : option Callback)
    (timeout_hint : Z) (message_type : MessageType) : Coro pyobj :=
  let+ '(request, future) := run (_send_request request callback timeout_hint message_type) in
  match callback with
  | Some _ => run (ret PyNone)
  | None =>
      let+ result := run (future_result future) in
      let+ p := run get_protocol in
      let+ data := wait_for_buffer result (timeout p) in
      let+ _ := run (check_answer data " in response to ") in
      run (ret (PyBuffer data))
  end.

(** [UASocketProtocol.send_hello] *)
Definition send_hello (url : Buffer) (max_messagesize max_chunkcount : Z) : Coro Buffer :=
  let+ future := run new_future in
  let+ _ := run (modify_protocol (fun p => set_callbackmap (<[0 := future]> (_callbackmap p)) p)) in
  let binmsg := hello_to_binary url max_messagesize max_chunkcount in
  let+ _ := run (transport_write binmsg) in
  let+ p := run get_protocol in
  let+ _ := wait_for future (timeout p) in
  let+ ack := run (future_result future) in
  run (ret ack).

(** [UASocketProtocol.open_secure_channel] *)
Definition open_secure_channel (params : Buffer) : Coro ChannelParameters :=
  let+ _ := run (log INFO "open_secure_channel") in
  let request := new_request (OpenSecureChannelRequest params) in
  let+ '(_, future) := run (_send_request request None 1000 SecureOpen) in
  let+ p := run get_protocol in
  let+ _ := wait_for future (timeout p) in
  let+ result := run (future_result future) in
  let+ response := run (struct_from_binary decode_OpenSecureChannelResponse (PyBuffer result)) in
  let+ _ := run (lift (StatusCode_check (ServiceResult (osc_header response)))) in
  let+ _ := run (modify_protocol (fun p =>
               set_connection (set_channel (_connection p) (osc_Parameters response)) p)) in
  run (ret (osc_Parameters response)).

(** [UASocketProtocol.close_secure_channel] *)
Definition close_secure_channel : Coro unit :=
  let+ _ := run (log INFO "close_secure_channel") in
  let request := new_request CloseSecureChannelRequest in
  let+ '(_, future) := run (_send_request request None 1000 SecureClose) in
  (* don't expect any more answers *)
  let+ _ := run (cancel future) in
  run (modify_protocol (set_callbackmap ∅)).

(** The body of [UASocketProtocol._receive] once the connection has
    produced a message. *)
Inductive InboundMessage : Type :=
| NoMessage
| Message (request_id : Z) (body : Buffer)
| Acknowledge (msg : Buffer)
| ErrorMessage (msg : Buffer).

Definition _receive_dispatch (msg : InboundMessage) : S unit :=
  match msg with
  | NoMessage => ret tt
  | Message request_id body => _call_callback request_id body
  | Acknowledge msg => _call_callback 0 msg
  | ErrorMessage _ => log WARNING "Received an error: %s"
  end.

End Methods.

Section UaClient.
Context `{UaLibrary}.

Definition modify_publishcallbacks (f : gmap Z UserCallback -> gmap Z UserCallback) : S unit :=
  fun w => (Ok tt,
            {| protocol := protocol w;
               _publishcallbacks := f (_publishcallbacks w);
               _timeout := _timeout w;
               futures := futures w;
               next_future := next_future w;
               scheduled := scheduled w;
               logs := logs w |}).

(** [try: m  except <classes>: handler]; [handler e] is [None] when no
    [except] clause matches [e]. *)
Definition try_except {A} (m : S A) (handler : exn -> option (S A)) : S A :=
  fun w => match m w with
           | (Ok a, w') => (Ok a, w')
           | (Raise e, w') =>
               match handler e with
               | Some h => h w'
               | None => (Raise e, w')
               end
           end.

(** [UaClient.create_session]; the call of [send_request] is not awaited. *)
Definition create_session (parameters : Buffer) : Coro SessionParameters :=
  let+ _ := run (log INFO "create_session") in
  let request := new_request (CreateSessionRequest parameters) in
  let+ _ := run (coroutine_object (send_request request None 1000 SecureMessage)) in
  let data := PyCoroutine in
  let+ response := run (struct_from_binary decode_CreateSessionResponse data) in
  let+ _ := run (log DEBUG "response") in
  let+ _ := run (lift (StatusCode_check (ServiceResult (cs_header response)))) in
  let+ _ := run (modify_protocol
                   (set_authentication_token (sp_AuthenticationToken (cs_Parameters response)))) in
  run (ret (cs_Parameters response)).

(** [UaClient.activate_session] *)
Definition activate_session (parameters : Buffer) : Coro Buffer :=
  let+ _ := run (log INFO "activate_session") in
  let request := new_request (ActivateSessionRequest parameters) in
  let+ data := send_request request None 1000 SecureMessage in
  let+ response := run (struct_from_binary decode_ActivateSessionResponse data) in
  let+ _ := run (log DEBUG "response") in
  let+ _ := run (lift (StatusCode_check (ServiceResult (fst response)))) in
  run (ret (snd response)).

(** The [try]/[except BadSessionClosed: pass] of [close_session]. *)
Definition close_session_check (response : ResponseHeader) : S unit :=
  try_except (lift (StatusCode_check (ServiceResult response)))
    (fun e => if decide (e = UaStatusCodeError BadSessionClosed) then Some (ret tt) else None).

(** [UaClient.close_session] *)
Definition close_session (deletesubscriptions : bool) : Coro unit :=
  let+ _ := run (log INFO "close_session") in
  let request := new_request (CloseSessionRequest deletesubscriptions) in
  let+ data := send_request request None 1000 SecureMessage in
  let+ response := run (struct_from_binary decode_CloseSessionResponse data) in
  run (close_session_check response).

End UaClient.

Section Services.
Context `{UaLibrary}.

(** [dv.Value.Value = v] on the element [idx] of the results. *)
Definition set_value (idx : nat) (dv : DataValue) (v : VariantValue)
    (results : list DataValue) : list DataValue :=
  <[idx := {| Value := v; StatusCode := StatusCode dv |}]> results.

(** One iteration of the loop of [read] that casts the attributes that
    need it to their enumeration. *)
Definition read_cast_one (idx : nat) (rv : ReadValueId)
    (results : list DataValue) : result (list DataValue) :=
  if decide (AttributeId rv = AttributeIds_NodeClass) then
    match results !! idx with
    | None => Raise IndexError
    | Some dv =>
        if is_good (StatusCode dv) then
          match NodeClass_call (Value dv) with
          | Ok v => Ok (set_value idx dv v results)
          | Raise e => Raise e
          end
        else Ok results
    end
  else if decide (AttributeId rv = AttributeIds_ValueRank) then
    match results !! idx with
    | None => Raise IndexError
    | Some dv =>
        if is_good (StatusCode dv) && in_value_ranks (Value dv) then
          match ValueRank_call (Value dv) with
          | Ok v => Ok (set_value idx dv v results)
          | Raise e => Raise e
          end
        else Ok results
    end
  else Ok results.

(** [for idx, rv in enumerate(parameters.NodesToRead)], from index [idx]. *)
Fixpoint read_cast (idx : nat) (nodes : list ReadValueId)
    (results : list DataValue) : result (list DataValue) :=
  match nodes with
  | [] => Ok results
  | rv :: nodes =>
      match read_cast_one idx rv results with
      | Ok results => read_cast (Datatypes.S idx) nodes results
      | Raise e => Raise e
      end
  end.

(** [UaClient.read] *)
Definition read (NodesToRead : list ReadValueId) : Coro (list DataValue) :=
  let+ _ := run (log INFO "read") in
  let request := new_request (ReadRequest NodesToRead) in
  let+ data := send_request request None 1000 SecureMessage in
  let+ response := run (struct_from_binary decode_ReadResponse data) in
  let+ _ := run (log DEBUG "response") in
  let+ _ := run (lift (StatusCode_check (ServiceResult (rr_header response)))) in
  run (lift (read_cast 0 NodesToRead (rr_Results response))).

(** [UaClient.publish]; [None] for the acknowledgements means the empty
    list. *)
Definition publish (acks : option (list Z)) : Coro unit :=
  let+ _ := run (log INFO "publish") in
  let acks := default [] acks in
  let request := new_request (PublishRequest acks) in
  let+ _ := send_request request (Some call_publish_callback) 0 SecureMessage in
  run (ret tt).

(** The first [try] of [_call_publish_callback]: [Some tt] to go on,
    [None] when the handler has returned from an [except] clause. *)
Definition publish_check_answer (data : Buffer) : S (option unit) :=
  try_except
    (check_answer data "while waiting for publish response" >> ret (Some tt))
    (fun e =>
       if decide (e = UaStatusCodeError BadTimeout) then
         Some (coroutine_object (publish None) >> ret None)
       else if decide (e = UaStatusCodeError BadNoSubscription) then
         Some (log INFO "BadNoSubscription received, ignoring because it's probably valid." >>
               ret None)
       else None).

(** The second [try]: parse the publish response. *)
Definition publish_parse (data : Buffer) : S (option PublishResponse) :=
  try_except
    (let* response := struct_from_binary decode_PublishResponse (PyBuffer data) in
     log DEBUG "response" >>
     ret (Some response))
    (fun _ =>
       Some (log ERROR "Error parsing notificatipn from server" >>
             coroutine_object (publish (Some [])) >>
             ret None)).

(** The third [try]: look for the callback of the subscription. *)
Definition publish_lookup (response : PublishResponse) : S (option UserCallback) :=
  fun w =>
    match _publishcallbacks w !! SubscriptionId (pr_Parameters response) with
    | Some callback => (Ok (Some callback), w)
    | None => (log WARNING "Received data for unknown subscription: %s " >> ret None) w
    end.

(** The last [try]: call the user's callback, catching everything. *)
Definition publish_do_callback (callback : UserCallback) (response : PublishResponse) : S unit :=
  try_except (lift (callback (pr_Parameters response)))
    (fun _ => Some (log ERROR "Exception while calling user callback: %s")).

(** [UaClient._call_publish_callback] from [data = future.result()] on:
    the four [try] statements in turn. *)
Definition publish_handle_data (data : Buffer) : Coro unit :=
  let+ checked := run (publish_check_answer data) in
  match checked with
  | None => run (ret tt)
  | Some _ =>
      let+ parsed := run (publish_parse data) in
      match parsed with
      | None => run (ret tt)
      | Some response =>
          let+ found := run (publish_lookup response) in
          match found with
          | None => run (ret tt)
          | Some callback => run (publish_do_callback callback response)
          end
      end
  end.

(** [UaClient._call_publish_callback] *)
Definition _call_publish_callback (future : nat) : Coro unit :=
  let+ _ := run (log INFO "call_publish_callback") in
  let+ _ := await_future future in
  let+ data := run (future_result future) in
  publish_handle_data data.

End Services.

(** ** A sample UA library

    A small instance of the interface, with a readable wire format, on
    which the methods can be run: a body is its type node id (namespace,
    identifier) followed by the response header (handle, service result)
    and the payload.  Status codes and attribute ids are those of OPC UA;
    a status code is good when its two top bits are clear. *)

Definition sample_encode (request : Request) : result Buffer :=
  let hdr := req_header request in
  let head := [Identifier (AuthenticationToken hdr); RequestHandle hdr; TimeoutHint hdr] in
  match req_body request with
  | OpenSecureChannelRequest p => Ok (446 :: head ++ p)
  | CloseSecureChannelRequest => Ok (452 :: head)
  | CreateSessionRequest p => Ok (461 :: head ++ p)
  | ActivateSessionRequest p => Ok (467 :: head ++ p)
  | CloseSessionRequest d => Ok (473 :: head ++ [if d then 1 else 0])
  | ReadRequest nodes => Ok (631 :: head ++ map AttributeId nodes)
  | CreateSubscriptionRequest p => Ok (787 :: head ++ p)
  | PublishRequest acks =>
      (* a sequence number is unsigned *)
      if forallb (fun a => 0 <=? a) acks then Ok (826 :: head ++ acks)
      else Raise (CodecError 826)
  end.

Definition sample_header (data : Buffer) : result (ResponseHeader * Buffer) :=
  match data with
  | handle :: code :: rest => Ok (mkResponseHeader handle code, rest)
  | _ => Raise (CodecError 392)
  end.

Definition sample_typed (typeid : Z) (data : Buffer) : result (ResponseHeader * Buffer) :=
  match data with
  | 0 :: id :: rest => if decide (id = typeid) then sample_header rest else Raise (CodecError typeid)
  | _ => Raise (CodecError typeid)
  end.

Fixpoint sample_results (payload : Buffer) : list DataValue :=
  match payload with
  | v :: s :: rest => mkDataValue (VInt v) s :: sample_results rest
  | _ => []
  end.

Definition sample_library : UaLibrary :=
  {| Conn := Z;
     Conn_new := 0;
     struct_to_binary := sample_encode;
     message_to_binary := fun conn binreq _ request_id =>
       (Ok (conn + 1 :: request_id :: binreq), conn + 1);
     set_channel := fun conn _ => conn;
     hello_to_binary := fun url m c => m :: c :: url;
     nodeid_from_binary := fun data =>
       match data with
       | ns :: id :: rest => Ok (mkNodeId ns id, rest)
       | _ => Raise (CodecError 17)
       end;
     ServiceFault_typeid := mkNodeId 0 397;
     decode_ResponseHeader := fun data =>
       match sample_header data with Ok (h, _) => Ok h | Raise e => Raise e end;
     decode_OpenSecureChannelResponse := fun data =>
       match sample_typed 449 data with
       | Ok (h, [c; t]) => Ok (mkOpenSecureChannelResponse h (mkChannelParameters c t))
       | Ok _ => Raise (CodecError 449)
       | Raise e => Raise e
       end;
     decode_CreateSessionResponse := fun data =>
       match sample_typed 464 data with
       | Ok (h, [s; t]) =>
           Ok (mkCreateSessionResponse h (mkSessionParameters (mkNodeId 0 s) (mkNodeId 0 t)))
       | Ok _ => Raise (CodecError 464)
       | Raise e => Raise e
       end;
     decode_ActivateSessionResponse := sample_typed 470;
     decode_CloseSessionResponse := fun data =>
       match sample_typed 476 data with Ok (h, _) => Ok h | Raise e => Raise e end;
     decode_ReadResponse := fun data =>
       match sample_typed 634 data with
       | Ok (h, payload) => Ok (mkReadResponse h (sample_results payload))
       | Raise e => Raise e
       end;
     decode_PublishResponse := fun data =>
       match sample_typed 829 data with
       | Ok (h, sid :: notif) => Ok (mkPublishResponse h (mkPublishResult sid notif))
       | Ok _ => Raise (CodecError 829)
       | Raise e => Raise e
       end;
     is_good := fun code => negb (Z.testbit code 31 || Z.testbit code 30);
     BadTimeout := 0x800A0000;
     BadNoSubscription := 0x80790000;
     BadSessionClosed := 0x80260000;
     AttributeIds_NodeClass := 2;
     AttributeIds_ValueRank := 15;
     AttributeIds_distinct := ltac:(discriminate);
     NodeClass_member := fun v => bool_decide (v ∈ [0; 1; 2; 4; 8; 16; 32; 64; 128]);
     ValueRank_member := fun v => bool_decide (v ∈ [-3; -2; -1; 0; 1; 2; 3; 4]) |}.

(** A client that has just been constructed with the given timeout, and
    the same after [connection_made]. *)
Definition UaClient_init `{UaLibrary} (timeout : Z) : World :=
  {| protocol := UASocketProtocol_init timeout;
     _publishcallbacks := ∅;
     _timeout := timeout;
     futures := ∅;
     next_future := 0%nat;
     scheduled := [];
     logs := [] |}.

Definition connection_made `{UaLibrary} (w : World) : World :=
  set_protocol (set_transport (Some [])) w.

(** ** Runs and observations used to state the properties *)

Section Observations.
Context `{UaLibrary}.

(** The request as [_send_request] encodes it: with the header built from
    the token of the protocol, the next handle and the timeout hint. *)
Definition with_header (request : Request) (hint : Z) (w : World) : Request :=
  {| req_header :=
       {| AuthenticationToken := authentication_token (protocol w);
          RequestHandle := _request_handle (protocol w) + 1;
          TimeoutHint := hint |};
     req_body := req_body request |}.

(** A call of [_send_request]: request, callback, timeout hint and
    message type. *)
Definition SendCall : Type := Request * option Callback * Z * MessageType.

(** Calling [_send_request] for each of the calls in turn, whatever each
    call does; the requests that were sent, in order, and the final
    state. *)
Fixpoint send_requests (calls : list SendCall) (w : World) : list Request * World :=
  match calls with
  | [] => ([], w)
  | (request, callback, hint, message_type) :: calls =>
      match _send_request request callback hint message_type w with
      | (Ok (request, _), w) =>
          let '(sent, w) := send_requests calls w in (request :: sent, w)
      | (Raise _, w) => send_requests calls w
      end
  end.

(** Framing a message never raises. *)
Definition framing_total : Prop :=
  forall conn binreq message_type request_id,
    is_Ok (message_to_binary conn binreq message_type request_id).1 = true.

End Observations.

(** ** The pending-request invariant *)

Section Invariant.
Context `{UaLibrary}.

(** Every id in the pending-request map is at most the request id
    counter (and not negative, [0] being the id of the Hello sink). *)
Definition pending_invariant (w : World) : Prop :=
  0 <= _request_id (protocol w) /\
  forall k f, _callbackmap (protocol w) !! k = Some f ->
    0 <= k <= _request_id (protocol w).

(** The ids of the pending-request map, as the dictionary lists them. *)
Definition pending_ids (w : World) : list Z :=
  (map_to_list (_callbackmap (protocol w))).*1.

(** [P] holds whenever the coroutine hands control back, at an [await] or
    at its end, provided it holds whenever the coroutine is resumed. *)
Fixpoint holds_throughout (P : World -> Prop) {A} (s : step A) : Prop :=
  match s with
  | Done _ w => P w
  | Await _ _ w k => P w /\ forall r w', P w' -> holds_throughout P (k r w')
  end.

Definition S_preserves (P : World -> Prop) {A} (m : S A) : Prop :=
  forall w, P w -> P (m w).2.

Definition Coro_preserves (P : World -> Prop) {A} (c : Coro A) : Prop :=
  forall w, P w -> holds_throughout P (c w).

(** The request ids that the calls of a run assigned: the counter after
    each call that moved it (a call that fails in the encoding assigns
    none). *)
Fixpoint send_request_ids (calls : list SendCall) (w : World) : list Z :=
  match calls with
  | [] => []
  | (request, callback, hint, message_type) :: calls =>
      let w' := (_send_request request callback hint message_type w).2 in
      if decide (_request_id (protocol w') = _request_id (protocol w))
      then send_request_ids calls w'
      else _request_id (protocol w') :: send_request_ids calls w'
  end.

(** [P] is kept by the methods that reach the request id counter or the
    pending-request map, and by the methods of the facade. *)
Definition methods_preserve (P : World -> Prop) : Prop :=
  (forall request callback hint message_type,
     S_preserves P (_send_request request callback hint message_type)) /\
  (forall request_id body, S_preserves P (_call_callback request_id body)) /\
  (forall msg, S_preserves P (_receive_dispatch msg)) /\
  (forall request callback hint message_type,
     Coro_preserves P (send_request request callback hint message_type)) /\
  (forall url m c, Coro_preserves P (send_hello url m c)) /\
  (forall params, Coro_preserves P (open_secure_channel params)) /\
  Coro_preserves P close_secure_channel /\
  (forall parameters, Coro_preserves P (create_session parameters)) /\
  (forall parameters, Coro_preserves P (activate_session parameters)) /\
  (forall deletesubscriptions, Coro_preserves P (close_session deletesubscriptions)) /\
  (forall nodes, Coro_preserves P (read nodes)) /\
  (forall acks, Coro_preserves P (publish acks)) /\
  (forall future, Coro_preserves P (_call_publish_callback future)).

End Invariant.

(** ** States equal up to the log *)

Section SameState.
Context `{UaLibrary}.

(** [w'] differs from [w] at most by log records: the protocol object
    (pending map, counters, transport, connection), the subscription
    callbacks, the futures and the scheduled calls are the same. *)
Definition same_state (w w' : World) : Prop :=
  protocol w' = protocol w /\
  _publishcallbacks w' = _publishcallbacks w /\
  _timeout w' = _timeout w /\
  futures w' = futures w /\
  next_future w' = next_future w /\
  scheduled w' = scheduled w.

(** The state in which a coroutine hands back control. *)
Definition step_world {A} (s : step A) : World :=
  match s with
  | Done _ w => w
  | Await _ _ w _ => w
  end.

End SameState.

(** ** How a coroutine hands back control *)

(** What the caller and the loop see when a coroutine hands back control:
    it has finished with a result or an exception, or it waits for a
    future under a deadline ([None]: without one). *)
Inductive handback (A : Type) : Type :=
| Finished (r : result A)
| WaitingFor (f : nat) (deadline : option Z).
Arguments Finished {A} r.
Arguments WaitingFor {A} f deadline.

Section Handback.
Context `{UaLibrary}.

Definition step_handback {A} (s : step A) : handback A :=
  match s with
  | Done r _ => Finished r
  | Await f deadline _ _ => WaitingFor f deadline
  end.

(** Every wait of the coroutine, the first and those after each
    resumption, is under the deadline [d]. *)
Fixpoint waits_only_under (d : Z) {A} (s : step A) : Prop :=
  match s with
  | Done _ _ => True
  | Await _ deadline _ k => deadline = Some d /\ forall r w', waits_only_under d (k r w')
  end.

End Handback.

(** ** What the cast of [read] is to do to one result *)

Section ReadExpected.
Context `{UaLibrary}.

(** The result that belongs at the place of [dv] when [rv] was requested:
    for the attribute [NodeClass] and a good status the value as a member
    of [NodeClass]; for the attribute [ValueRank], a good status and a
    value among -3 .. 4 the value as a member of [ValueRank]; the result
    itself otherwise. *)
Definition read_cast_expected (rv : ReadValueId) (dv : DataValue) : result DataValue :=
  let cast (call : VariantValue -> result VariantValue) :=
    match call (Value dv) with
    | Ok v => Ok {| Value := v; StatusCode := StatusCode dv |}
    | Raise e => Raise e
    end in
  if decide (AttributeId rv = AttributeIds_NodeClass) then
    if is_good (StatusCode dv) then cast NodeClass_call else Ok dv
  else if decide (AttributeId rv = AttributeIds_ValueRank) then
    if is_good (StatusCode dv) && in_value_ranks (Value dv) then cast ValueRank_call
    else Ok dv
  else Ok dv.

End ReadExpected.

(** ** Sample states *)

(** A connected client over the sample library, constructed with the
    default timeout of one second. *)
Definition sample_world : @World sample_library :=
  @connection_made sample_library (@UaClient_init sample_library 1).

(** A publish request that the sample library can encode, and one that it
    cannot. *)
Definition sample_publish : Request := new_request (PublishRequest [7]).
Definition sample_unencodable : Request := new_request (PublishRequest [-1]).

(** A subscription callback that raises, registered for subscription 3;
    the state after [publish()] on it, and after the response [data] to
    that publish request (request id 1) has been dispatched. *)
Definition sample_raising_callback : UserCallback := fun _ => Raise (UserError 1).

Definition sample_subscribed : @World sample_library :=
  (@modify_publishcallbacks sample_library <[3 := sample_raising_callback]> sample_world).2.

Definition sample_published : @World sample_library :=
  @step_world sample_library _ (@publish sample_library None sample_subscribed).

Definition sample_completed (data : Buffer) : @World sample_library :=
  (@_call_callback sample_library 1 data sample_published).2.

(** A publish response with a notification for subscription 3, and a
    service fault with the given service result. *)
Definition sample_notification : Buffer := [0; 829; 1; 0; 3; 42].
Definition sample_fault (code : Z) : Buffer := [0; 397; 1; code].

(** The basic read: the attributes [NodeClass] and [ValueRank] of two
    nodes, answered with the integers 1 and -1 under a good status; and a
    [NodeClass] answered with the integer 1 under an uncertain status
    ([UncertainInitialValue]). *)
Definition sample_read_nodes : list ReadValueId :=
  [mkReadValueId (mkNodeId 0 85) 2; mkReadValueId (mkNodeId 0 2258) 15].
Definition sample_read_results : list DataValue :=
  [mkDataValue (VInt 1) 0; mkDataValue (VInt (-1)) 0].
Definition sample_uncertain : DataValue := mkDataValue (VInt 1) 0x40920000.

(** ** Subscriptions

    The responses of the two subscription services are decoded by the
    imported library, and the request for a deletion is built from its
    structures; they are parameters here.  A [CreateSubscriptionResponse]
    is kept as its header, the [SubscriptionId] of its parameters and the
    parameters as a whole. *)

Record CreateSubscriptionResponse : Type := mkCreateSubscriptionResponse {
  csr_header : ResponseHeader;
  csr_SubscriptionId : Z;
  csr_Parameters : Buffer
}.

Record DeleteSubscriptionsResponse : Type := mkDeleteSubscriptionsResponse {
  dsr_header : ResponseHeader;
  dsr_Results : Buffer
}.

Section Subscriptions.
Context `{UaLibrary}.
Variable decode_CreateSubscriptionResponse : Buffer -> result CreateSubscriptionResponse.
Variable decode_DeleteSubscriptionsResponse : Buffer -> result DeleteSubscriptionsResponse.
Variable DeleteSubscriptionsRequest : list Z -> Request.

(** [self._timeout] *)
Definition get_timeout : S Z := fun w => (Ok (_timeout w), w).

(** [partial(self._create_subscription_callback, callback, resp_fut)] and
    [partial(self._delete_subscriptions_callback, ids, resp_fut)] as
    done-callbacks: each is told from the others by the response future
    it was made for. *)
Definition partial_callback (resp_fut : nat) : Callback :=
  other_callback (Z.of_nat resp_fut).

(** [UaClient._create_subscription_callback] *)
Definition _create_subscription_callback (pub_callback : UserCallback)
    (resp_fut data_fut : nat) : S unit :=
  log INFO "_create_subscription_callback" >>
  let* data := future_result data_fut in
  let* response := struct_from_binary decode_CreateSubscriptionResponse (PyBuffer data) in
  log DEBUG "response" >>
  lift (StatusCode_check (ServiceResult (csr_header response))) >>
  modify_publishcallbacks <[csr_SubscriptionId response := pub_callback]> >>
  set_result resp_fut (csr_Parameters response).

(** [UaClient.create_subscription] *)
Definition create_subscription (params : Buffer) (callback : UserCallback) : Coro Buffer :=
  let+ _ := run (log INFO "create_subscription") in
  let request := new_request (CreateSubscriptionRequest params) in
  let+ resp_fut := run new_future in
  let mycallbak := partial_callback resp_fut in
  let+ _ := send_request request (Some mycallbak) 1000 SecureMessage in
  let+ t := run get_timeout in
  let+ _ := wait_for resp_fut t in
  run (future_result resp_fut).

(** [self._publishcallbacks.pop(sid)]: [KeyError] when [sid] is not a key. *)
Definition pop_publishcallback (sid : Z) : S unit :=
  fun w =>
    match _publishcallbacks w !! sid with
    | Some _ => modify_publishcallbacks (delete sid) w
    | None => (Raise KeyError, w)
    end.

(** [for sid in subscriptionids: self._publishcallbacks.pop(sid)] *)
Fixpoint pop_publishcallbacks (subscriptionids : list Z) : S unit :=
  match subscriptionids with
  | [] => ret tt
  | sid :: subscriptionids =>
      pop_publishcallback sid >> pop_publishcallbacks subscriptionids
  end.

(** [UaClient._delete_subscriptions_callback] *)
Definition _delete_subscriptions_callback (subscriptionids : list Z)
    (resp_fut data_fut : nat) : S unit :=
  log INFO "_delete_subscriptions_callback" >>
  let* data := future_result data_fut in
  let* response := struct_from_binary decode_DeleteSubscriptionsResponse (PyBuffer data) in
  log DEBUG "response" >>
  lift (StatusCode_check (ServiceResult (dsr_header response))) >>
  pop_publishcallbacks subscriptionids >>
  set_result resp_fut (dsr_Results response).

(** [UaClient.delete_subscriptions]; the call of [send_request] is not
    awaited. *)
Definition delete_subscriptions (subscriptionids : list Z) : Coro Buffer :=
  let+ _ := run (log INFO "delete_subscription") in
  let request := DeleteSubscriptionsRequest subscriptionids in
  let+ resp_fut := run new_future in
  let mycallbak := partial_callback resp_fut in
  let+ _ := run (coroutine_object (send_request request (Some mycallbak) 1000 SecureMessage)) in
  let+ t := run get_timeout in
  let+ _ := wait_for resp_fut t in
  run (future_result resp_fut).

End Subscriptions.

(** Decoders of the subscription responses in the wire format of the
    sample library. *)
Definition sample_decode_CreateSubscriptionResponse (data : Buffer)
    : result CreateSubscriptionResponse :=
  match sample_typed 790 data with
  | Ok (h, sid :: rest) => Ok (mkCreateSubscriptionResponse h sid (sid :: rest))
  | Ok _ => Raise (CodecError 790)
  | Raise e => Raise e
  end.

Definition sample_decode_DeleteSubscriptionsResponse (data : Buffer)
    : result DeleteSubscriptionsResponse :=
  match sample_typed 850 data with
  | Ok (h, results) => Ok (mkDeleteSubscriptionsResponse h results)
  | Raise e => Raise e
  end.

(** ** The two counters *)

(** The request handle counter and the request id counter stand at the
    same value. *)
Definition handle_matches_id `{UaLibrary} (w : World) : Prop :=
  _request_handle (protocol w) = _request_id (protocol w).

(** ** The receive side of [UASocketProtocol]

    [receive_buffer] is the [asyncio.Queue] of the chunks handed over by
    the transport, oldest first, and [_leftover_chunk] what an earlier
    [read] has cut off a chunk.  [tasks] counts the [_receive] tasks
    created on the loop. *)
Module UASocket.

Record Receiver : Type := mkReceiver {
  receive_buffer : list Buffer;
  is_receiving : bool;
  _leftover_chunk : option Buffer;
  tasks : nat
}.

(** [UASocketProtocol.__init__], the receive side. *)
Definition Receiver_init : Receiver :=
  {| receive_buffer := []; is_receiving := false; _leftover_chunk := None; tasks := 0%nat |}.

(** [chunk[:n]] and [chunk[n:]] on bytes; a negative [n] counts from the
    end, and a position before the start is the start. *)
Definition slice_to (chunk : Buffer) (n : Z) : Buffer :=
  if decide (0 <= n) then take (Z.to_nat n) chunk
  else take (Z.to_nat (Z.of_nat (length chunk) + n)) chunk.

Definition slice_from (chunk : Buffer) (n : Z) : Buffer :=
  if decide (0 <= n) then drop (Z.to_nat n) chunk
  else drop (Z.to_nat (Z.of_nat (length chunk) + n)) chunk.

(** The chunk an iteration of [read] works on: the leftover chunk when
    there is one that is not empty (it is then reset to [None]), else the
    next chunk of the queue; [None] when the queue is empty and
    [receive_buffer.get()] has to wait. *)
Definition next_chunk (r : Receiver) : option (Buffer * Receiver) :=
  match _leftover_chunk r with
  | Some (b :: bs) =>
      Some (b :: bs,
            {| receive_buffer := receive_buffer r; is_receiving := is_receiving r;
               _leftover_chunk := None; tasks := tasks r |})
  | _ =>
      match receive_buffer r with
      | [] => None
      | chunk :: queue =>
          Some (chunk,
                {| receive_buffer := queue; is_receiving := is_receiving r;
                   _leftover_chunk := _leftover_chunk r; tasks := tasks r |})
      end
  end.

Definition set_leftover (chunk : Buffer) (r : Receiver) : Receiver :=
  {| receive_buffer := receive_buffer r; is_receiving := is_receiving r;
     _leftover_chunk := Some chunk; tasks := tasks r |}.

(** How a run of the loop of [read] stands: it has returned [data]; it
    waits in [receive_buffer.get()] with [data] read so far and [size]
    still to go; or it is still going round after the given number of
    iterations. *)
Inductive ReadOutcome : Type :=
| Returned (data : Buffer) (r : Receiver)
| Waiting (data : Buffer) (size : Z) (r : Receiver)
| Running (data : Buffer) (size : Z) (r : Receiver).

(** The [while size > 0] loop of [read], for at most [fuel] iterations. *)
Fixpoint read_loop (fuel : nat) (data : Buffer) (size : Z) (r : Receiver) : ReadOutcome :=
  if decide (size > 0) then
    match fuel with
    | O => Running data size r
    | Datatypes.S fuel =>
        match next_chunk r with
        | None => Waiting data size r
        | Some (chunk, r) =>
            let needed_length := size - Z.of_nat (length data) in
            if decide (Z.of_nat (length chunk) <= needed_length) then
              read_loop fuel (data ++ chunk) (size - Z.of_nat (length chunk)) r
            else
              (* chunk is too big *)
              let _chunk := slice_to chunk needed_length in
              let r := set_leftover (slice_from chunk needed_length) r in
              read_loop fuel (data ++ _chunk) (size - Z.of_nat (length _chunk)) r
        end
    end
  else Returned data r.

(** [UASocketProtocol.read] *)
Definition read (fuel : nat) (size : Z) (r : Receiver) : ReadOutcome :=
  read_loop fuel [] size r.

(** [UASocketProtocol.data_received].  [asyncio.Queue.put] is a coroutine
    function and the call is not awaited, so the chunk is not put on the
    queue. *)
Definition data_received (data : Buffer) (r : Receiver) : Receiver :=
  if is_receiving r then r
  else {| receive_buffer := receive_buffer r; is_receiving := true;
          _leftover_chunk := _leftover_chunk r; tasks := Datatypes.S (tasks r) |}.

(** The bytes that are waiting to be read, in order. *)
Definition pending_bytes (r : Receiver) : Buffer :=
  default [] (_leftover_chunk r) ++ concat (receive_buffer r).

(** The state and the data of an outcome. *)
Definition outcome_receiver (o : ReadOutcome) : Receiver :=
  match o with Returned _ r | Waiting _ _ r | Running _ _ r => r end.
Definition outcome_data (o : ReadOutcome) : Buffer :=
  match o with Returned d _ | Waiting d _ _ | Running d _ _ => d end.

End UASocket.

(** [data_received] called for each of the chunks that arrive, in order. *)
Definition receive_all (chunks : list Buffer) (r : UASocket.Receiver) : UASocket.Receiver :=
  foldl (fun r data => UASocket.data_received data r) r chunks.

(** Receive sides with chunks waiting: one chunk of five bytes; two chunks
    of four bytes; a chunk of three bytes followed by one of ten; and the
    state the loop of [read] is in after two iterations of reading ten
    bytes off the two chunks of four. *)
Definition sample_one_chunk : UASocket.Receiver :=
  UASocket.mkReceiver [[1; 2; 3; 4; 5]] true None 1.
Definition sample_two_chunks : UASocket.Receiver :=
  UASocket.mkReceiver [[1; 2; 3; 4]; [5; 6; 7; 8]] true None 1.
Definition sample_short_then_long : UASocket.Receiver :=
  UASocket.mkReceiver [[1; 2; 3]; [4; 5; 6; 7; 8; 9; 10; 11; 12; 13]] true None 1.
Definition sample_stuck : UASocket.Receiver :=
  UASocket.mkReceiver [] true (Some [7; 8]) 1.

(** A client that is not connected; the response to an
    [OpenSecureChannelRequest] with channel 77 and token 88; the response
    to a [CreateSubscriptionRequest] for subscription 3; a state in which
    the subscriptions 3 and 4 are registered, future 0 is the pending
    response future of a deletion and future 1 holds the response to the
    deletion request; and a stand-in for the deletion request, for which
    the sample wire format has no encoding. *)
Definition sample_unconnected : @World sample_library := @UaClient_init sample_library 1.

Definition sample_channel_response : Buffer := [0; 449; 1; 0; 77; 88].

Definition sample_subscription_response : Buffer := [0; 790; 1; 0; 3; 100].

Definition sample_deleting : @World sample_library :=
  {| protocol := @protocol sample_library sample_world;
     _publishcallbacks := <[3 := sample_raising_callback]> (<[4 := sample_raising_callback]> ∅);
     _timeout := 1;
     futures := <[0%nat := mkFuture PENDING []]>
                  (<[1%nat := mkFuture (FINISHED [0; 850; 1; 0; 0; 0]) []]> ∅);
     next_future := 2%nat;
     scheduled := [];
     logs := [] |}.

Definition sample_delete_request (ids : list Z) : Request :=
  new_request (CreateSubscriptionRequest ids).

(** * Properties *)

Section Send.
Context `{UaLibrary}.

Lemma set_request_handle_back (p : UASocketProtocol) :
  set_request_handle (_request_handle (set_request_handle (_request_handle p + 1) p) - 1)
    (set_request_handle (_request_handle p + 1) p) = p.
Proof.
  destruct p; unfold set_request_handle; simpl. f_equal. lia.
Qed.

(** [_send_request] when the encoding of the request raises. *)
Lemma _send_request_encode_failure request callback hint message_type w e :
  struct_to_binary (with_header request hint w) = Raise e ->
  exists w',
    _send_request request callback hint message_type w = (Raise e, w') /\
    protocol w' = protocol w /\
    futures w' = futures w /\
    next_future w' = next_future w /\
    scheduled w' = scheduled w /\
    _publishcallbacks w' = _publishcallbacks w.
Proof.
  intros Henc. unfold with_header in Henc.
  unfold _send_request, _create_request_header, bind, get_protocol,
    modify_protocol, ret, raise, log; simpl.
  rewrite Henc; simpl.
  eexists; split; [reflexivity|]. simpl.
  repeat split. apply set_request_handle_back.
Qed.

(** [_send_request] when encoding, framing and the write all succeed. *)
Lemma _send_request_success request callback hint message_type w binreq written msg conn :
  struct_to_binary (with_header request hint w) = Ok binreq ->
  transport (protocol w) = Some written ->
  message_to_binary (_connection (protocol w)) binreq message_type
    (_request_id (protocol w) + 1) = (Ok msg, conn) ->
  exists w',
    _send_request request callback hint message_type w =
      (Ok (with_header request hint w, next_future w), w') /\
    _request_id (protocol w') = _request_id (protocol w) + 1 /\
    _request_handle (protocol w') = _request_handle (protocol w) + 1 /\
    _callbackmap (protocol w') =
      <[_request_id (protocol w) + 1 := next_future w]> (_callbackmap (protocol w)) /\
    transport (protocol w') = Some (written ++ [msg]) /\
    authentication_token (protocol w') = authentication_token (protocol w) /\
    timeout (protocol w') = timeout (protocol w) /\
    _publishcallbacks w' = _publishcallbacks w /\
    fut_state (get_future (next_future w) w') = PENDING.
Proof.
  intros Henc Htr Hmsg. unfold with_header in Henc.
  unfold _send_request, _create_request_header, bind, get_protocol,
    modify_protocol, ret, raise, log; simpl.
  rewrite Henc; simpl.
  destruct callback as [cb|]; simpl;
    [unfold add_done_callback, get_future; simpl; rewrite lookup_insert_eq; simpl|];
    rewrite Hmsg; simpl;
    unfold transport_write, bind, get_protocol, modify_protocol, lift; simpl;
    rewrite Htr; simpl; eexists; (split; [reflexivity|]); simpl; repeat split;
    unfold get_future; simpl; rewrite lookup_insert_eq; reflexivity.
Qed.

End Send.

Section SendClaims.
Context `{UaLibrary}.

(** With a connected transport and total framing, a call of
    [_send_request] either sends the request under the next handle or
    fails in the encoding and leaves the protocol as it was. *)
Lemma _send_request_cases request callback hint message_type w :
  framing_total ->
  is_Some (transport (protocol w)) ->
  (exists f w',
     _send_request request callback hint message_type w =
       (Ok (with_header request hint w, f), w') /\
     _request_handle (protocol w') = _request_handle (protocol w) + 1 /\
     _request_id (protocol w') = _request_id (protocol w) + 1 /\
     is_Some (transport (protocol w'))) \/
  (exists e w',
     _send_request request callback hint message_type w = (Raise e, w') /\
     struct_to_binary (with_header request hint w) = Raise e /\
     protocol w' = protocol w).
Proof.
  intros Hframe [written Htr].
  destruct (struct_to_binary (with_header request hint w)) as [binreq|e] eqn:Henc.
  - left.
    specialize (Hframe (_connection (protocol w)) binreq message_type
                  (_request_id (protocol w) + 1)).
    destruct (message_to_binary _ _ _ _) as [[msg|e] conn] eqn:Hmsg; [|discriminate].
    destruct (_send_request_success request callback hint message_type w
                binreq written msg conn Henc Htr Hmsg)
      as (w' & Heq & Hid & Hh & _ & Htr' & _).
    exists (next_future w), w'. rewrite Htr'. eauto.
  - right.
    destruct (_send_request_encode_failure request callback hint message_type w e Henc)
      as (w' & Heq & Hp & _).
    exists e, w'. auto.
Qed.

(** C10: when the binary encoding of the request fails, [_send_request]
    raises that error and, apart from the handle rollback, has no effect:
    the request id counter is not incremented, no entry is added to the
    pending-callback map and nothing is written to the transport. *)
Theorem encode_failure_is_atomic request callback hint message_type w e :
  struct_to_binary (with_header request hint w) = Raise e ->
  let '(r, w') := _send_request request callback hint message_type w in
  r = Raise e /\
  _request_id (protocol w') = _request_id (protocol w) /\
  _callbackmap (protocol w') = _callbackmap (protocol w) /\
  transport (protocol w') = transport (protocol w) /\
  futures w' = futures w.
Proof.
  intros Henc.
  destruct (_send_request_encode_failure request callback hint message_type w e Henc)
    as (w' & -> & Hp & Hf & _).
  rewrite Hp. auto.
Qed.

(** The handles are consecutive from the handle after [h]. *)
Lemma send_requests_handles calls : forall w,
  framing_total ->
  is_Some (transport (protocol w)) ->
  let sent := (send_requests calls w).1 in
  map (fun r => RequestHandle (req_header r)) sent =
    seqZ (_request_handle (protocol w) + 1) (Z.of_nat (length sent)).
Proof.
  induction calls as [|[[[request callback] hint] message_type] calls IH];
    intros w Hframe Htr; simpl; [reflexivity|].
  destruct (_send_request_cases request callback hint message_type w Hframe Htr)
    as [(f & w' & -> & Hh & _ & Htr')|(e & w' & -> & _ & Hp)].
  - specialize (IH w' Hframe Htr'). simpl in IH.
    destruct (send_requests calls w') as [sent w'']; simpl in *.
    rewrite IH, Hh.
    rewrite (seqZ_cons (_request_handle (protocol w) + 1)) by lia.
    f_equal. f_equal; lia.
  - rewrite <- Hp. apply IH; [assumption|]. rewrite Hp. assumption.
Qed.

(** C7: when the encoding of the request fails in [_send_request], the
    request handle counter is back at its value before the call when the
    error propagates; hence, over any series of calls on a connected
    transport, the handles of the requests that were sent are
    consecutive. *)
Theorem request_handle_rollback_gap_free :
  (forall request callback hint message_type w e,
     struct_to_binary (with_header request hint w) = Raise e ->
     let '(r, w') := _send_request request callback hint message_type w in
     r = Raise e /\ _request_handle (protocol w') = _request_handle (protocol w)) /\
  (forall calls w,
     framing_total ->
     is_Some (transport (protocol w)) ->
     let sent := (send_requests calls w).1 in
     map (fun r => RequestHandle (req_header r)) sent =
       seqZ (_request_handle (protocol w) + 1) (Z.of_nat (length sent))).
Proof.
  split.
  - intros request callback hint message_type w e Henc.
    destruct (_send_request_encode_failure request callback hint message_type w e Henc)
      as (w' & -> & Hp & _).
    rewrite Hp. auto.
  - intros calls w. apply send_requests_handles.
Qed.

End SendClaims.

Section SendSamples.
#[local] Existing Instance sample_library.

Lemma encode_failure_is_atomic_witness :
  struct_to_binary (with_header sample_unencodable 0 sample_world) = Raise (CodecError 826) /\
  let '(r, w') := _send_request sample_unencodable None 0 SecureMessage sample_world in
  r = Raise (CodecError 826) /\
  _request_id (protocol w') = _request_id (protocol sample_world) /\
  _callbackmap (protocol w') = _callbackmap (protocol sample_world) /\
  transport (protocol w') = transport (protocol sample_world) /\
  futures w' = futures sample_world.
Proof.
  split; [reflexivity|].
  apply (encode_failure_is_atomic sample_unencodable None 0 SecureMessage
           sample_world (CodecError 826)).
  reflexivity.
Defined.

Lemma request_handle_rollback_gap_free_witness :
  (let '(r, w') := _send_request sample_unencodable None 0 SecureMessage sample_world in
   r = Raise (CodecError 826) /\
   _request_handle (protocol w') = _request_handle (protocol sample_world)) /\
  (let sent := (send_requests
                  [(sample_publish, None, 0, SecureMessage);
                   (sample_unencodable, None, 0, SecureMessage);
                   (sample_publish, None, 0, SecureMessage)] sample_world).1 in
   map (fun r => RequestHandle (req_header r)) sent =
     seqZ (_request_handle (protocol sample_world) + 1) (Z.of_nat (length sent))).
Proof.
  split.
  - apply (proj1 request_handle_rollback_gap_free sample_unencodable None 0 SecureMessage
             sample_world (CodecError 826)).
    reflexivity.
  - apply (proj2 request_handle_rollback_gap_free).
    + intros conn binreq message_type request_id. reflexivity.
    + exists []. reflexivity.
Defined.

(** On the sample run the two requests that were sent carry the handles 1
    and 2, the failed call between them notwithstanding. *)
Example sample_run_handles :
  map (fun r => RequestHandle (req_header r))
    (send_requests
       [(sample_publish, None, 0, SecureMessage);
        (sample_unencodable, None, 0, SecureMessage);
        (sample_publish, None, 0, SecureMessage)] sample_world).1 = [1; 2].
Proof. vm_compute. reflexivity. Qed.

End SendSamples.

Section Dispatch.
Context `{UaLibrary}.

Lemma set_callbackmap_same (p : UASocketProtocol) :
  set_callbackmap (_callbackmap p) p = p.
Proof. destruct p; reflexivity. Qed.

Lemma set_protocol_same (w : World) : set_protocol (fun _ => protocol w) w = w.
Proof. destruct w; reflexivity. Qed.

Lemma _call_callback_no_entry request_id body w :
  _callbackmap (protocol w) !! request_id = None ->
  _call_callback request_id body w = (Raise UaError, w).
Proof.
  intros Hnone.
  unfold _call_callback, bind, get_protocol, modify_protocol, raise; simpl.
  rewrite Hnone, (delete_id _ _ Hnone). f_equal.
  unfold set_protocol. rewrite set_callbackmap_same. destruct w; reflexivity.
Qed.

(** C2, as the code has it: dispatching a response whose request id has
    no entry in the pending map raises [UaError], also out of the receive
    path; nothing is logged and the state, pending map and connection
    included, is left as it was. *)
Theorem unknown_request_id_raises request_id body w :
  _callbackmap (protocol w) !! request_id = None ->
  _call_callback request_id body w = (Raise UaError, w) /\
  _receive_dispatch (Message request_id body) w = (Raise UaError, w).
Proof.
  intros Hnone. split; apply _call_callback_no_entry, Hnone.
Qed.

(** A response with a pending entry completes the future and removes the
    entry. *)
Lemma _call_callback_pending request_id body w future :
  _callbackmap (protocol w) !! request_id = Some future ->
  fut_state (get_future future w) = PENDING ->
  exists w',
    _call_callback request_id body w = (Ok tt, w') /\
    _callbackmap (protocol w') = delete request_id (_callbackmap (protocol w)) /\
    fut_state (get_future future w') = FINISHED body /\
    _request_id (protocol w') = _request_id (protocol w).
Proof.
  intros Hsome Hpending.
  unfold _call_callback, bind, get_protocol, modify_protocol, raise; simpl.
  rewrite Hsome. unfold set_result.
  replace (fut_state (get_future future _)) with PENDING.
  eexists; split; [reflexivity|]. simpl. repeat split.
  unfold get_future; simpl. rewrite lookup_insert_eq. reflexivity.
Qed.

End Dispatch.

Section DispatchSamples.
#[local] Existing Instance sample_library.

Lemma unknown_request_id_raises_witness :
  _callbackmap (protocol sample_world) !! 7 = None /\
  _call_callback 7 [0; 634] sample_world = (Raise UaError, sample_world) /\
  _receive_dispatch (Message 7 [0; 634]) sample_world = (Raise UaError, sample_world).
Proof.
  split; [reflexivity|].
  apply (unknown_request_id_raises 7 [0; 634] sample_world).
  reflexivity.
Defined.

(** C2 as stated fails: request id 7 has no pending entry in the sample
    state, and dispatching a body for it does not return. *)
Lemma unknown_request_id_not_ignored :
  _callbackmap (protocol sample_world) !! 7 = None /\
  ~ exists w', _call_callback 7 [0; 634] sample_world = (Ok tt, w').
Proof.
  split; [reflexivity|].
  intros [w' Hw']. vm_compute in Hw'. discriminate Hw'.
Qed.

End DispatchSamples.

(** A call that leaves the counter and the map alone. *)
Ltac keeps_ids :=
  let w := fresh "w" in
  let Hw := fresh "Hw" in
  intros w Hw; unfold pending_invariant in *; simpl;
  repeat match goal with
         | |- context [match ?x with _ => _ end] => destruct x; simpl
         end;
  exact Hw.

Section InvariantProofs.
Context `{UaLibrary}.


Lemma preserves_bind {A B} (P : World -> Prop) (m : S A) (k : A -> S B) :
  S_preserves P m -> (forall a, S_preserves P (k a)) -> S_preserves P (bind m k).
Proof.
  intros Hm Hk w Hw. unfold bind. specialize (Hm w Hw).
  destruct (m w) as [[a|e] w']; simpl in *; [apply Hk|]; assumption.
Qed.

Lemma preserves_try_except {A} (P : World -> Prop) (m : S A) handler :
  S_preserves P m ->
  (forall e h, handler e = Some h -> S_preserves P h) ->
  S_preserves P (try_except m handler).
Proof.
  intros Hm Hh w Hw. unfold try_except. specialize (Hm w Hw).
  destruct (m w) as [[a|e] w']; simpl in *; [assumption|].
  destruct (handler e) as [h|] eqn:He; simpl; [|assumption].
  apply (Hh e h He). assumption.
Qed.

Lemma preserves_ret {A} P (a : A) : S_preserves P (ret a).
Proof. intros w Hw. exact Hw. Qed.

Lemma preserves_raise {A} P e : S_preserves P (@raise _ A e).
Proof. intros w Hw. exact Hw. Qed.

Lemma preserves_lift {A} P (r : result A) : S_preserves P (lift r).
Proof. intros w Hw. exact Hw. Qed.

Lemma preserves_get_protocol P : S_preserves P get_protocol.
Proof. intros w Hw. exact Hw. Qed.

Lemma preserves_coroutine_object {A} P (c : Coro A) : S_preserves P (coroutine_object c).
Proof. intros w Hw. exact Hw. Qed.

Lemma invariant_log l msg : S_preserves pending_invariant (log l msg).
Proof. keeps_ids. Qed.

Lemma invariant_new_future : S_preserves pending_invariant new_future.
Proof. keeps_ids. Qed.

Lemma invariant_add_done_callback f cb :
  S_preserves pending_invariant (add_done_callback f cb).
Proof. unfold add_done_callback. keeps_ids. Qed.

Lemma invariant_set_result f v : S_preserves pending_invariant (set_result f v).
Proof. unfold set_result. keeps_ids. Qed.

Lemma invariant_cancel f : S_preserves pending_invariant (cancel f).
Proof. unfold cancel. keeps_ids. Qed.

Lemma invariant_future_result f : S_preserves pending_invariant (future_result f).
Proof. unfold future_result. keeps_ids. Qed.

Lemma invariant_transport_write msg : S_preserves pending_invariant (transport_write msg).
Proof. unfold transport_write, bind, get_protocol, modify_protocol, raise. keeps_ids. Qed.

Lemma invariant_set_connection conn :
  S_preserves pending_invariant (modify_protocol (set_connection conn)).
Proof. keeps_ids. Qed.

Lemma invariant_set_authentication_token t :
  S_preserves pending_invariant (modify_protocol (set_authentication_token t)).
Proof. keeps_ids. Qed.

Lemma invariant_modify_publishcallbacks f :
  S_preserves pending_invariant (modify_publishcallbacks f).
Proof. keeps_ids. Qed.

Lemma invariant_create_request_header hint :
  S_preserves pending_invariant (_create_request_header hint).
Proof. keeps_ids. Qed.

Lemma invariant_handle_back :
  S_preserves pending_invariant
    (modify_protocol (fun p => set_request_handle (_request_handle p - 1) p)).
Proof. keeps_ids. Qed.

(** Incrementing the counter keeps every pending id below it. *)
Lemma invariant_next_request_id :
  S_preserves pending_invariant
    (modify_protocol (fun p => set_request_id (_request_id p + 1) p)).
Proof.
  intros w [Hid Hkeys]. split; simpl; [lia|].
  intros k f Hk. specialize (Hkeys k f Hk). lia.
Qed.

(** Registering a future under the current counter. *)
Lemma invariant_register future :
  S_preserves pending_invariant
    (modify_protocol (fun p => set_callbackmap (<[_request_id p := future]> (_callbackmap p)) p)).
Proof.
  intros w [Hid Hkeys]. split; simpl; [exact Hid|].
  intros k f Hk. apply lookup_insert_Some in Hk as [[<- _]|[_ Hk]].
  - lia.
  - exact (Hkeys k f Hk).
Qed.

(** Registering the Hello sink under id [0]. *)
Lemma invariant_register_hello future :
  S_preserves pending_invariant
    (modify_protocol (fun p => set_callbackmap (<[0 := future]> (_callbackmap p)) p)).
Proof.
  intros w [Hid Hkeys]. split; simpl; [exact Hid|].
  intros k f Hk. apply lookup_insert_Some in Hk as [[<- _]|[_ Hk]].
  - lia.
  - exact (Hkeys k f Hk).
Qed.

Lemma invariant_unregister (m : gmap Z nat) w :
  pending_invariant w ->
  m ⊆ _callbackmap (protocol w) ->
  pending_invariant (set_protocol (set_callbackmap m) w).
Proof.
  intros [Hid Hkeys] Hsub. split; simpl; [exact Hid|].
  intros k f Hk. apply (Hkeys k f). eapply lookup_weaken; eassumption.
Qed.

End InvariantProofs.

Create HintDb inv discriminated.
#[global] Hint Resolve preserves_ret preserves_raise preserves_lift
  preserves_get_protocol preserves_coroutine_object invariant_log
  invariant_new_future invariant_add_done_callback invariant_set_result
  invariant_cancel invariant_future_result invariant_transport_write
  invariant_set_connection invariant_set_authentication_token
  invariant_modify_publishcallbacks invariant_create_request_header
  invariant_handle_back invariant_next_request_id invariant_register
  invariant_register_hello : inv.

(** Walks down a method body, one call at a time. *)
Ltac preserves_step :=
  first
    [ solve [auto with inv]
    | solve [keeps_ids]
    | apply preserves_bind; [|intros ?]
    | apply preserves_try_except; [|intros ? ? ?]
    | match goal with
      | |- S_preserves _ (match ?x with _ => _ end) => destruct x
      | |- S_preserves _ (if ?b then _ else _) => destruct b
      | |- S_preserves _ (let (_, _) := ?x in _) => destruct x
      end ].

Section MethodInvariants.
Context `{UaLibrary}.

Lemma invariant__send_request request callback hint message_type :
  S_preserves pending_invariant (_send_request request callback hint message_type).
Proof. unfold _send_request. repeat preserves_step. Qed.

Lemma invariant__call_callback request_id body :
  S_preserves pending_invariant (_call_callback request_id body).
Proof.
  unfold _call_callback. intros w Hw. unfold bind, get_protocol, modify_protocol; simpl.
  assert (Hdel : pending_invariant
                   (set_protocol (set_callbackmap (delete request_id (_callbackmap (protocol w)))) w)).
  { apply invariant_unregister; [assumption|]. apply delete_subseteq. }
  destruct (_callbackmap (protocol w) !! request_id) as [future|]; simpl.
  - apply (invariant_set_result future body _ Hdel).
  - exact Hdel.
Qed.

Lemma invariant_check_answer data context :
  S_preserves pending_invariant (check_answer data context).
Proof. unfold check_answer. repeat preserves_step. Qed.

Lemma invariant__receive_dispatch msg :
  S_preserves pending_invariant (_receive_dispatch msg).
Proof.
  destruct msg; simpl; auto using invariant__call_callback with inv.
Qed.

Lemma invariant_clear :
  S_preserves pending_invariant (modify_protocol (set_callbackmap ∅)).
Proof.
  intros w Hw. apply invariant_unregister; [assumption|]. apply map_empty_subseteq.
Qed.

Lemma invariant_set_channel params :
  S_preserves pending_invariant
    (modify_protocol (fun p => set_connection (set_channel (_connection p) params) p)).
Proof. intros w Hw. exact Hw. Qed.

Lemma invariant_struct_from_binary {T} (decode : Buffer -> result T) data :
  S_preserves pending_invariant (struct_from_binary decode data).
Proof. destruct data; simpl; auto with inv. Qed.

(** Coroutines *)

Lemma holds_run {A} P (m : S A) : S_preserves P m -> Coro_preserves P (run m).
Proof.
  intros Hm w Hw. unfold run. specialize (Hm w Hw).
  destruct (m w) as [r w']. exact Hm.
Qed.

Lemma holds_step_bind {A B} P (s : step A) (k : A -> Coro B) :
  holds_throughout P s -> (forall a, Coro_preserves P (k a)) ->
  holds_throughout P (step_bind s k).
Proof.
  intros Hs Hk. induction s as [[a|e] w|f d w c IH]; simpl in *.
  - apply Hk, Hs.
  - exact Hs.
  - destruct Hs as [Hw Hc]. split; [exact Hw|].
    intros r w' Hw'. apply IH, Hc, Hw'.
Qed.

Lemma holds_cbind {A B} P (c : Coro A) (k : A -> Coro B) :
  Coro_preserves P c -> (forall a, Coro_preserves P (k a)) ->
  Coro_preserves P (cbind c k).
Proof. intros Hc Hk w Hw. apply holds_step_bind; [apply Hc, Hw|exact Hk]. Qed.

Lemma invariant_await_future f : Coro_preserves pending_invariant (await_future f).
Proof.
  intros w Hw. unfold await_future.
  destruct (fut_state (get_future f w)); simpl; try exact Hw.
  split; [exact Hw|]. intros [v| |] w' Hw'; exact Hw'.
Qed.

Lemma invariant_wait_for f t : Coro_preserves pending_invariant (wait_for f t).
Proof.
  assert (Hc : Coro_preserves pending_invariant (run (cancel f >> @raise _ Buffer TimeoutError))).
  { apply holds_run. repeat preserves_step. }
  intros w Hw. unfold wait_for.
  destruct (fut_state (get_future f w)); simpl; try exact Hw.
  destruct (decide (t <= 0)); [apply Hc, Hw|].
  split; [exact Hw|]. intros [v| |] w' Hw'; try exact Hw'. apply Hc, Hw'.
Qed.

Lemma invariant_wait_for_buffer data t :
  Coro_preserves pending_invariant (wait_for_buffer data t).
Proof. apply holds_run. auto with inv. Qed.

End MethodInvariants.

#[global] Hint Resolve invariant__send_request invariant__call_callback
  invariant_check_answer invariant__receive_dispatch invariant_clear
  invariant_set_channel invariant_struct_from_binary : inv.

Ltac holds_step :=
  first
    [ apply invariant_wait_for
    | apply invariant_await_future
    | apply invariant_wait_for_buffer
    | apply holds_run; solve [repeat preserves_step]
    | apply holds_cbind; [|intros ?]
    | match goal with
      | |- Coro_preserves _ (match ?x with _ => _ end) => destruct x
      | |- Coro_preserves _ (let (_, _) := ?x in _) => destruct x
      end ].

Section CoroutineInvariants.
Context `{UaLibrary}.

Lemma invariant_send_request request callback hint message_type :
  Coro_preserves pending_invariant (send_request request callback hint message_type).
Proof. unfold send_request. repeat holds_step. Qed.

Lemma invariant_send_hello url m c :
  Coro_preserves pending_invariant (send_hello url m c).
Proof. unfold send_hello. repeat holds_step. Qed.

Lemma invariant_open_secure_channel params :
  Coro_preserves pending_invariant (open_secure_channel params).
Proof. unfold open_secure_channel. repeat holds_step. Qed.

Lemma invariant_close_secure_channel :
  Coro_preserves pending_invariant close_secure_channel.
Proof. unfold close_secure_channel. repeat holds_step. Qed.

Lemma invariant_create_session parameters :
  Coro_preserves pending_invariant (create_session parameters).
Proof. unfold create_session. repeat holds_step. Qed.

Lemma invariant_activate_session parameters :
  Coro_preserves pending_invariant (activate_session parameters).
Proof.
  unfold activate_session.
  repeat first [apply invariant_send_request | holds_step].
Qed.

Lemma invariant_close_session_check response :
  S_preserves pending_invariant (close_session_check response).
Proof.
  unfold close_session_check. apply preserves_try_except; [auto with inv|].
  intros e h He. destruct (decide _); inversion He; subst. auto with inv.
Qed.

Lemma invariant_close_session deletesubscriptions :
  Coro_preserves pending_invariant (close_session deletesubscriptions).
Proof.
  unfold close_session.
  repeat first [apply invariant_send_request
               | apply holds_run, invariant_close_session_check | holds_step].
Qed.

Lemma invariant_read nodes : Coro_preserves pending_invariant (read nodes).
Proof.
  unfold read. repeat first [apply invariant_send_request | holds_step].
Qed.

Lemma invariant_publish acks : Coro_preserves pending_invariant (publish acks).
Proof.
  unfold publish. repeat first [apply invariant_send_request | holds_step].
Qed.

Lemma invariant_publish_check_answer data :
  S_preserves pending_invariant (publish_check_answer data).
Proof.
  unfold publish_check_answer. apply preserves_try_except; [repeat preserves_step|].
  intros e h He. repeat destruct (decide _); inversion He; subst; repeat preserves_step.
Qed.

Lemma invariant_publish_parse data :
  S_preserves pending_invariant (publish_parse data).
Proof.
  unfold publish_parse. apply preserves_try_except; [repeat preserves_step|].
  intros e h He. inversion He; subst. repeat preserves_step.
Qed.

Lemma invariant_publish_lookup response :
  S_preserves pending_invariant (publish_lookup response).
Proof.
  intros w Hw. unfold publish_lookup.
  destruct (_publishcallbacks w !! _); [exact Hw|].
  revert w Hw. change (S_preserves pending_invariant
    (log WARNING "Received data for unknown subscription: %s " >>
     ret (@None UserCallback))).
  repeat preserves_step.
Qed.

Lemma invariant_publish_do_callback callback response :
  S_preserves pending_invariant (publish_do_callback callback response).
Proof.
  unfold publish_do_callback. apply preserves_try_except; [auto with inv|].
  intros e h He. inversion He; subst. auto with inv.
Qed.

Lemma invariant_publish_handle_data data :
  Coro_preserves pending_invariant (publish_handle_data data).
Proof.
  unfold publish_handle_data.
  repeat first [ apply holds_run, invariant_publish_check_answer
               | apply holds_run, invariant_publish_parse
               | apply holds_run, invariant_publish_lookup
               | apply holds_run, invariant_publish_do_callback
               | holds_step ].
Qed.

Lemma invariant__call_publish_callback future :
  Coro_preserves pending_invariant (_call_publish_callback future).
Proof.
  unfold _call_publish_callback.
  repeat first [apply invariant_publish_handle_data | holds_step].
Qed.

End CoroutineInvariants.

Section RequestIds.
Context `{UaLibrary}.

(** Once the request is encoded, [_send_request] moves the counter by one
    and registers the new future under it, whatever happens to the
    framing and the write. *)
Lemma _send_request_encoded request callback hint message_type w binreq :
  struct_to_binary (with_header request hint w) = Ok binreq ->
  let w' := (_send_request request callback hint message_type w).2 in
  _request_id (protocol w') = _request_id (protocol w) + 1 /\
  _callbackmap (protocol w') =
    <[_request_id (protocol w) + 1 := next_future w]> (_callbackmap (protocol w)).
Proof.
  intros Henc. unfold with_header in Henc.
  unfold _send_request, _create_request_header, bind, get_protocol,
    modify_protocol, ret, raise, log; simpl.
  rewrite Henc; simpl.
  destruct callback as [cb|]; simpl;
    [unfold add_done_callback, get_future; simpl; rewrite lookup_insert_eq; simpl|];
    destruct (message_to_binary _ _ _ _) as [[msg|e] conn]; simpl;
    unfold transport_write, bind, get_protocol, modify_protocol, lift, raise; simpl;
    destruct (transport (protocol w)); simpl; auto.
Qed.

(** A call moves the counter by one or not at all. *)
Lemma _send_request_id_step request callback hint message_type w :
  let w' := (_send_request request callback hint message_type w).2 in
  _request_id (protocol w') = _request_id (protocol w) \/
  _request_id (protocol w') = _request_id (protocol w) + 1.
Proof.
  destruct (struct_to_binary (with_header request hint w)) as [binreq|e] eqn:Henc.
  - right. eapply _send_request_encoded; eassumption.
  - left.
    destruct (_send_request_encode_failure request callback hint message_type w e Henc)
      as (w' & Heq & Hp & _).
    simpl. rewrite Heq. simpl. rewrite Hp. reflexivity.
Qed.

Lemma send_request_ids_consecutive calls : forall w,
  send_request_ids calls w =
    seqZ (_request_id (protocol w) + 1) (Z.of_nat (length (send_request_ids calls w))).
Proof.
  induction calls as [|[[[request callback] hint] message_type] calls IH];
    intros w; simpl; [reflexivity|].
  pose proof (_send_request_id_step request callback hint message_type w) as Hstep.
  simpl in Hstep.
  set (w' := (_send_request request callback hint message_type w).2) in *.
  destruct (decide _) as [Heq|Hne].
  - rewrite <- Heq. apply IH.
  - destruct Hstep as [Hstep|Hstep]; [contradiction|].
    simpl length. rewrite (seqZ_cons (_request_id (protocol w) + 1)) by lia.
    rewrite Hstep at 1. f_equal.
    rewrite (IH w') at 1. rewrite Hstep. f_equal; lia.
Qed.

End RequestIds.

Section PendingInvariant.
Context `{UaLibrary}.

Lemma send_request_ids_length calls : forall w,
  (length (send_request_ids calls w) <= length calls)%nat.
Proof.
  induction calls as [|[[[request callback] hint] message_type] calls IH];
    intros w; simpl; [lia|].
  destruct (decide _); simpl; [etrans; [apply IH|lia]|].
  specialize (IH (_send_request request callback hint message_type w).2). lia.
Qed.

Lemma pending_invariant_init t : pending_invariant (UaClient_init t).
Proof.
  split; simpl; [lia|]. intros k f Hk. rewrite lookup_empty in Hk. discriminate.
Qed.

Lemma pending_invariant_methods : methods_preserve pending_invariant.
Proof.
  unfold methods_preserve.
  repeat apply conj;
    first [ apply invariant__send_request | apply invariant__call_callback
          | apply invariant__receive_dispatch | apply invariant_send_request
          | apply invariant_send_hello | apply invariant_open_secure_channel
          | apply invariant_close_secure_channel | apply invariant_create_session
          | apply invariant_activate_session | apply invariant_close_session
          | apply invariant_read | apply invariant_publish
          | apply invariant__call_publish_callback ].
Qed.

(** C6: the request ids assigned by [_send_request] are consecutive, hence
    strictly increasing, the first one after construction being 1, and
    they fit 32 bits as long as fewer than [2^32] requests were made; the
    pending-request map never lists an id twice, and every id in it is at
    most the request id counter: this holds at construction and is kept
    by every method, at each point where it hands back control. *)
Theorem request_ids_increasing_and_pending_bounded :
  (forall t, _request_id (protocol (UaClient_init t)) = 0) /\
  (forall calls w,
     let ids := send_request_ids calls w in
     ids = seqZ (_request_id (protocol w) + 1) (Z.of_nat (length ids)) /\
     (forall i j a b, ids !! i = Some a -> ids !! j = Some b -> (i < j)%nat -> a < b) /\
     (_request_id (protocol w) = 0 -> Z.of_nat (length calls) < 2 ^ 32 ->
      Forall (fun id => 1 <= id < 2 ^ 32) ids)) /\
  (forall w, NoDup (pending_ids w)) /\
  (forall w, pending_invariant w ->
     Forall (fun id => id <= _request_id (protocol w)) (pending_ids w)) /\
  (forall t, pending_invariant (UaClient_init t)) /\
  (forall w, pending_invariant w -> pending_invariant (connection_made w)) /\
  methods_preserve pending_invariant.
Proof.
  split; [reflexivity|]. split; [|split; [|split; [|split; [|split]]]].
  - intros calls w ids.
    pose proof (send_request_ids_consecutive calls w) as Hseq. fold ids in Hseq.
    pose proof (send_request_ids_length calls w) as Hlen. fold ids in Hlen.
    split; [exact Hseq|]. split.
    + intros i j a b Hi Hj Hij. rewrite Hseq in Hi, Hj.
      apply lookup_seqZ in Hi as [-> _]. apply lookup_seqZ in Hj as [-> _]. lia.
    + intros Hzero Hcalls. rewrite Hseq. apply Forall_forall.
      intros id Hid. apply elem_of_seqZ in Hid. lia.
  - intros w. apply NoDup_fst_map_to_list.
  - intros w [_ Hkeys]. apply Forall_forall. intros id Hid.
    apply list_elem_of_fmap in Hid as [[k f] [-> Hkf]].
    apply elem_of_map_to_list in Hkf. apply (Hkeys k f Hkf).
  - apply pending_invariant_init.
  - intros w Hw. exact Hw.
  - apply pending_invariant_methods.
Qed.

End PendingInvariant.

Section PendingInvariantSamples.
#[local] Existing Instance sample_library.

Lemma request_ids_increasing_and_pending_bounded_witness :
  Forall (fun id => 1 <= id < 2 ^ 32)
    (send_request_ids
       [(sample_publish, None, 0, SecureMessage);
        (sample_unencodable, None, 0, SecureMessage);
        (sample_publish, None, 0, SecureMessage)] sample_world) /\
  Forall (fun id => id <= 1)
    (pending_ids (_send_request sample_publish None 0 SecureMessage sample_world).2).
Proof.
  destruct request_ids_increasing_and_pending_bounded
    as (Hzero & Hids & Hnodup & Hbound & Hinit & Hconn & Hmethods).
  split.
  - apply (Hids [(sample_publish, None, 0, SecureMessage);
                 (sample_unencodable, None, 0, SecureMessage);
                 (sample_publish, None, 0, SecureMessage)] sample_world).
    + reflexivity.
    + reflexivity.
  - apply (Hbound (_send_request sample_publish None 0 SecureMessage sample_world).2).
    apply (proj1 Hmethods). apply (Hconn (UaClient_init 1)). apply Hinit.
Defined.

(** The ids of the sample run are 1 and 2. *)
Example sample_run_request_ids :
  send_request_ids
    [(sample_publish, None, 0, SecureMessage);
     (sample_unencodable, None, 0, SecureMessage);
     (sample_publish, None, 0, SecureMessage)] sample_world = [1; 2].
Proof. vm_compute. reflexivity. Qed.

End PendingInvariantSamples.

Section LocalTimeout.
Context `{UaLibrary}.

(** With a callback, as [publish] calls it, [send_request] does not wait
    at all: it returns as soon as the request is written. *)
Lemma send_request_with_callback request cb hint message_type w :
  exists r w', send_request request (Some cb) hint message_type w = Done r w'.
Proof.
  unfold send_request, cbind, run.
  destruct (_send_request request (Some cb) hint message_type w) as [[[request' future]|e] w'];
    simpl; eauto.
Qed.

(** How [send_request] without a callback hands back control once the
    request is written. *)
Lemma send_request_first_handback request hint message_type w binreq written msg conn :
  struct_to_binary (with_header request hint w) = Ok binreq ->
  transport (protocol w) = Some written ->
  message_to_binary (_connection (protocol w)) binreq message_type
    (_request_id (protocol w) + 1) = (Ok msg, conn) ->
  exists w',
    send_request request None hint message_type w = Done (Raise InvalidStateError) w' /\
    _callbackmap (protocol w') !! (_request_id (protocol w) + 1) = Some (next_future w).
Proof.
  intros Henc Htr Hmsg.
  destruct (_send_request_success request None hint message_type w
              binreq written msg conn Henc Htr Hmsg)
    as (w' & Heq & _ & _ & Hmap & _ & _ & _ & _ & Hpending).
  exists w'. split.
  - unfold send_request, cbind, run. rewrite Heq. simpl.
    unfold future_result. rewrite Hpending. reflexivity.
  - rewrite Hmap. apply lookup_insert_eq.
Qed.

(** C1, as the code has it: the timeout argument of [send_request] is
    written to the [TimeoutHint] of the header of the request that is
    sent, and it is not the local wait deadline: whatever the call waits
    for, it waits under the timeout of the protocol, and the call hands
    back control in the same way (finished with the same result, or
    waiting for the same future under the same deadline) for every other
    value of the argument, 0 included.  The pending entry that the call
    registers is still in the map whenever [send_request] hands back
    control: nothing in [send_request] removes it. *)
Theorem send_request_timeout_is_header_hint
    request hint message_type w binreq written msg conn :
  struct_to_binary (with_header request hint w) = Ok binreq ->
  transport (protocol w) = Some written ->
  message_to_binary (_connection (protocol w)) binreq message_type
    (_request_id (protocol w) + 1) = (Ok msg, conn) ->
  (exists future w',
     _send_request request None hint message_type w = (Ok (with_header request hint w, future), w') /\
     TimeoutHint (req_header (with_header request hint w)) = hint /\
     transport (protocol w') = Some (written ++ [msg])) /\
  holds_throughout
    (fun w' => _callbackmap (protocol w') !! (_request_id (protocol w) + 1) = Some (next_future w))
    (send_request request None hint message_type w) /\
  waits_only_under (timeout (protocol w)) (send_request request None hint message_type w) /\
  (forall hint' binreq' msg' conn',
     struct_to_binary (with_header request hint' w) = Ok binreq' ->
     message_to_binary (_connection (protocol w)) binreq' message_type
       (_request_id (protocol w) + 1) = (Ok msg', conn') ->
     step_handback (send_request request None hint' message_type w) =
       step_handback (send_request request None hint message_type w)).
Proof.
  intros Henc Htr Hmsg.
  destruct (_send_request_success request None hint message_type w
              binreq written msg conn Henc Htr Hmsg)
    as (w' & Heq & Hid & Hh & Hmap & Htr' & _).
  destruct (send_request_first_handback request hint message_type w
              binreq written msg conn Henc Htr Hmsg) as (w1 & Hback & Hentry).
  split; [|split; [|split]].
  - exists (next_future w), w'. auto.
  - rewrite Hback. exact Hentry.
  - rewrite Hback. exact I.
  - intros hint' binreq' msg' conn' Henc' Hmsg'.
    destruct (send_request_first_handback request hint' message_type w
                binreq' written msg' conn' Henc' Htr Hmsg') as (w2 & Hback' & _).
    rewrite Hback, Hback'. reflexivity.
Qed.

(** When the deadline of [wait_for] passes, the future is cancelled and
    [TimeoutError] raised; the pending-request map is not touched. *)
Lemma wait_for_timed_out f t w k w' :
  wait_for f t w = Await f (Some t) w k ->
  exists w'',
    k TimedOut w' = Done (Raise TimeoutError) w'' /\
    _callbackmap (protocol w'') = _callbackmap (protocol w').
Proof.
  unfold wait_for. destruct (fut_state (get_future f w)); try discriminate.
  destruct (decide (t <= 0)).
  - unfold run, bind, cancel, raise.
    destruct (fut_state (get_future f w)); discriminate.
  - intros Heq. inversion Heq as [Hk]. clear Heq Hk.
    unfold run, bind, cancel, raise.
    destruct (fut_state (get_future f w')); simpl; eauto.
Qed.

(** Where the module does wait, as in [open_secure_channel], the deadline
    is the timeout the protocol was constructed with, while the header of
    the request carries the default hint of 1000. *)
Lemma open_secure_channel_waits_protocol_timeout params w binreq written msg conn :
  let request := new_request (OpenSecureChannelRequest params) in
  struct_to_binary (with_header request 1000 w) = Ok binreq ->
  transport (protocol w) = Some written ->
  message_to_binary (_connection (protocol w)) binreq SecureOpen
    (_request_id (protocol w) + 1) = (Ok msg, conn) ->
  0 < timeout (protocol w) ->
  exists w' k,
    open_secure_channel params w =
      Await (next_future w) (Some (timeout (protocol w))) w' k /\
    _callbackmap (protocol w') !! (_request_id (protocol w) + 1) = Some (next_future w).
Proof.
  intros request Henc Htr Hmsg Hpos.
  set (w1 := (log INFO "open_secure_channel" w).2).
  destruct (_send_request_success request None 1000 SecureOpen w1
              binreq written msg conn Henc Htr Hmsg)
    as (w' & Heq & _ & _ & Hmap & _ & _ & Htimeout & _ & Hpending).
  unfold open_secure_channel, cbind.
  change (run (log INFO "open_secure_channel") w) with (@Done _ unit (Ok tt) w1).
  cbn [step_bind]. unfold run at 1. fold request. rewrite Heq. cbn [step_bind].
  unfold run at 1. unfold get_protocol. cbn [step_bind].
  unfold wait_for at 1. rewrite Hpending.
  destruct (decide (timeout (protocol w') <= 0)) as [Hle|_].
  { rewrite Htimeout in Hle. simpl in Hle. lia. }
  cbn [step_bind]. rewrite Htimeout. simpl protocol.
  eexists _, _. split; [reflexivity|].
  rewrite Hmap. apply lookup_insert_eq.
Qed.

End LocalTimeout.

Section LocalTimeoutSamples.
#[local] Existing Instance sample_library.

Lemma send_request_timeout_is_header_hint_witness :
  (exists future w',
     _send_request sample_publish None 5 SecureMessage sample_world =
       (Ok (with_header sample_publish 5 sample_world, future), w') /\
     TimeoutHint (req_header (with_header sample_publish 5 sample_world)) = 5 /\
     transport (protocol w') = Some ([] ++ [[1; 1; 826; 0; 1; 5; 7]])) /\
  holds_throughout
    (fun w' => _callbackmap (protocol w') !! (_request_id (protocol sample_world) + 1) =
               Some (next_future sample_world))
    (send_request sample_publish None 5 SecureMessage sample_world) /\
  waits_only_under (timeout (protocol sample_world))
    (send_request sample_publish None 5 SecureMessage sample_world) /\
  step_handback (send_request sample_publish None 0 SecureMessage sample_world) =
    step_handback (send_request sample_publish None 5 SecureMessage sample_world).
Proof.
  destruct (send_request_timeout_is_header_hint sample_publish 5 SecureMessage sample_world
              [826; 0; 1; 5; 7] [] [1; 1; 826; 0; 1; 5; 7] 1)
    as (Hsent & Hentry & Hwaits & Hsame).
  - reflexivity.
  - reflexivity.
  - reflexivity.
  - split; [exact Hsent|]. split; [exact Hentry|]. split; [exact Hwaits|].
    apply (Hsame 0 [826; 0; 1; 0; 7] [1; 1; 826; 0; 1; 0; 7] 1).
    + reflexivity.
    + reflexivity.
Defined.

(** C1 as stated fails: the protocol was constructed with a timeout of 1;
    the same request is submitted once with a timeout of 5 and once with
    a timeout of 0, and no response arrives.  Were the argument the local
    deadline, the first call would be waiting for its future under the
    deadline 5 and the second without a deadline.  Neither is so: the two
    calls hand back control in the same way, and in the state in which
    the first does, request 1 is still in the pending map, its future
    neither completed nor cancelled. *)
Lemma send_request_timeout_argument_not_applied :
  timeout (protocol sample_world) = 1 /\
  step_handback (send_request sample_publish None 5 SecureMessage sample_world) <>
    WaitingFor 0 (Some 5) /\
  step_handback (send_request sample_publish None 0 SecureMessage sample_world) <>
    WaitingFor 0 None /\
  step_handback (send_request sample_publish None 5 SecureMessage sample_world) =
    step_handback (send_request sample_publish None 0 SecureMessage sample_world) /\
  (let w' := step_world (send_request sample_publish None 5 SecureMessage sample_world) in
   _callbackmap (protocol w') !! 1 = Some 0%nat /\
   fut_state (get_future 0 w') = PENDING).
Proof.
  split; [reflexivity|].
  split; [vm_compute; discriminate|].
  split; [vm_compute; discriminate|].
  split; [vm_compute; reflexivity|].
  split; vm_compute; reflexivity.
Qed.

End LocalTimeoutSamples.

Section PublishHandler.
Context `{UaLibrary}.

Lemma same_state_refl w : same_state w w.
Proof. repeat split. Qed.

Lemma same_state_trans w1 w2 w3 :
  same_state w1 w2 -> same_state w2 w3 -> same_state w1 w3.
Proof.
  intros (Hp & Hc & Ht & Hf & Hn & Hs) (Hp' & Hc' & Ht' & Hf' & Hn' & Hs').
  repeat split; congruence.
Qed.

Lemma log_same_state l msg w : same_state w (log l msg w).2.
Proof. repeat split. Qed.

Lemma check_answer_same_state data context w :
  same_state w (check_answer data context w).2.
Proof.
  unfold check_answer, bind, lift, ret, log.
  destruct (nodeid_from_binary data) as [[typeid rest]|e]; simpl; [|apply same_state_refl].
  destruct (decide (typeid = ServiceFault_typeid)) as [Hfault|Hother]; simpl;
    [|apply same_state_refl].
  destruct (decode_ResponseHeader rest) as [hdr|e]; simpl; [|repeat split].
  destruct (StatusCode_check (ServiceResult hdr)); simpl; repeat split.
Qed.

(** What [check_answer] returns or raises depends on the data only. *)
Lemma check_answer_result data context w w' :
  (check_answer data context w).1 = (check_answer data context w').1.
Proof.
  unfold check_answer, bind, lift, ret, log.
  destruct (nodeid_from_binary data) as [[typeid rest]|e]; simpl; [|reflexivity].
  destruct (decide (typeid = ServiceFault_typeid)) as [Hfault|Hother]; simpl;
    [|reflexivity].
  destruct (decode_ResponseHeader rest) as [hdr|e]; simpl; [|reflexivity].
  destruct (StatusCode_check (ServiceResult hdr)); reflexivity.
Qed.

Lemma await_future_finished future data cbs w :
  futures w !! future = Some (mkFuture (FINISHED data) cbs) ->
  await_future future w = Done (Ok data) w /\
  future_result future w = (Ok data, w).
Proof.
  intros Hfut. unfold await_future, future_result, get_future.
  rewrite Hfut. simpl. auto.
Qed.

(** The handler on a future that is done goes straight on to the data. *)
Lemma _call_publish_callback_finished future data cbs w :
  futures w !! future = Some (mkFuture (FINISHED data) cbs) ->
  exists w1,
    same_state w w1 /\
    _call_publish_callback future w = publish_handle_data data w1.
Proof.
  intros Hfut.
  exists (log INFO "call_publish_callback" w).2. split; [apply log_same_state|].
  assert (Hfut1 : futures (log INFO "call_publish_callback" w).2 !! future =
                  Some (mkFuture (FINISHED data) cbs)) by exact Hfut.
  destruct (await_future_finished future data cbs _ Hfut1) as [Hawait Hresult].
  unfold _call_publish_callback, cbind.
  change (run (log INFO "call_publish_callback") w)
    with (@Done _ unit (Ok tt) (log INFO "call_publish_callback" w).2).
  cbn [step_bind]. rewrite Hawait. cbn [step_bind].
  unfold run at 1. rewrite Hresult. cbn [step_bind]. reflexivity.
Qed.

(** On a future that is still pending the handler waits for it, without
    deadline, and goes on to the data once the loop resumes it. *)
Lemma _call_publish_callback_pending future w :
  fut_state (get_future future w) = PENDING ->
  exists w1 k,
    same_state w w1 /\
    _call_publish_callback future w = Await future None w1 k /\
    forall data cbs w',
      futures w' !! future = Some (mkFuture (FINISHED data) cbs) ->
      k (Completed data) w' = publish_handle_data data w'.
Proof.
  intros Hpending.
  unfold _call_publish_callback, cbind.
  change (run (log INFO "call_publish_callback") w)
    with (@Done _ unit (Ok tt) (log INFO "call_publish_callback" w).2).
  cbn [step_bind]. unfold await_future at 1.
  change (fut_state (get_future future (log INFO "call_publish_callback" w).2))
    with (fut_state (get_future future w)).
  rewrite Hpending. cbn [step_bind].
  eexists _, _. split; [apply log_same_state|]. split; [reflexivity|].
  intros data cbs w' Hfut. cbn [step_bind].
  destruct (await_future_finished future data cbs w' Hfut) as [_ Hresult].
  unfold run at 1. rewrite Hresult. cbn [step_bind]. reflexivity.
Qed.

End PublishHandler.

Section CallbackExceptions.
Context `{UaLibrary}.

Lemma publish_check_answer_ok data b w :
  (check_answer data "while waiting for publish response" w).1 = Ok b ->
  exists w', publish_check_answer data w = (Ok (Some tt), w') /\ same_state w w'.
Proof.
  intros Hok. unfold publish_check_answer, try_except, bind.
  pose proof (check_answer_same_state data "while waiting for publish response" w) as Hsame.
  destruct (check_answer data "while waiting for publish response" w) as [r w'].
  simpl in Hok, Hsame. subst r. simpl. eauto.
Qed.

Lemma publish_parse_ok data response w :
  decode_PublishResponse data = Ok response ->
  exists w', publish_parse data w = (Ok (Some response), w') /\ same_state w w'.
Proof.
  intros Hdecode. unfold publish_parse, try_except, bind, struct_from_binary, lift.
  rewrite Hdecode. simpl. eexists. split; [reflexivity|]. repeat split.
Qed.

Lemma publish_lookup_found response callback w :
  _publishcallbacks w !! SubscriptionId (pr_Parameters response) = Some callback ->
  publish_lookup response w = (Ok (Some callback), w).
Proof. intros Hcb. unfold publish_lookup. rewrite Hcb. reflexivity. Qed.

(** The four [try] statements on a notification whose callback raises. *)
Lemma publish_handle_data_callback_raises data b response callback e w :
  (check_answer data "while waiting for publish response" w).1 = Ok b ->
  decode_PublishResponse data = Ok response ->
  _publishcallbacks w !! SubscriptionId (pr_Parameters response) = Some callback ->
  callback (pr_Parameters response) = Raise e ->
  exists w',
    publish_handle_data data w = Done (Ok tt) w' /\
    same_state w w' /\
    last (logs w') = Some (ERROR, "Exception while calling user callback: %s"%string).
Proof.
  intros Hcheck Hdecode Hlookup Hraise.
  destruct (publish_check_answer_ok data b w Hcheck) as (w2 & Hchecked & Hs2).
  destruct (publish_parse_ok data response w2 Hdecode) as (w3 & Hparsed & Hs3).
  assert (Hs : same_state w w3) by (eauto using same_state_trans).
  assert (Hlookup3 : _publishcallbacks w3 !! SubscriptionId (pr_Parameters response) =
                     Some callback).
  { destruct Hs as (_ & -> & _). exact Hlookup. }
  unfold publish_handle_data, cbind.
  unfold run at 1. rewrite Hchecked. cbn [step_bind].
  unfold run at 1. rewrite Hparsed. cbn [step_bind].
  unfold run at 1. rewrite (publish_lookup_found response callback w3 Hlookup3).
  cbn [step_bind].
  unfold run, publish_do_callback, try_except, lift. rewrite Hraise. simpl.
  eexists. split; [reflexivity|]. split.
  - eapply same_state_trans; [exact Hs|]. repeat split.
  - simpl. apply last_snoc.
Qed.

(** C8: when the user's subscription callback raises, whatever it raises,
    the publish completion handler catches it and logs it: the handler
    returns normally, and the protocol state (pending map, counters,
    connection), the subscription callback map and the futures are what
    they were before the handler ran.  This holds when the handler finds
    the future done, and when it first has to wait for it and is resumed
    on the completed future. *)
Theorem user_callback_exception_is_caught future data cbs b response callback e w :
  futures w !! future = Some (mkFuture (FINISHED data) cbs) ->
  (check_answer data "while waiting for publish response" w).1 = Ok b ->
  decode_PublishResponse data = Ok response ->
  _publishcallbacks w !! SubscriptionId (pr_Parameters response) = Some callback ->
  callback (pr_Parameters response) = Raise e ->
  (exists w',
     _call_publish_callback future w = Done (Ok tt) w' /\
     same_state w w' /\
     last (logs w') = Some (ERROR, "Exception while calling user callback: %s"%string)) /\
  (forall w0, fut_state (get_future future w0) = PENDING ->
     exists w1 k,
       _call_publish_callback future w0 = Await future None w1 k /\
       same_state w0 w1 /\
       exists w',
         k (Completed data) w = Done (Ok tt) w' /\
         same_state w w' /\
         last (logs w') =
           Some (ERROR, "Exception while calling user callback: %s"%string)).
Proof.
  intros Hfut Hcheck Hdecode Hlookup Hraise. split.
  - destruct (_call_publish_callback_finished future data cbs w Hfut) as (w1 & Hs1 & ->).
    rewrite (check_answer_result _ _ w w1) in Hcheck.
    assert (Hlookup1 : _publishcallbacks w1 !! SubscriptionId (pr_Parameters response) =
                       Some callback).
    { destruct Hs1 as (_ & -> & _). exact Hlookup. }
    destruct (publish_handle_data_callback_raises data b response callback e w1
                Hcheck Hdecode Hlookup1 Hraise) as (w' & Heq & Hs & Hlog).
    exists w'. split; [exact Heq|]. split; [|exact Hlog].
    eapply same_state_trans; eassumption.
  - intros w0 Hpending.
    destruct (_call_publish_callback_pending future w0 Hpending)
      as (w1 & k & Hs1 & Heq & Hk).
    exists w1, k. split; [exact Heq|]. split; [exact Hs1|].
    rewrite (Hk data cbs w Hfut).
    apply (publish_handle_data_callback_raises data b response callback e w
             Hcheck Hdecode Hlookup Hraise).
Qed.

End CallbackExceptions.

Section PublishTimeout.
Context `{UaLibrary}.

(** On [BadTimeout] the handler calls [self.publish()] without awaiting
    it and returns: no request is built, registered or written. *)
Lemma _call_publish_callback_BadTimeout future data cbs w :
  futures w !! future = Some (mkFuture (FINISHED data) cbs) ->
  (check_answer data "while waiting for publish response" w).1 =
    Raise (UaStatusCodeError BadTimeout) ->
  exists w', _call_publish_callback future w = Done (Ok tt) w' /\ same_state w w'.
Proof.
  intros Hfut Hcheck.
  destruct (_call_publish_callback_finished future data cbs w Hfut) as (w1 & Hs1 & ->).
  rewrite (check_answer_result _ _ w w1) in Hcheck.
  pose proof (check_answer_same_state data "while waiting for publish response" w1) as Hs2.
  unfold publish_handle_data, cbind.
  unfold run at 1. unfold publish_check_answer, try_except, bind.
  destruct (check_answer data "while waiting for publish response" w1) as [r w2].
  simpl in Hcheck, Hs2. subst r.
  destruct (decide (UaStatusCodeError BadTimeout = UaStatusCodeError BadTimeout));
    [|contradiction].
  simpl. eexists. split; [reflexivity|].
  eapply same_state_trans; eassumption.
Qed.

End PublishTimeout.

Section PublishSamples.
#[local] Existing Instance sample_library.

Lemma user_callback_exception_is_caught_witness :
  (exists w',
     _call_publish_callback 0 (sample_completed sample_notification) = Done (Ok tt) w' /\
     same_state (sample_completed sample_notification) w' /\
     last (logs w') = Some (ERROR, "Exception while calling user callback: %s"%string)) /\
  (forall w0, fut_state (get_future 0 w0) = PENDING ->
     exists w1 k,
       _call_publish_callback 0 w0 = Await 0 None w1 k /\
       same_state w0 w1 /\
       exists w',
         k (Completed sample_notification) (sample_completed sample_notification) =
           Done (Ok tt) w' /\
         same_state (sample_completed sample_notification) w' /\
         last (logs w') =
           Some (ERROR, "Exception while calling user callback: %s"%string)).
Proof.
  apply (user_callback_exception_is_caught 0%nat sample_notification [] true
           (mkPublishResponse (mkResponseHeader 1 0) (mkPublishResult 3 [42]))
           sample_raising_callback (UserError 1)
           (sample_completed sample_notification)).
  - vm_compute. reflexivity.
  - vm_compute. reflexivity.
  - vm_compute. reflexivity.
  - vm_compute. reflexivity.
  - reflexivity.
Defined.

(** C3, at the failing input: a publish request was sent (request 1), its
    response is a service fault with [BadTimeout], and the handler runs on
    the completed future.  [check_answer] raises [BadTimeout]; the handler
    returns, and the transport still holds the one frame of request 1, the
    request id counter is still 1 and no entry is pending: no new
    [PublishRequest] has been sent. *)
Theorem publish_not_reissued_on_BadTimeout :
  let w := sample_completed (sample_fault BadTimeout) in
  (check_answer (sample_fault BadTimeout) "while waiting for publish response" w).1 =
    Raise (UaStatusCodeError BadTimeout) /\
  exists w',
    _call_publish_callback 0 w = Done (Ok tt) w' /\
    transport (protocol w') = Some [[1; 1; 826; 0; 1; 0]] /\
    _request_id (protocol w') = 1 /\
    _callbackmap (protocol w') = ∅.
Proof.
  split; [vm_compute; reflexivity|].
  eexists. split; [vm_compute; reflexivity|].
  split; [vm_compute; reflexivity|]. split; vm_compute; reflexivity.
Qed.

(** While the response is outstanding the handler waits on the future,
    without a deadline. *)
Example _call_publish_callback_waits :
  fut_state (get_future 0 sample_published) = PENDING /\
  exists w1 k, _call_publish_callback 0 sample_published = Await 0 None w1 k.
Proof.
  split; [vm_compute; reflexivity|].
  destruct (_call_publish_callback_pending 0%nat sample_published)
    as (w1 & k & _ & Heq & _); [vm_compute; reflexivity|].
  exists w1, k. exact Heq.
Qed.

End PublishSamples.

Section ReadCast.
Context `{UaLibrary}.

(** One iteration either raises, or puts the expected result at [idx]
    and leaves the other results alone. *)
Lemma read_cast_one_spec idx rv results results' :
  read_cast_one idx rv results = Ok results' ->
  length results' = length results /\
  (forall j, j <> idx -> results' !! j = results !! j) /\
  (forall dv, results !! idx = Some dv ->
     exists dv', read_cast_expected rv dv = Ok dv' /\ results' !! idx = Some dv').
Proof.
  unfold read_cast_one, read_cast_expected, set_value.
  destruct (decide (AttributeId rv = AttributeIds_NodeClass)) as [Hnc|Hnc];
    [|destruct (decide (AttributeId rv = AttributeIds_ValueRank)) as [Hvr|Hvr]].
  - destruct (results !! idx) as [dv|] eqn:Hdv; [|discriminate].
    destruct (is_good (StatusCode dv)) eqn:Hgood.
    + destruct (NodeClass_call (Value dv)) as [v|e] eqn:Hcall; [|discriminate].
      intros [= <-]. split; [apply length_insert|]. split.
      * intros j Hj. apply list_lookup_insert_ne. congruence.
      * intros dv0 [= <-]. rewrite Hgood, Hcall. eexists. split; [reflexivity|].
        apply list_lookup_insert_eq. eapply lookup_lt_Some, Hdv.
    + intros [= <-]. split; [reflexivity|]. split; [reflexivity|].
      intros dv0 [= <-]. rewrite Hgood. eauto.
  - destruct (results !! idx) as [dv|] eqn:Hdv; [|discriminate].
    destruct (is_good (StatusCode dv) && in_value_ranks (Value dv)) eqn:Hgood.
    + destruct (ValueRank_call (Value dv)) as [v|e] eqn:Hcall; [|discriminate].
      intros [= <-]. split; [apply length_insert|]. split.
      * intros j Hj. apply list_lookup_insert_ne. congruence.
      * intros dv0 [= <-]. rewrite Hgood, Hcall. eexists. split; [reflexivity|].
        apply list_lookup_insert_eq. eapply lookup_lt_Some, Hdv.
    + intros [= <-]. split; [reflexivity|]. split; [reflexivity|].
      intros dv0 [= <-]. rewrite Hgood. eauto.
  - intros [= <-]. split; [reflexivity|]. split; [reflexivity|]. eauto.
Qed.

Lemma read_cast_spec_from nodes : forall idx results results',
  read_cast idx nodes results = Ok results' ->
  length results' = length results /\
  (forall j, (j < idx)%nat \/ (idx + length nodes <= j)%nat ->
     results' !! j = results !! j) /\
  (forall i rv dv, nodes !! i = Some rv -> results !! (idx + i)%nat = Some dv ->
     exists dv', read_cast_expected rv dv = Ok dv' /\
                 results' !! (idx + i)%nat = Some dv').
Proof.
  induction nodes as [|rv0 nodes IH]; intros idx results results'; simpl.
  - intros [= <-]. split; [reflexivity|]. split; [reflexivity|].
    intros i rv dv Hi. rewrite lookup_nil in Hi. discriminate.
  - destruct (read_cast_one idx rv0 results) as [r1|e] eqn:Hone; [|discriminate].
    intros Hrest.
    destruct (read_cast_one_spec idx rv0 results r1 Hone) as (Hlen1 & Hother1 & Hat1).
    destruct (IH (Datatypes.S idx) r1 results' Hrest) as (Hlen & Hother & Hat).
    split; [congruence|]. split.
    + intros j Hj. rewrite Hother by lia. apply Hother1. lia.
    + intros [|i] rv dv Hrv Hdv; simpl in Hrv.
      * injection Hrv as <-. rewrite Nat.add_0_r in *.
        destruct (Hat1 dv Hdv) as (dv' & Hexp & Hdv').
        exists dv'. split; [exact Hexp|]. rewrite Hother by lia. exact Hdv'.
      * replace (idx + Datatypes.S i)%nat with (Datatypes.S idx + i)%nat in * by lia.
        apply (Hat i rv dv Hrv). rewrite Hother1 by lia. exact Hdv.
Qed.

End ReadCast.

Section ReadCastTotal.
Context `{UaLibrary}.

Lemma read_cast_one_total idx rv results dv dv' :
  results !! idx = Some dv ->
  read_cast_expected rv dv = Ok dv' ->
  exists results', read_cast_one idx rv results = Ok results'.
Proof.
  intros Hdv. unfold read_cast_one, read_cast_expected. rewrite Hdv.
  repeat match goal with
         | |- context [decide ?P] => destruct (decide P)
         | |- context [if ?b then _ else _] => destruct b
         | |- context [match ?c with Ok _ => _ | Raise _ => _ end] => destruct c
         end; intros; try discriminate; eauto.
Qed.

Lemma read_cast_total_from nodes : forall idx results,
  (idx + length nodes <= length results)%nat ->
  (forall i rv dv, nodes !! i = Some rv -> results !! (idx + i)%nat = Some dv ->
     is_Ok (read_cast_expected rv dv) = true) ->
  exists results', read_cast idx nodes results = Ok results'.
Proof.
  induction nodes as [|rv0 nodes IH]; intros idx results Hlen Hok; simpl; [eauto|].
  simpl in Hlen.
  destruct (lookup_lt_is_Some_2 results idx) as [dv Hdv]; [lia|].
  pose proof (Hok 0%nat rv0 dv eq_refl) as Hok0. rewrite Nat.add_0_r in Hok0.
  specialize (Hok0 Hdv).
  destruct (read_cast_expected rv0 dv) as [dv'|e] eqn:Hexp; [|discriminate].
  destruct (read_cast_one_total idx rv0 results dv dv' Hdv Hexp) as [r1 Hone].
  rewrite Hone.
  destruct (read_cast_one_spec idx rv0 results r1 Hone) as (Hlen1 & Hother1 & _).
  apply IH; [lia|].
  intros i rv dv1 Hrv Hdv1. rewrite Hother1 in Hdv1 by lia.
  apply (Hok (Datatypes.S i) rv dv1 Hrv).
  replace (idx + Datatypes.S i)%nat with (Datatypes.S idx + i)%nat by lia. exact Hdv1.
Qed.

(** C4, as the code has it: the loop of [read] over the requested
    [NodesToRead] returns, and puts at every index the result that
    [read_cast_expected] describes: the value as a member of [NodeClass]
    when the attribute is [NodeClass] and the status of the result is
    good; as a member of [ValueRank] when the attribute is [ValueRank],
    the status is good and the value is one of -3 .. 4; the result
    untouched in every other case, a status that is not good included. *)
Theorem read_cast_casts_good_results nodes results :
  (length nodes <= length results)%nat ->
  (forall i rv dv, nodes !! i = Some rv -> results !! i = Some dv ->
     is_Ok (read_cast_expected rv dv) = true) ->
  exists results',
    read_cast 0 nodes results = Ok results' /\
    length results' = length results /\
    forall i rv dv, nodes !! i = Some rv -> results !! i = Some dv ->
      exists dv', read_cast_expected rv dv = Ok dv' /\ results' !! i = Some dv'.
Proof.
  intros Hlen Hok.
  destruct (read_cast_total_from nodes 0 results Hlen Hok) as [results' Hcast].
  exists results'. split; [exact Hcast|].
  destruct (read_cast_spec_from nodes 0 results results' Hcast) as (Hl & _ & Hat).
  split; [exact Hl|]. intros i rv dv Hrv Hdv. apply (Hat i rv dv Hrv Hdv).
Qed.

(** What is expected of an integer value, case by case. *)
Lemma read_cast_expected_NodeClass rv v status :
  AttributeId rv = AttributeIds_NodeClass ->
  is_good status = true ->
  NodeClass_member v = true ->
  read_cast_expected rv (mkDataValue (VInt v) status) = Ok (mkDataValue (VNodeClass v) status).
Proof.
  intros Hattr Hgood Hmember. unfold read_cast_expected, NodeClass_call; simpl.
  destruct (decide _); [|contradiction]. rewrite Hgood, Hmember. reflexivity.
Qed.

Lemma read_cast_expected_ValueRank rv v status :
  AttributeId rv = AttributeIds_ValueRank ->
  is_good status = true ->
  v ∈ [-3; -2; -1; 0; 1; 2; 3; 4] ->
  ValueRank_member v = true ->
  read_cast_expected rv (mkDataValue (VInt v) status) = Ok (mkDataValue (VValueRank v) status).
Proof.
  intros Hattr Hgood Hin Hmember. unfold read_cast_expected, ValueRank_call; simpl.
  destruct (decide (AttributeId rv = AttributeIds_NodeClass)) as [Hnc|_].
  { exfalso. apply AttributeIds_distinct. congruence. }
  destruct (decide _); [|contradiction].
  rewrite Hgood, Hmember, (bool_decide_eq_true_2 _ Hin). reflexivity.
Qed.

Lemma read_cast_expected_ValueRank_outside rv v status :
  AttributeId rv = AttributeIds_ValueRank ->
  v ∉ [-3; -2; -1; 0; 1; 2; 3; 4] ->
  read_cast_expected rv (mkDataValue (VInt v) status) = Ok (mkDataValue (VInt v) status).
Proof.
  intros Hattr Hout. unfold read_cast_expected; simpl.
  destruct (decide (AttributeId rv = AttributeIds_NodeClass)) as [Hnc|_].
  { exfalso. apply AttributeIds_distinct. congruence. }
  destruct (decide _); [|contradiction].
  rewrite (bool_decide_eq_false_2 _ Hout), andb_false_r. reflexivity.
Qed.

Lemma read_cast_expected_not_good rv dv :
  is_good (StatusCode dv) = false -> read_cast_expected rv dv = Ok dv.
Proof.
  intros Hbad. unfold read_cast_expected. rewrite Hbad. simpl.
  repeat destruct (decide _); reflexivity.
Qed.

End ReadCastTotal.

Section ReadSamples.
#[local] Existing Instance sample_library.

Lemma read_cast_casts_good_results_witness :
  exists results',
    read_cast 0 sample_read_nodes sample_read_results = Ok results' /\
    length results' = length sample_read_results /\
    forall i rv dv, sample_read_nodes !! i = Some rv -> sample_read_results !! i = Some dv ->
      exists dv', read_cast_expected rv dv = Ok dv' /\ results' !! i = Some dv'.
Proof.
  apply (read_cast_casts_good_results sample_read_nodes sample_read_results).
  - simpl. lia.
  - intros [|[|i]] rv dv Hrv Hdv; simpl in Hrv, Hdv;
      try discriminate; injection Hrv as <-; injection Hdv as <-; reflexivity.
Defined.

(** The basic read of the specification: the integers 1 and -1 come back
    as the members [NodeClass(1)] and [ValueRank(-1)]. *)
Example read_cast_basic_read :
  read_cast 0 sample_read_nodes sample_read_results =
    Ok [mkDataValue (VNodeClass 1) 0; mkDataValue (VValueRank (-1)) 0].
Proof. vm_compute. reflexivity. Qed.

(** C4 as stated fails: the attribute requested is [NodeClass] and the
    result holds the integer 1, of which [NodeClass] has a member, but the
    status of the result is not good and the integer is left as it is. *)
Lemma read_cast_leaves_uncertain_result :
  AttributeId (mkReadValueId (mkNodeId 0 85) 2) = AttributeIds_NodeClass /\
  NodeClass_call (Value sample_uncertain) = Ok (VNodeClass 1) /\
  read_cast 0 [mkReadValueId (mkNodeId 0 85) 2] [sample_uncertain] =
    Ok [mkDataValue (VInt 1) 0x40920000].
Proof. repeat split; vm_compute; reflexivity. Qed.

End ReadSamples.

Section Sessions.
Context `{UaLibrary}.

(** Without a callback [send_request] never delivers a response body:
    [future.result()] is called on the future that [_send_request] has
    just created, and whatever that call gives is not awaitable. *)
Lemma send_request_without_callback_raises request hint message_type w :
  exists e w', send_request request None hint message_type w = Done (Raise e) w'.
Proof.
  unfold send_request, cbind, run.
  destruct (_send_request request None hint message_type w) as [[[request' future]|e] w'];
    simpl; [|eauto].
  unfold future_result.
  destruct (fut_state (get_future future w')); simpl; eauto.
Qed.

(** On a connected transport the error is [InvalidStateError], raised
    after the request has been written. *)
Lemma send_request_without_callback_invalid_state
    request hint message_type w binreq written msg conn :
  struct_to_binary (with_header request hint w) = Ok binreq ->
  transport (protocol w) = Some written ->
  message_to_binary (_connection (protocol w)) binreq message_type
    (_request_id (protocol w) + 1) = (Ok msg, conn) ->
  exists w',
    send_request request None hint message_type w = Done (Raise InvalidStateError) w' /\
    transport (protocol w') = Some (written ++ [msg]).
Proof.
  intros Henc Htr Hmsg.
  unfold send_request, cbind, run, _send_request, _create_request_header, bind,
    get_protocol, modify_protocol, ret, raise, log; simpl.
  unfold with_header in Henc. rewrite Henc; simpl. rewrite Hmsg; simpl.
  unfold transport_write, bind, get_protocol, modify_protocol, lift; simpl.
  rewrite Htr; simpl.
  unfold future_result, get_future; simpl. rewrite lookup_insert_eq; simpl.
  eexists. split; reflexivity.
Qed.

(** What [close_session] does with a decoded response: a
    [BadSessionClosed] service result is ignored, any other service result
    that is not good is raised. *)
Lemma close_session_check_tolerates response w :
  (ServiceResult response = BadSessionClosed ->
   close_session_check response w = (Ok tt, w)) /\
  (ServiceResult response <> BadSessionClosed ->
   is_good (ServiceResult response) = false ->
   close_session_check response w = (Raise (UaStatusCodeError (ServiceResult response)), w)).
Proof.
  unfold close_session_check, try_except, lift, StatusCode_check, ret. split.
  - intros ->. destruct (is_good BadSessionClosed); [reflexivity|].
    destruct (decide _); [reflexivity|contradiction].
  - intros Hne ->. destruct (decide _) as [Heq|_]; [|reflexivity].
    injection Heq as Heq. contradiction.
Qed.

(** C9, on the code: [close_session] awaits [send_request] without a
    callback, which never delivers the response; the call raises whatever
    the server answers, a [BadSessionClosed] service result included. *)
Theorem close_session_never_returns deletesubscriptions w :
  exists e w', close_session deletesubscriptions w = Done (Raise e) w'.
Proof.
  unfold close_session, cbind.
  change (run (log INFO "close_session") w)
    with (@Done _ unit (Ok tt) (log INFO "close_session" w).2).
  cbn [step_bind].
  destruct (send_request_without_callback_raises
              (new_request (CloseSessionRequest deletesubscriptions)) 1000 SecureMessage
              (log INFO "close_session" w).2) as (e & w' & ->).
  cbn [step_bind]. eauto.
Qed.

(** The header of a request carries the token held by the protocol. *)
Lemma _create_request_header_token hint w :
  exists hdr w',
    _create_request_header hint w = (Ok hdr, w') /\
    AuthenticationToken hdr = authentication_token (protocol w) /\
    authentication_token (protocol w') = authentication_token (protocol w).
Proof.
  unfold _create_request_header, bind, get_protocol, modify_protocol, ret; simpl.
  eexists _, _. split; [reflexivity|]. split; reflexivity.
Qed.

(** C5, on the code: [create_session] does not await [send_request]; no
    request is sent, the decoder is handed a coroutine object and raises,
    and the authentication token of the protocol is what it was. *)
Theorem create_session_stores_no_token parameters w :
  exists w',
    create_session parameters w = Done (Raise AttributeError) w' /\
    authentication_token (protocol w') = authentication_token (protocol w) /\
    transport (protocol w') = transport (protocol w) /\
    same_state w w'.
Proof.
  unfold create_session, cbind, run, coroutine_object, struct_from_binary, log, ret, raise.
  simpl. eexists. split; [reflexivity|]. repeat split.
Qed.

End Sessions.

Section SessionSamples.
#[local] Existing Instance sample_library.

(** On the connected sample client: the close-session request is written,
    and the call raises [InvalidStateError] at once. *)
Example close_session_sample :
  exists w',
    close_session true sample_world = Done (Raise InvalidStateError) w' /\
    transport (protocol w') = Some [[1; 1; 473; 0; 1; 1000; 1]].
Proof. eexists. split; vm_compute; reflexivity. Qed.

Example create_session_sample :
  exists w',
    create_session [] sample_world = Done (Raise AttributeError) w' /\
    authentication_token (protocol w') = NodeId_default /\
    transport (protocol w') = Some [].
Proof. eexists. split; [|split]; vm_compute; reflexivity. Qed.

End SessionSamples.

(** ** Reading from the socket *)

Section SocketRead.
Import UASocket.

Lemma slice_to_from chunk n : slice_to chunk n ++ slice_from chunk n = chunk.
Proof. unfold slice_to, slice_from. destruct (decide (0 <= n)); apply take_drop. Qed.

Lemma next_chunk_pending_bytes r chunk r' :
  next_chunk r = Some (chunk, r') ->
  chunk ++ pending_bytes r' = pending_bytes r /\
  default [] (_leftover_chunk r') = [].
Proof.
  unfold next_chunk, pending_bytes.
  destruct (_leftover_chunk r) as [[|b bs]|] eqn:Hleft;
    try (destruct (receive_buffer r) as [|c queue]; [discriminate|]);
    intros [= <- <-]; simpl; rewrite ?Hleft; auto.
Qed.

Lemma pending_bytes_set_leftover chunk r :
  pending_bytes (set_leftover chunk r) = chunk ++ concat (receive_buffer r).
Proof. reflexivity. Qed.

(** [read] neither loses, nor repeats, nor reorders a byte: at whatever
    point the loop stands, the data read so far followed by the bytes
    still waiting (leftover chunk, then queue) are the bytes that were
    waiting when it started. *)
Theorem read_keeps_byte_stream fuel size r :
  outcome_data (read fuel size r) ++ pending_bytes (outcome_receiver (read fuel size r)) =
    pending_bytes r.
Proof.
  unfold read. change (pending_bytes r) with ([] ++ pending_bytes r).
  generalize (@nil Z) as data. revert size r.
  induction fuel as [|fuel IH]; intros size r data; simpl.
  - destruct (decide (size > 0)); reflexivity.
  - destruct (decide (size > 0)); [|reflexivity].
    destruct (next_chunk r) as [[chunk r1]|] eqn:Hnext; [|reflexivity].
    destruct (next_chunk_pending_bytes r chunk r1 Hnext) as [Hbytes Hleft].
    destruct (decide _).
    + rewrite IH, <- Hbytes, app_assoc. reflexivity.
    + rewrite IH, pending_bytes_set_leftover, <- Hbytes.
      unfold pending_bytes. rewrite Hleft. simpl.
      rewrite <- (slice_to_from chunk (size - Z.of_nat (length data))) at 3.
      rewrite <- !app_assoc. reflexivity.
Qed.

Lemma read_loop_length fuel : forall data size r d r',
  read_loop fuel data size r = Returned d r' ->
  Z.of_nat (length data) + size <= Z.of_nat (length d).
Proof.
  induction fuel as [|fuel IH]; intros data size r d r'; simpl.
  - destruct (decide (size > 0)); [discriminate|]. intros [= <- <-]. lia.
  - destruct (decide (size > 0)); [|intros [= <- <-]; lia].
    destruct (next_chunk r) as [[chunk r1]|]; [|discriminate].
    destruct (decide _); intros Hret; apply IH in Hret;
      rewrite length_app in Hret; lia.
Qed.

(** When [read] returns, it returns at least [size] bytes. *)
Theorem read_returns_at_least_size fuel size r d r' :
  read fuel size r = Returned d r' -> size <= Z.of_nat (length d).
Proof. intros Hret. apply read_loop_length in Hret. simpl in Hret. lia. Qed.

(** When the chunk that is next (the leftover chunk, else the head of the
    queue) holds at least [size] bytes, [read] returns its first [size]
    bytes in one iteration and keeps the rest, if any, as the leftover
    chunk. *)
Theorem read_from_one_chunk fuel size r chunk r1 :
  next_chunk r = Some (chunk, r1) ->
  0 < size <= Z.of_nat (length chunk) ->
  read (Datatypes.S fuel) size r =
    Returned (take (Z.to_nat size) chunk)
      (if decide (Z.of_nat (length chunk) = size) then r1
       else set_leftover (drop (Z.to_nat size) chunk) r1).
Proof.
  intros Hnext [Hpos Hlen]. unfold read. simpl.
  destruct (decide (size > 0)); [|lia]. rewrite Hnext. simpl.
  rewrite Z.sub_0_r.
  destruct (decide (Z.of_nat (length chunk) <= size)) as [Hle|Hgt].
  - assert (Heq : Z.of_nat (length chunk) = size) by lia.
    destruct (decide _); [|contradiction].
    rewrite take_ge by lia.
    destruct fuel; simpl; destruct (decide _); try lia; reflexivity.
  - destruct (decide _); [lia|].
    unfold slice_to, slice_from. destruct (decide (0 <= size)); [|lia].
    assert (Hzero : size - Z.of_nat (length (take (Z.to_nat size) chunk)) = 0).
    { rewrite length_take. lia. }
    rewrite Hzero.
    destruct fuel; simpl; reflexivity.
Qed.

Lemma read_loop_no_progress fuel data size r chunk :
  size > 0 ->
  _leftover_chunk r = Some chunk ->
  chunk <> [] ->
  size - Z.of_nat (length data) + Z.of_nat (length chunk) <= 0 ->
  read_loop fuel data size r = Running data size r.
Proof.
  intros Hsize Hleft Hne Hstuck.
  induction fuel as [|fuel IH]; simpl; destruct (decide (size > 0)); try lia;
    [reflexivity|].
  unfold next_chunk. rewrite Hleft.
  destruct chunk as [|b bs]; [contradiction|].
  destruct (decide _) as [Hle|_]; [simpl in *; lia|].
  unfold slice_to, slice_from.
  destruct (decide (0 <= size - Z.of_nat (length data))) as [Hpos|_];
    [simpl in *; lia|].
  replace (Z.to_nat (Z.of_nat (length (b :: bs)) + (size - Z.of_nat (length data))))
    with 0%nat by lia.
  rewrite take_0, drop_0, app_nil_r. simpl length. rewrite Z.sub_0_r.
  replace (set_leftover (b :: bs) _) with r; [exact IH|].
  destruct r; simpl in *. unfold set_leftover; simpl. congruence.
Qed.

(** The loop can go round for ever: with bytes still to go, a leftover
    chunk that is not empty, and more data collected than the remaining
    size by at least the length of the leftover chunk, an iteration takes
    nothing off the chunk and stores all of it as the leftover again; the
    loop does not return however many iterations it is given. *)
Theorem read_loop_stuck data size r chunk :
  size > 0 ->
  _leftover_chunk r = Some chunk ->
  chunk <> [] ->
  size - Z.of_nat (length data) + Z.of_nat (length chunk) <= 0 ->
  forall fuel, read_loop fuel data size r = Running data size r.
Proof. intros Hsize Hleft Hne Hstuck fuel. apply read_loop_no_progress with chunk; assumption. Qed.

(** Reading ten bytes off two chunks of four bytes gets there: after the
    two chunks the loop holds six bytes, wants four more, and goes round
    on the leftover two. *)
Example read_ten_of_two_chunks_never_returns fuel :
  read (3 + fuel) 10 sample_two_chunks = Running [1; 2; 3; 4; 5; 6] 4 sample_stuck.
Proof.
  unfold read. change (3 + fuel)%nat with (Datatypes.S (Datatypes.S (Datatypes.S fuel))).
  change (read_loop (Datatypes.S (Datatypes.S (Datatypes.S fuel))) [] 10 sample_two_chunks)
    with (read_loop (Datatypes.S fuel) [1; 2; 3; 4; 5; 6] 4 sample_stuck).
  apply read_loop_no_progress with [7; 8]; [lia|reflexivity|discriminate|simpl; lia].
Qed.

Lemma read_from_one_chunk_witness :
  read 1 3 sample_one_chunk =
    Returned (take (Z.to_nat 3) [1; 2; 3; 4; 5])
      (if decide (Z.of_nat (length [1; 2; 3; 4; 5]) = 3)
       then mkReceiver [] true None 1
       else set_leftover (drop (Z.to_nat 3) [1; 2; 3; 4; 5]) (mkReceiver [] true None 1)).
Proof.
  apply (read_from_one_chunk 0 3 sample_one_chunk [1; 2; 3; 4; 5] (mkReceiver [] true None 1)).
  - reflexivity.
  - simpl. lia.
Defined.

(** Four bytes are asked for and thirteen are waiting in two chunks: the
    call returns eleven of them. *)
Lemma read_returns_at_least_size_witness :
  read 2 4 sample_short_then_long =
    Returned [1; 2; 3; 4; 5; 6; 7; 8; 9; 10; 11] (mkReceiver [] true (Some [12; 13]) 1) /\
  4 <= Z.of_nat (length [1; 2; 3; 4; 5; 6; 7; 8; 9; 10; 11]).
Proof.
  split; [reflexivity|].
  apply (read_returns_at_least_size 2 4 sample_short_then_long
           [1; 2; 3; 4; 5; 6; 7; 8; 9; 10; 11] (mkReceiver [] true (Some [12; 13]) 1)).
  reflexivity.
Defined.

Lemma read_loop_stuck_witness :
  read_loop 1000 [1; 2; 3; 4; 5; 6] 4 sample_stuck = Running [1; 2; 3; 4; 5; 6] 4 sample_stuck.
Proof.
  apply (read_loop_stuck [1; 2; 3; 4; 5; 6] 4 sample_stuck [7; 8]).
  - lia.
  - reflexivity.
  - discriminate.
  - simpl. lia.
Defined.

End SocketRead.

Section SocketReceive.
Import UASocket.

Lemma receive_all_keeps_buffers chunks : forall r,
  receive_buffer (receive_all chunks r) = receive_buffer r /\
  _leftover_chunk (receive_all chunks r) = _leftover_chunk r /\
  (tasks (receive_all chunks r) <= Datatypes.S (tasks r))%nat /\
  (is_receiving r = true -> tasks (receive_all chunks r) = tasks r).
Proof.
  induction chunks as [|data chunks IH]; intros r; simpl; [auto with lia|].
  destruct (IH (data_received data r)) as (Hq & Hl & Ht & Hr).
  unfold data_received in *. destruct (is_receiving r) eqn:Hrecv.
  - auto.
  - simpl in *. specialize (Hr eq_refl). rewrite Hq, Hl, Hr. auto with lia.
Qed.

(** Nothing that [data_received] is given reaches the queue: whatever
    chunks arrive on a fresh protocol, a [read] of at least one byte finds
    no chunk and waits in [receive_buffer.get()], and at most one
    [_receive] task has been created. *)
Theorem data_received_never_enqueues chunks fuel size :
  size > 0 ->
  let r := receive_all chunks Receiver_init in
  receive_buffer r = [] /\
  (tasks r <= 1)%nat /\
  read (Datatypes.S fuel) size r = Waiting [] size r.
Proof.
  intros Hsize r.
  destruct (receive_all_keeps_buffers chunks Receiver_init) as (Hq & Hl & Ht & _).
  fold r in Hq, Hl, Ht. simpl in Hq, Hl, Ht.
  split; [exact Hq|]. split; [exact Ht|].
  unfold read. simpl. destruct (decide (size > 0)); [|lia].
  unfold next_chunk. rewrite Hl, Hq. reflexivity.
Qed.

Lemma data_received_never_enqueues_witness :
  let r := receive_all [[1; 2; 3]; [4; 5]] Receiver_init in
  receive_buffer r = [] /\
  (tasks r <= 1)%nat /\
  read 5 2 r = Waiting [] 2 r.
Proof.
  apply (data_received_never_enqueues [[1; 2; 3]; [4; 5]] 4 2). lia.
Defined.

End SocketReceive.

(** ** Requests and their responses *)

Section Correlation.
Context `{UaLibrary}.

(** The future that a successful [_send_request] has registered. *)
Lemma _send_request_registers request callback hint message_type w binreq written msg conn :
  struct_to_binary (with_header request hint w) = Ok binreq ->
  transport (protocol w) = Some written ->
  message_to_binary (_connection (protocol w)) binreq message_type
    (_request_id (protocol w) + 1) = (Ok msg, conn) ->
  exists w',
    _send_request request callback hint message_type w =
      (Ok (with_header request hint w, next_future w), w') /\
    _callbackmap (protocol w') =
      <[_request_id (protocol w) + 1 := next_future w]> (_callbackmap (protocol w)) /\
    futures w' =
      <[next_future w := mkFuture PENDING (option_list callback)]> (futures w) /\
    scheduled w' = scheduled w /\
    transport (protocol w') = Some (written ++ [msg]).
Proof.
  intros Henc Htr Hmsg. unfold with_header in Henc.
  unfold _send_request, _create_request_header, bind, get_protocol,
    modify_protocol, ret, raise, log; simpl.
  rewrite Henc; simpl.
  destruct callback as [cb|]; simpl;
    [unfold add_done_callback, get_future; simpl; rewrite lookup_insert_eq; simpl|];
    rewrite Hmsg; simpl;
    unfold transport_write, bind, get_protocol, modify_protocol, lift; simpl;
    rewrite Htr; simpl; eexists; (split; [reflexivity|]); simpl; repeat split.
  apply insert_insert_eq.
Qed.

Lemma _call_callback_on_pending request_id body w future cbs :
  _callbackmap (protocol w) !! request_id = Some future ->
  futures w !! future = Some (mkFuture PENDING cbs) ->
  exists w',
    _call_callback request_id body w = (Ok tt, w') /\
    _callbackmap (protocol w') = delete request_id (_callbackmap (protocol w)) /\
    futures w' = <[future := mkFuture (FINISHED body) []]> (futures w) /\
    scheduled w' = scheduled w ++ map (fun cb => (cb, future)) cbs /\
    _request_id (protocol w') = _request_id (protocol w) /\
    _request_handle (protocol w') = _request_handle (protocol w) /\
    transport (protocol w') = transport (protocol w).
Proof.
  intros Hentry Hfut.
  unfold _call_callback, bind, get_protocol, modify_protocol; simpl.
  rewrite Hentry. unfold set_result, get_future; simpl. rewrite Hfut; simpl.
  eexists. split; [reflexivity|]. simpl. repeat split.
Qed.

(** A response whose request is pending completes the future of that
    request with the body, removes that entry from the pending map and
    hands the done-callbacks of the future to the loop, in the order they
    were added; every other pending entry and every other future is left
    as it was. *)
Theorem dispatch_completes_only_its_request request_id body w future cbs :
  _callbackmap (protocol w) !! request_id = Some future ->
  futures w !! future = Some (mkFuture PENDING cbs) ->
  exists w',
    _call_callback request_id body w = (Ok tt, w') /\
    futures w' !! future = Some (mkFuture (FINISHED body) []) /\
    _callbackmap (protocol w') !! request_id = None /\
    scheduled w' = scheduled w ++ map (fun cb => (cb, future)) cbs /\
    (forall k, k <> request_id ->
       _callbackmap (protocol w') !! k = _callbackmap (protocol w) !! k) /\
    (forall f, f <> future -> futures w' !! f = futures w !! f).
Proof.
  intros Hentry Hfut.
  destruct (_call_callback_on_pending request_id body w future cbs Hentry Hfut)
    as (w' & Heq & Hmap & Hfuts & Hsched & _).
  exists w'. split; [exact Heq|]. rewrite Hmap, Hfuts.
  split; [apply lookup_insert_eq|]. split; [apply lookup_delete_eq|].
  split; [exact Hsched|]. split.
  - intros k Hk. apply lookup_delete_ne. congruence.
  - intros f Hf. apply lookup_insert_ne. congruence.
Qed.

(** A request that was sent is answered by the response that carries its
    request id: the future that [_send_request] returned is completed
    with the body and its done-callback is handed to the loop; a second
    response with the same id finds no entry and raises [UaError]. *)
Theorem response_completes_sent_request
    request callback hint message_type w binreq written msg conn body body' :
  struct_to_binary (with_header request hint w) = Ok binreq ->
  transport (protocol w) = Some written ->
  message_to_binary (_connection (protocol w)) binreq message_type
    (_request_id (protocol w) + 1) = (Ok msg, conn) ->
  exists future w1 w2,
    _send_request request callback hint message_type w =
      (Ok (with_header request hint w, future), w1) /\
    _call_callback (_request_id (protocol w1)) body w1 = (Ok tt, w2) /\
    fut_state (get_future future w2) = FINISHED body /\
    scheduled w2 = scheduled w ++ map (fun cb => (cb, future)) (option_list callback) /\
    _call_callback (_request_id (protocol w1)) body' w2 = (Raise UaError, w2).
Proof.
  intros Henc Htr Hmsg.
  destruct (_send_request_registers request callback hint message_type w
              binreq written msg conn Henc Htr Hmsg)
    as (w1 & Hsend & Hmap1 & Hfuts1 & Hsched1 & _).
  destruct (_send_request_success request callback hint message_type w
              binreq written msg conn Henc Htr Hmsg)
    as (w1' & Hsend' & Hid & _).
  rewrite Hsend in Hsend'. injection Hsend' as <-.
  assert (Hentry : _callbackmap (protocol w1) !! _request_id (protocol w1) =
                   Some (next_future w)).
  { rewrite Hmap1, Hid. apply lookup_insert_eq. }
  assert (Hfut : futures w1 !! next_future w =
                 Some (mkFuture PENDING (option_list callback))).
  { rewrite Hfuts1. apply lookup_insert_eq. }
  destruct (_call_callback_on_pending _ body w1 _ _ Hentry Hfut)
    as (w2 & Hcall & Hmap2 & Hfuts2 & Hsched2 & _).
  exists (next_future w), w1, w2. split; [exact Hsend|]. split; [exact Hcall|].
  split; [|split].
  - unfold get_future. rewrite Hfuts2, lookup_insert_eq. reflexivity.
  - rewrite Hsched2, Hsched1. reflexivity.
  - apply _call_callback_no_entry. rewrite Hmap2. apply lookup_delete_eq.
Qed.

(** A response that arrives after its future was cancelled or completed
    (the waiter's deadline has passed and [wait_for] has cancelled the
    future) raises [InvalidStateError] out of the dispatch; the entry is
    removed all the same. *)
Theorem late_response_raises request_id body w future :
  _callbackmap (protocol w) !! request_id = Some future ->
  fut_state (get_future future w) = PENDING ->
  let w1 := (cancel future w).2 in
  exists w2,
    fut_state (get_future future w1) = CANCELLED /\
    _call_callback request_id body w1 = (Raise InvalidStateError, w2) /\
    _callbackmap (protocol w2) = delete request_id (_callbackmap (protocol w)) /\
    fut_state (get_future future w2) = CANCELLED.
Proof.
  intros Hentry Hpending. unfold cancel. rewrite Hpending. simpl.
  unfold _call_callback, bind, get_protocol, modify_protocol; simpl.
  rewrite Hentry. unfold set_result, get_future; simpl.
  rewrite lookup_insert_eq; simpl.
  eexists. split; [reflexivity|]. split; [reflexivity|]. simpl.
  rewrite lookup_insert_eq. split; reflexivity.
Qed.

End Correlation.

Section Channel.
Context `{UaLibrary}.

(** On a protocol that has no transport (before [connection_made], after
    [connection_lost]) [_send_request] raises [AttributeError] at the
    write, and nothing is rolled back: the handle and the request id are
    used up and the future stays registered, pending, for a request that
    was never written. *)
Theorem send_without_transport_not_rolled_back request callback hint message_type w binreq msg conn :
  struct_to_binary (with_header request hint w) = Ok binreq ->
  transport (protocol w) = None ->
  message_to_binary (_connection (protocol w)) binreq message_type
    (_request_id (protocol w) + 1) = (Ok msg, conn) ->
  exists w',
    _send_request request callback hint message_type w = (Raise AttributeError, w') /\
    _request_id (protocol w') = _request_id (protocol w) + 1 /\
    _request_handle (protocol w') = _request_handle (protocol w) + 1 /\
    _callbackmap (protocol w') !! (_request_id (protocol w) + 1) = Some (next_future w) /\
    fut_state (get_future (next_future w) w') = PENDING /\
    transport (protocol w') = None.
Proof.
  intros Henc Htr Hmsg. unfold with_header in Henc.
  unfold _send_request, _create_request_header, bind, get_protocol,
    modify_protocol, ret, raise, log; simpl.
  rewrite Henc; simpl.
  destruct callback as [cb|]; simpl;
    [unfold add_done_callback, get_future; simpl; rewrite lookup_insert_eq; simpl|];
    rewrite Hmsg; simpl;
    unfold transport_write, bind, get_protocol, modify_protocol, lift, raise; simpl;
    rewrite Htr; simpl; eexists; (split; [reflexivity|]); simpl;
    repeat split; try apply lookup_insert_eq; try assumption;
    unfold get_future; simpl; rewrite ?insert_insert_eq, lookup_insert_eq; reflexivity.
Qed.

(** The Hello handshake: [send_hello] writes the hello message, registers
    its future under request id 0 and waits for it under the timeout of
    the protocol; when the acknowledgement is dispatched the entry is
    removed, and the resumed call returns the acknowledgement. *)
Theorem send_hello_returns_acknowledge url m c w written ack :
  transport (protocol w) = Some written ->
  0 < timeout (protocol w) ->
  exists w1 k,
    send_hello url m c w = Await (next_future w) (Some (timeout (protocol w))) w1 k /\
    transport (protocol w1) = Some (written ++ [hello_to_binary url m c]) /\
    _callbackmap (protocol w1) = <[0 := next_future w]> (_callbackmap (protocol w)) /\
    exists w2,
      _receive_dispatch (Acknowledge ack) w1 = (Ok tt, w2) /\
      _callbackmap (protocol w2) !! 0 = None /\
      k (Completed ack) w2 = Done (Ok ack) w2.
Proof.
  intros Htr Hpos.
  unfold send_hello, cbind, run, new_future, modify_protocol, transport_write,
    bind, get_protocol; simpl.
  rewrite Htr; simpl.
  unfold wait_for, get_future; simpl. rewrite lookup_insert_eq; simpl.
  destruct (decide (timeout (protocol w) <= 0)) as [Hle|_]; [lia|].
  eexists _, _. split; [reflexivity|]. simpl.
  split; [reflexivity|]. split; [reflexivity|].
  unfold _call_callback, bind, get_protocol, modify_protocol; simpl.
  rewrite lookup_insert_eq. unfold set_result, get_future; simpl.
  rewrite lookup_insert_eq; simpl.
  eexists. split; [reflexivity|]. simpl. split; [apply lookup_delete_eq|].
  unfold future_result, get_future; simpl. rewrite lookup_insert_eq; simpl.
  reflexivity.
Qed.

End Channel.

Section SecureChannel.
Context `{UaLibrary}.

(** [open_secure_channel] waits for the response under the timeout of the
    protocol; resumed on the completed future it commits the channel
    parameters of a response with a good service result to the connection
    and returns them, and raises the error of any other service result
    without touching the connection. *)
Theorem open_secure_channel_commits_channel params w binreq written msg conn body response :
  struct_to_binary (with_header (new_request (OpenSecureChannelRequest params)) 1000 w) =
    Ok binreq ->
  transport (protocol w) = Some written ->
  message_to_binary (_connection (protocol w)) binreq SecureOpen
    (_request_id (protocol w) + 1) = (Ok msg, conn) ->
  0 < timeout (protocol w) ->
  decode_OpenSecureChannelResponse body = Ok response ->
  exists w1 k,
    open_secure_channel params w =
      Await (next_future w) (Some (timeout (protocol w))) w1 k /\
    forall w2,
      fut_state (get_future (next_future w) w2) = FINISHED body ->
      k (Completed body) w2 =
        if is_good (ServiceResult (osc_header response))
        then Done (Ok (osc_Parameters response))
               (set_protocol
                  (fun p => set_connection
                              (set_channel (_connection p) (osc_Parameters response)) p) w2)
        else Done (Raise (UaStatusCodeError (ServiceResult (osc_header response)))) w2.
Proof.
  intros Henc Htr Hmsg Hpos Hdecode.
  set (request := new_request (OpenSecureChannelRequest params)) in *.
  set (w0 := (log INFO "open_secure_channel" w).2).
  destruct (_send_request_success request None 1000 SecureOpen w0
              binreq written msg conn Henc Htr Hmsg)
    as (w' & Heq & _ & _ & _ & _ & _ & Htimeout & _ & Hpending).
  unfold open_secure_channel, cbind.
  change (run (log INFO "open_secure_channel") w) with (@Done _ unit (Ok tt) w0).
  cbn [step_bind]. unfold run at 1. fold request. rewrite Heq. cbn [step_bind].
  unfold run at 1. unfold get_protocol. cbn [step_bind].
  unfold wait_for at 1. rewrite Hpending.
  destruct (decide (timeout (protocol w') <= 0)) as [Hle|_].
  { rewrite Htimeout in Hle. simpl in Hle. lia. }
  cbn [step_bind]. rewrite Htimeout. simpl protocol.
  change (next_future w0) with (next_future w).
  eexists _, _. split; [reflexivity|].
  intros w2 Hfinished. cbn [step_bind].
  unfold run at 1. unfold future_result. rewrite Hfinished. cbn [step_bind].
  unfold run at 1. unfold struct_from_binary, lift. rewrite Hdecode. cbn [step_bind].
  unfold run at 1. unfold lift, StatusCode_check.
  destruct (is_good (ServiceResult (osc_header response))); reflexivity.
Qed.

(** [close_secure_channel] writes the close request and forgets every
    pending request: the future of the close request is cancelled, the
    pending map is empty, the futures of the other requests are left as
    they were (neither completed nor cancelled), and any response that
    still arrives finds no entry and raises [UaError]. *)
Theorem close_secure_channel_forgets_pending w binreq written msg conn :
  struct_to_binary (with_header (new_request CloseSecureChannelRequest) 1000 w) =
    Ok binreq ->
  transport (protocol w) = Some written ->
  message_to_binary (_connection (protocol w)) binreq SecureClose
    (_request_id (protocol w) + 1) = (Ok msg, conn) ->
  exists w',
    close_secure_channel w = Done (Ok tt) w' /\
    transport (protocol w') = Some (written ++ [msg]) /\
    _callbackmap (protocol w') = ∅ /\
    fut_state (get_future (next_future w) w') = CANCELLED /\
    (forall f, f <> next_future w -> futures w' !! f = futures w !! f) /\
    (forall request_id body, _call_callback request_id body w' = (Raise UaError, w')).
Proof.
  intros Henc Htr Hmsg.
  set (request := new_request CloseSecureChannelRequest) in *.
  set (w0 := (log INFO "close_secure_channel" w).2).
  destruct (_send_request_registers request None 1000 SecureClose w0
              binreq written msg conn Henc Htr Hmsg)
    as (w1 & Heq & _ & Hfuts & _ & Htr1).
  unfold close_secure_channel, cbind.
  change (run (log INFO "close_secure_channel") w) with (@Done _ unit (Ok tt) w0).
  cbn [step_bind]. unfold run at 1. fold request. rewrite Heq. cbn [step_bind].
  unfold run at 1. unfold cancel, get_future. rewrite Hfuts.
  change (next_future w0) with (next_future w). rewrite lookup_insert_eq.
  cbn [fut_state default step_bind].
  unfold run, modify_protocol.
  eexists. split; [reflexivity|]. simpl.
  change (next_future w0) with (next_future w) in Hfuts.
  split; [exact Htr1|]. split; [reflexivity|]. split; [|split].
  - rewrite lookup_insert_eq. reflexivity.
  - intros f Hf. rewrite lookup_insert_ne by congruence.
    rewrite Hfuts. apply lookup_insert_ne. congruence.
  - intros request_id body. apply _call_callback_no_entry. apply lookup_empty.
Qed.

End SecureChannel.

(** ** The publish handler, branch by branch *)

Section PublishBranches.
Context `{UaLibrary}.

Lemma publish_check_answer_cases data w :
  exists w',
    same_state w w' /\
    (publish_check_answer data w = (Ok (Some tt), w') \/
     publish_check_answer data w = (Ok None, w') \/
     exists e,
       publish_check_answer data w = (Raise e, w') /\
       (check_answer data "while waiting for publish response" w).1 = Raise e /\
       e <> UaStatusCodeError BadTimeout /\
       e <> UaStatusCodeError BadNoSubscription).
Proof.
  unfold publish_check_answer, try_except, bind.
  pose proof (check_answer_same_state data "while waiting for publish response" w) as Hsame.
  destruct (check_answer data "while waiting for publish response" w) as [[b|e] w1];
    simpl in *.
  - exists w1. auto.
  - destruct (decide (e = UaStatusCodeError BadTimeout)) as [->|Hne1].
    { exists w1. split; [exact Hsame|]. right. left. reflexivity. }
    destruct (decide (e = UaStatusCodeError BadNoSubscription)) as [->|Hne2].
    { eexists. split; [|right; left; reflexivity].
      eapply same_state_trans; [exact Hsame|]. repeat split. }
    exists w1. split; [exact Hsame|]. right. right. exists e. auto.
Qed.

Lemma publish_parse_cases data w :
  exists r w', publish_parse data w = (Ok r, w') /\ same_state w w'.
Proof.
  unfold publish_parse, try_except, bind, struct_from_binary, lift.
  destruct (decode_PublishResponse data) as [response|e]; simpl;
    eexists _, _; (split; [reflexivity|]); repeat split.
Qed.

Lemma publish_lookup_cases response w :
  exists r w', publish_lookup response w = (Ok r, w') /\ same_state w w'.
Proof.
  unfold publish_lookup.
  destruct (_publishcallbacks w !! SubscriptionId (pr_Parameters response)); simpl;
    eexists _, _; (split; [reflexivity|]); repeat split.
Qed.

Lemma publish_do_callback_cases callback response w :
  exists w', publish_do_callback callback response w = (Ok tt, w') /\ same_state w w'.
Proof.
  unfold publish_do_callback, try_except, lift.
  destruct (callback (pr_Parameters response)) as [[]|e]; simpl;
    eexists; (split; [reflexivity|]); repeat split.
Qed.

Lemma publish_handle_data_frame data w :
  exists r w',
    publish_handle_data data w = Done r w' /\
    same_state w w' /\
    (r = Ok tt \/
     exists e,
       r = Raise e /\
       (check_answer data "while waiting for publish response" w).1 = Raise e /\
       e <> UaStatusCodeError BadTimeout /\
       e <> UaStatusCodeError BadNoSubscription).
Proof.
  unfold publish_handle_data, cbind.
  destruct (publish_check_answer_cases data w)
    as (w1 & Hs1 & [Hc|[Hc|(e & Hc & Hraise)]]);
    unfold run at 1; rewrite Hc; cbn [step_bind].
  - destruct (publish_parse_cases data w1) as ([response|] & w2 & Hp & Hs2);
      unfold run at 1; rewrite Hp; cbn [step_bind].
    + destruct (publish_lookup_cases response w2) as ([callback|] & w3 & Hl & Hs3);
        unfold run at 1; rewrite Hl; cbn [step_bind].
      * destruct (publish_do_callback_cases callback response w3) as (w4 & Hd & Hs4).
        unfold run. rewrite Hd. eexists _, _. split; [reflexivity|].
        split; [eauto using same_state_trans|]. left. reflexivity.
      * eexists _, _. split; [reflexivity|].
        split; [eauto using same_state_trans|]. left. reflexivity.
    + eexists _, _. split; [reflexivity|].
      split; [eauto using same_state_trans|]. left. reflexivity.
  - eexists _, _. split; [reflexivity|]. split; [exact Hs1|]. left. reflexivity.
  - eexists _, _. split; [reflexivity|]. split; [exact Hs1|]. right. exists e. auto.
Qed.

(** Whatever the response to a publish request holds, the handler sends
    nothing and changes nothing but the log: no request is written, no
    pending entry or subscription callback is added or removed.  It
    returns normally in every branch but one: an error of [check_answer]
    other than [BadTimeout] and [BadNoSubscription] is passed on. *)
Theorem publish_handler_changes_nothing future data cbs w :
  futures w !! future = Some (mkFuture (FINISHED data) cbs) ->
  exists r w',
    _call_publish_callback future w = Done r w' /\
    same_state w w' /\
    (r = Ok tt \/
     exists e,
       r = Raise e /\
       (check_answer data "while waiting for publish response" w).1 = Raise e /\
       e <> UaStatusCodeError BadTimeout /\
       e <> UaStatusCodeError BadNoSubscription).
Proof.
  intros Hfut.
  destruct (_call_publish_callback_finished future data cbs w Hfut) as (w1 & Hs1 & ->).
  destruct (publish_handle_data_frame data w1) as (r & w' & Heq & Hs & Hr).
  exists r, w'. split; [exact Heq|]. split; [eauto using same_state_trans|].
  destruct Hr as [Hr|(e & Hr & Hcheck & Hne)]; [left; exact Hr|right].
  exists e. rewrite (check_answer_result _ _ w w1). auto.
Qed.

(** [publish] does not wait for the response: it writes the request, with
    a timeout hint of 0 and the acknowledgements given (none by default),
    registers its future with the publish handler as done-callback, and
    returns; the response then completes the future and hands the handler
    to the loop. *)
Theorem publish_registers_handler acks w binreq written msg conn body :
  struct_to_binary (with_header (new_request (PublishRequest (default [] acks))) 0 w) =
    Ok binreq ->
  transport (protocol w) = Some written ->
  message_to_binary (_connection (protocol w)) binreq SecureMessage
    (_request_id (protocol w) + 1) = (Ok msg, conn) ->
  exists w1 w2,
    publish acks w = Done (Ok tt) w1 /\
    transport (protocol w1) = Some (written ++ [msg]) /\
    futures w1 !! next_future w = Some (mkFuture PENDING [call_publish_callback]) /\
    _callbackmap (protocol w1) !! (_request_id (protocol w) + 1) = Some (next_future w) /\
    _call_callback (_request_id (protocol w) + 1) body w1 = (Ok tt, w2) /\
    futures w2 !! next_future w = Some (mkFuture (FINISHED body) []) /\
    scheduled w2 = scheduled w ++ [(call_publish_callback, next_future w)].
Proof.
  intros Henc Htr Hmsg.
  set (request := new_request (PublishRequest (default [] acks))) in *.
  set (w0 := (log INFO "publish" w).2).
  destruct (_send_request_registers request (Some call_publish_callback) 0 SecureMessage w0
              binreq written msg conn Henc Htr Hmsg)
    as (w1 & Heq & Hmap & Hfuts & Hsched & Htr1).
  change (next_future w0) with (next_future w) in *.
  change (_request_id (protocol w0)) with (_request_id (protocol w)) in *.
  change (_callbackmap (protocol w0)) with (_callbackmap (protocol w)) in *.
  change (futures w0) with (futures w) in *.
  change (scheduled w0) with (scheduled w) in *.
  assert (Hentry : _callbackmap (protocol w1) !! (_request_id (protocol w) + 1) =
                   Some (next_future w)).
  { rewrite Hmap. apply lookup_insert_eq. }
  assert (Hfut : futures w1 !! next_future w =
                 Some (mkFuture PENDING [call_publish_callback])).
  { rewrite Hfuts. apply lookup_insert_eq. }
  destruct (_call_callback_on_pending _ body w1 _ _ Hentry Hfut)
    as (w2 & Hcall & _ & Hfuts2 & Hsched2 & _).
  exists w1, w2. split.
  { unfold publish, cbind, send_request, cbind.
    change (run (log INFO "publish") w) with (@Done _ unit (Ok tt) w0).
    cbn [step_bind]. unfold run at 1. fold request. rewrite Heq. reflexivity. }
  split; [exact Htr1|]. split; [exact Hfut|]. split; [exact Hentry|].
  split; [exact Hcall|]. split.
  - rewrite Hfuts2. apply lookup_insert_eq.
  - rewrite Hsched2, Hsched. reflexivity.
Qed.

End PublishBranches.

(** ** Subscriptions *)

Section SubscriptionProperties.
Context `{UaLibrary}.
Variable decode_CreateSubscriptionResponse : Buffer -> result CreateSubscriptionResponse.
Variable decode_DeleteSubscriptionsResponse : Buffer -> result DeleteSubscriptionsResponse.
Variable DeleteSubscriptionsRequest : list Z -> Request.

(** Creating a subscription, from the call to its return: the request is
    written and the call waits, under the timeout of the client, for its
    own response future; the response hands the subscription callback of
    the client to the loop; that callback, on a response with a good
    service result, registers the user's callback under the subscription
    id and completes the response future; the resumed call returns the
    parameters of the response. *)
Theorem create_subscription_registers_callback
    params callback w binreq written msg conn body response :
  struct_to_binary (with_header (new_request (CreateSubscriptionRequest params)) 1000 w) =
    Ok binreq ->
  transport (protocol w) = Some written ->
  message_to_binary (_connection (protocol w)) binreq SecureMessage
    (_request_id (protocol w) + 1) = (Ok msg, conn) ->
  0 < _timeout w ->
  decode_CreateSubscriptionResponse body = Ok response ->
  is_good (ServiceResult (csr_header response)) = true ->
  let resp_fut := next_future w in
  let data_fut := Datatypes.S (next_future w) in
  exists w1 k w2 w3,
    create_subscription params callback w = Await resp_fut (Some (_timeout w)) w1 k /\
    transport (protocol w1) = Some (written ++ [msg]) /\
    _call_callback (_request_id (protocol w) + 1) body w1 = (Ok tt, w2) /\
    scheduled w2 = scheduled w ++ [(partial_callback resp_fut, data_fut)] /\
    _create_subscription_callback decode_CreateSubscriptionResponse
      callback resp_fut data_fut w2 = (Ok tt, w3) /\
    _publishcallbacks w3 = <[csr_SubscriptionId response := callback]> (_publishcallbacks w) /\
    k (Completed (csr_Parameters response)) w3 = Done (Ok (csr_Parameters response)) w3.
Proof.
  intros Henc Htr Hmsg Hpos Hdecode Hgood resp_fut data_fut.
  unfold with_header in Henc. simpl in Henc.
  unfold create_subscription, cbind, run, send_request, cbind, run, _send_request,
    _create_request_header, bind, get_protocol, modify_protocol, ret, raise, log,
    new_future, get_timeout; simpl.
  rewrite Henc; simpl.
  unfold add_done_callback, get_future; simpl. rewrite lookup_insert_eq; simpl.
  rewrite Hmsg; simpl.
  unfold transport_write, bind, get_protocol, modify_protocol, lift; simpl.
  rewrite Htr; simpl.
  unfold wait_for, get_future; simpl.
  rewrite lookup_insert_ne by lia. rewrite lookup_insert_ne by lia.
  rewrite lookup_insert_eq; simpl.
  destruct (decide (_timeout w <= 0)) as [Hle|_]; [lia|].
  eexists _, _, _, _. split; [reflexivity|]. simpl. split; [reflexivity|]. split.
  { unfold _call_callback, bind, get_protocol, modify_protocol; simpl.
    rewrite lookup_insert_eq. unfold set_result, get_future; simpl.
    rewrite lookup_insert_eq; simpl. reflexivity. }
  simpl. split; [reflexivity|]. split.
  { unfold _create_subscription_callback, bind, log, future_result, get_future,
      struct_from_binary, lift, modify_publishcallbacks, set_result, get_future; simpl.
    rewrite lookup_insert_eq; simpl. rewrite Hdecode; simpl.
    unfold StatusCode_check. rewrite Hgood; simpl.
    rewrite lookup_insert_ne by (unfold resp_fut; lia).
    rewrite lookup_insert_ne by (unfold resp_fut; lia).
    rewrite lookup_insert_ne by (unfold resp_fut; lia).
    rewrite lookup_insert_eq; simpl. reflexivity. }
  simpl. split; [reflexivity|].
  unfold future_result, get_future; simpl. rewrite lookup_insert_eq; simpl.
  reflexivity.
Qed.

Lemma pop_publishcallbacks_all ids : forall w,
  NoDup ids ->
  (forall sid, sid ∈ ids -> is_Some (_publishcallbacks w !! sid)) ->
  exists w',
    pop_publishcallbacks ids w = (Ok tt, w') /\
    (forall k, _publishcallbacks w' !! k =
               if decide (k ∈ ids) then None else _publishcallbacks w !! k) /\
    protocol w' = protocol w /\ futures w' = futures w /\
    scheduled w' = scheduled w /\ logs w' = logs w.
Proof.
  induction ids as [|sid ids IH]; intros w Hnodup Hreg; simpl.
  - exists w. split; [reflexivity|]. split; [|auto].
    intros k. destruct (decide (k ∈ [])) as [Hin|_]; [|reflexivity].
    apply elem_of_nil in Hin. contradiction.
  - apply NoDup_cons in Hnodup as [Hnotin Hnodup].
    destruct (Hreg sid) as [cb Hcb]; [left|].
    unfold bind, pop_publishcallback. rewrite Hcb. simpl.
    edestruct (IH (modify_publishcallbacks (delete sid) w).2 Hnodup)
      as (w' & Heq & Hlook & Hp & Hf & Hs & Hl).
    { intros sid' Hin. simpl. rewrite lookup_delete_ne by (intros ->; contradiction).
      apply Hreg. right. exact Hin. }
    exists w'. split; [exact Heq|]. split; [|auto].
    intros k. rewrite Hlook. simpl.
    destruct (decide (k ∈ ids)) as [Hin|Hout].
    + rewrite decide_True by (right; exact Hin). reflexivity.
    + destruct (decide (k = sid)) as [->|Hne].
      * rewrite decide_True by left. apply lookup_delete_eq.
      * rewrite decide_False by (intros Hin; apply elem_of_cons in Hin as [?|?]; auto).
        apply lookup_delete_ne. congruence.
Qed.

Lemma pop_publishcallbacks_missing pre sid post : forall w,
  NoDup pre ->
  (forall k, k ∈ pre -> is_Some (_publishcallbacks w !! k)) ->
  sid ∈ pre \/ _publishcallbacks w !! sid = None ->
  exists w',
    pop_publishcallbacks (pre ++ sid :: post) w = (Raise KeyError, w') /\
    (forall k, _publishcallbacks w' !! k =
               if decide (k ∈ pre) then None else _publishcallbacks w !! k) /\
    protocol w' = protocol w /\ futures w' = futures w /\
    scheduled w' = scheduled w /\ logs w' = logs w.
Proof.
  intros w Hnodup Hreg Hmissing.
  destruct (pop_publishcallbacks_all pre w Hnodup Hreg)
    as (w1 & Heq & Hlook & Hrest).
  assert (Hnone : _publishcallbacks w1 !! sid = None).
  { rewrite Hlook. destruct (decide (sid ∈ pre)); [reflexivity|].
    destruct Hmissing; [contradiction|assumption]. }
  exists w1. split; [|split; [exact Hlook|exact Hrest]].
  clear Hlook Hrest Hmissing Hreg Hnodup. revert w Heq.
  induction pre as [|p pre IH]; intros w Heq; simpl in *.
  - injection Heq as ->. unfold bind, pop_publishcallback. rewrite Hnone. reflexivity.
  - unfold bind in *. destruct (pop_publishcallback p w) as [[[]|e] w0]; [|discriminate].
    apply IH. exact Heq.
Qed.

(** The callback of a deletion, on a response with a good service result:
    when the ids are distinct and all registered, their callbacks are
    removed, the others are kept and the response future is completed
    with the results. *)
Theorem delete_callback_unregisters ids resp_fut data_fut w data cbs cbs' response :
  futures w !! data_fut = Some (mkFuture (FINISHED data) cbs) ->
  futures w !! resp_fut = Some (mkFuture PENDING cbs') ->
  decode_DeleteSubscriptionsResponse data = Ok response ->
  is_good (ServiceResult (dsr_header response)) = true ->
  NoDup ids ->
  (forall sid, sid ∈ ids -> is_Some (_publishcallbacks w !! sid)) ->
  exists w',
    _delete_subscriptions_callback decode_DeleteSubscriptionsResponse
      ids resp_fut data_fut w = (Ok tt, w') /\
    (forall k, _publishcallbacks w' !! k =
               if decide (k ∈ ids) then None else _publishcallbacks w !! k) /\
    futures w' !! resp_fut = Some (mkFuture (FINISHED (dsr_Results response)) []) /\
    protocol w' = protocol w.
Proof.
  intros Hdata Hresp Hdecode Hgood Hnodup Hreg.
  unfold _delete_subscriptions_callback, bind, log, future_result, get_future,
    struct_from_binary, lift, StatusCode_check; simpl.
  rewrite Hdata; simpl. rewrite Hdecode; simpl. rewrite Hgood; simpl.
  edestruct (pop_publishcallbacks_all ids) as (w1 & -> & Hlook & Hp & Hf & Hs & Hl);
    [exact Hnodup| |].
  { simpl. exact Hreg. }
  simpl in *. unfold set_result, get_future. rewrite Hf, Hresp. simpl.
  eexists. split; [reflexivity|]. simpl.
  split; [exact Hlook|]. split; [apply lookup_insert_eq|exact Hp].
Qed.

(** The same callback when one of the ids is not registered, or occurs a
    second time in the list: it raises [KeyError] at that id; the
    callbacks of the ids before it are gone, and the response future is
    never completed. *)
Theorem delete_callback_unknown_id pre sid post resp_fut data_fut w data cbs response :
  futures w !! data_fut = Some (mkFuture (FINISHED data) cbs) ->
  decode_DeleteSubscriptionsResponse data = Ok response ->
  is_good (ServiceResult (dsr_header response)) = true ->
  NoDup pre ->
  (forall k, k ∈ pre -> is_Some (_publishcallbacks w !! k)) ->
  sid ∈ pre \/ _publishcallbacks w !! sid = None ->
  exists w',
    _delete_subscriptions_callback decode_DeleteSubscriptionsResponse
      (pre ++ sid :: post) resp_fut data_fut w = (Raise KeyError, w') /\
    (forall k, _publishcallbacks w' !! k =
               if decide (k ∈ pre) then None else _publishcallbacks w !! k) /\
    futures w' = futures w.
Proof.
  intros Hdata Hdecode Hgood Hnodup Hreg Hmissing.
  unfold _delete_subscriptions_callback, bind, log, future_result, get_future,
    struct_from_binary, lift, StatusCode_check; simpl.
  rewrite Hdata; simpl. rewrite Hdecode; simpl. rewrite Hgood; simpl.
  edestruct (pop_publishcallbacks_missing pre sid post)
    as (w1 & -> & Hlook & Hp & Hf & Hs & Hl); [exact Hnodup| | |].
  { simpl. exact Hreg. }
  { simpl. exact Hmissing. }
  exists w1. split; [reflexivity|]. split; [exact Hlook|exact Hf].
Qed.

(** [delete_subscriptions] sends nothing: the request is neither encoded
    nor written nor registered, and the done-callback is attached to no
    future.  The call waits for a response future that nothing can
    complete, and ends at the deadline of the client's timeout with
    [TimeoutError]. *)
Theorem delete_subscriptions_sends_nothing ids w :
  0 < _timeout w ->
  exists w1 k,
    delete_subscriptions DeleteSubscriptionsRequest ids w =
      Await (next_future w) (Some (_timeout w)) w1 k /\
    protocol w1 = protocol w /\
    scheduled w1 = scheduled w /\
    futures w1 = <[next_future w := mkFuture PENDING []]> (futures w) /\
    forall w2,
      fut_state (get_future (next_future w) w2) = PENDING ->
      exists w3,
        k TimedOut w2 = Done (Raise TimeoutError) w3 /\
        protocol w3 = protocol w2.
Proof.
  intros Hpos.
  unfold delete_subscriptions, cbind, run, coroutine_object, log, new_future,
    get_timeout, ret; simpl.
  unfold wait_for, get_future; simpl. rewrite lookup_insert_eq; simpl.
  destruct (decide (_timeout w <= 0)) as [Hle|_]; [lia|].
  eexists _, _. split; [reflexivity|]. simpl.
  split; [reflexivity|]. split; [reflexivity|]. split; [reflexivity|].
  intros w2 Hpending.
  unfold run, bind, cancel, raise, get_future. rewrite Hpending. simpl.
  eexists. split; reflexivity.
Qed.

End SubscriptionProperties.

(** ** The cast of [read], where it fails and where it does nothing *)

Section ReadCastEdges.
Context `{UaLibrary}.

Lemma read_cast_missing_result nodes : forall idx results i rv,
  nodes !! i = Some rv ->
  AttributeId rv = AttributeIds_NodeClass \/ AttributeId rv = AttributeIds_ValueRank ->
  results !! (idx + i)%nat = None ->
  exists e, read_cast idx nodes results = Raise e.
Proof.
  induction nodes as [|rv0 nodes IH]; intros idx results i rv Hrv Hattr Hnone.
  - rewrite lookup_nil in Hrv. discriminate.
  - simpl. destruct (read_cast_one idx rv0 results) as [r1|e] eqn:Hone; [|eauto].
    destruct (read_cast_one_spec idx rv0 results r1 Hone) as (Hlen & _ & _).
    destruct i as [|i]; simpl in Hrv.
    + injection Hrv as ->. rewrite Nat.add_0_r in Hnone.
      unfold read_cast_one in Hone. rewrite Hnone in Hone.
      destruct (decide (AttributeId rv = AttributeIds_NodeClass)); [discriminate|].
      destruct (decide (AttributeId rv = AttributeIds_ValueRank)); [discriminate|].
      destruct Hattr; contradiction.
    + apply (IH (Datatypes.S idx) r1 i rv Hrv Hattr).
      apply lookup_ge_None. apply lookup_ge_None in Hnone. lia.
Qed.

(** One result that cannot be cast fails the whole [read]: when a
    requested [NodeClass] or [ValueRank] has no result at its index
    ([IndexError]), or the value at its index has no member in the
    enumeration ([ValueError]), the loop raises and no results are
    returned. *)
Theorem read_cast_fails_as_a_whole nodes results i rv :
  nodes !! i = Some rv ->
  (results !! i = None /\
   (AttributeId rv = AttributeIds_NodeClass \/ AttributeId rv = AttributeIds_ValueRank)) \/
  (exists dv e, results !! i = Some dv /\ read_cast_expected rv dv = Raise e) ->
  exists e, read_cast 0 nodes results = Raise e.
Proof.
  intros Hrv [[Hnone Hattr]|(dv & e & Hdv & Hexp)].
  - apply (read_cast_missing_result nodes 0 results i rv Hrv Hattr Hnone).
  - destruct (read_cast 0 nodes results) as [results'|e'] eqn:Hcast; [|eauto].
    destruct (read_cast_spec_from nodes 0 results results' Hcast) as (_ & _ & Hat).
    destruct (Hat i rv dv Hrv Hdv) as (dv' & Hok & _). congruence.
Qed.

(** When neither [NodeClass] nor [ValueRank] is among the requested
    attributes the loop looks at no result: the results come back as they
    are, however many there are. *)
Theorem read_cast_other_attributes nodes results :
  (forall rv, rv ∈ nodes ->
     AttributeId rv <> AttributeIds_NodeClass /\ AttributeId rv <> AttributeIds_ValueRank) ->
  read_cast 0 nodes results = Ok results.
Proof.
  generalize 0%nat as idx.
  induction nodes as [|rv nodes IH]; intros idx Hother; simpl; [reflexivity|].
  destruct (Hother rv) as [Hnc Hvr]; [left|].
  unfold read_cast_one.
  destruct (decide (AttributeId rv = AttributeIds_NodeClass)); [contradiction|].
  destruct (decide (AttributeId rv = AttributeIds_ValueRank)); [contradiction|].
  apply IH. intros rv' Hin. apply Hother. right. exact Hin.
Qed.

(** The facade calls that await [send_request] without a callback end
    where [close_session] ends: [activate_session] and [read] raise, and
    return no response. *)
Theorem awaiting_services_raise :
  (forall parameters w, exists e w', activate_session parameters w = Done (Raise e) w') /\
  (forall nodes w, exists e w', read nodes w = Done (Raise e) w').
Proof.
  split.
  - intros parameters w. unfold activate_session, cbind.
    change (run (log INFO "activate_session") w)
      with (@Done _ unit (Ok tt) (log INFO "activate_session" w).2).
    cbn [step_bind].
    destruct (send_request_without_callback_raises
                (new_request (ActivateSessionRequest parameters)) 1000 SecureMessage
                (log INFO "activate_session" w).2) as (e & w' & ->).
    cbn [step_bind]. eauto.
  - intros nodes w. unfold read, cbind.
    change (run (log INFO "read") w) with (@Done _ unit (Ok tt) (log INFO "read" w).2).
    cbn [step_bind].
    destruct (send_request_without_callback_raises
                (new_request (ReadRequest nodes)) 1000 SecureMessage
                (log INFO "read" w).2) as (e & w' & ->).
    cbn [step_bind]. eauto.
Qed.

End ReadCastEdges.

(** ** Request handle and request id *)

Create HintDb primitives discriminated.
#[global] Hint Unfold future_result set_result cancel add_done_callback
  transport_write new_future log ret raise lift get_protocol modify_protocol
  modify_publishcallbacks coroutine_object : primitives.

(** A call that leaves both counters alone. *)
Ltac keeps_counters :=
  let w := fresh "w" in
  let Hw := fresh "Hw" in
  intros w Hw; unfold handle_matches_id in *; autounfold with primitives; simpl;
  repeat match goal with
         | |- context [match ?x with _ => _ end] => destruct x; simpl
         end;
  exact Hw.

Ltac counters_step :=
  first
    [ solve [keeps_counters]
    | apply preserves_bind; [|intros ?]
    | apply preserves_try_except; [|intros ? ? ?]
    | match goal with
      | |- S_preserves _ (match ?x with _ => _ end) => destruct x
      | |- S_preserves _ (if ?b then _ else _) => destruct b
      | |- S_preserves _ (let (_, _) := ?x in _) => destruct x
      end ].

Section Counters.
Context `{UaLibrary}.

(** Once the request is encoded the handle stays used, whatever happens
    to the framing and the write. *)
Lemma _send_request_encoded_handle request callback hint message_type w binreq :
  struct_to_binary (with_header request hint w) = Ok binreq ->
  _request_handle (protocol (_send_request request callback hint message_type w).2) =
    _request_handle (protocol w) + 1.
Proof.
  intros Henc. unfold with_header in Henc.
  unfold _send_request, _create_request_header, bind, get_protocol,
    modify_protocol, ret, raise, log; simpl.
  rewrite Henc; simpl.
  destruct callback as [cb|]; simpl;
    [unfold add_done_callback, get_future; simpl; rewrite lookup_insert_eq; simpl|];
    destruct (message_to_binary _ _ _ _) as [[msg|e] conn]; simpl;
    unfold transport_write, bind, get_protocol, modify_protocol, lift, raise; simpl;
    destruct (transport (protocol w)); simpl; auto.
Qed.

Lemma counters__send_request request callback hint message_type :
  S_preserves handle_matches_id (_send_request request callback hint message_type).
Proof.
  intros w Hw. unfold handle_matches_id in *.
  destruct (struct_to_binary (with_header request hint w)) as [binreq|e] eqn:Henc.
  - rewrite (_send_request_encoded_handle request callback hint message_type w binreq Henc).
    destruct (_send_request_encoded request callback hint message_type w binreq Henc)
      as [Hid _].
    simpl in Hid. rewrite Hid, Hw. reflexivity.
  - destruct (_send_request_encode_failure request callback hint message_type w e Henc)
      as (w' & Heq & Hp & _).
    rewrite Heq. simpl. rewrite Hp. exact Hw.
Qed.

Lemma counters__call_callback request_id body :
  S_preserves handle_matches_id (_call_callback request_id body).
Proof.
  intros w Hw. unfold _call_callback, bind, get_protocol, modify_protocol; simpl.
  destruct (_callbackmap (protocol w) !! request_id) as [future|]; simpl.
  - unfold set_result. destruct (fut_state _); exact Hw.
  - exact Hw.
Qed.

Lemma counters__receive_dispatch msg :
  S_preserves handle_matches_id (_receive_dispatch msg).
Proof.
  destruct msg; simpl; try apply counters__call_callback; keeps_counters.
Qed.

Lemma counters_check_answer data context :
  S_preserves handle_matches_id (check_answer data context).
Proof. unfold check_answer. repeat counters_step. Qed.

Lemma counters_struct_from_binary {T} (decode : Buffer -> result T) data :
  S_preserves handle_matches_id (struct_from_binary decode data).
Proof. destruct data; simpl; keeps_counters. Qed.

Lemma counters_await_future f : Coro_preserves handle_matches_id (await_future f).
Proof.
  intros w Hw. unfold await_future.
  destruct (fut_state (get_future f w)); simpl; try exact Hw.
  split; [exact Hw|]. intros [v| |] w' Hw'; exact Hw'.
Qed.

Lemma counters_wait_for f t : Coro_preserves handle_matches_id (wait_for f t).
Proof.
  assert (Hc : Coro_preserves handle_matches_id
                 (run (cancel f >> @raise _ Buffer TimeoutError))).
  { apply holds_run. unfold cancel. repeat counters_step. }
  intros w Hw. unfold wait_for.
  destruct (fut_state (get_future f w)); simpl; try exact Hw.
  destruct (decide (t <= 0)); [apply Hc, Hw|].
  split; [exact Hw|]. intros [v| |] w' Hw'; try exact Hw'. apply Hc, Hw'.
Qed.

Lemma counters_wait_for_buffer data t :
  Coro_preserves handle_matches_id (wait_for_buffer data t).
Proof. apply holds_run. keeps_counters. Qed.

End Counters.

Ltac counters_coro_step :=
  first
    [ apply counters_wait_for
    | apply counters_await_future
    | apply counters_wait_for_buffer
    | apply holds_run;
      solve [ apply counters__send_request | apply counters_check_answer
            | apply counters_struct_from_binary | repeat counters_step ]
    | apply holds_cbind; [|intros ?]
    | match goal with
      | |- Coro_preserves _ (match ?x with _ => _ end) => destruct x
      | |- Coro_preserves _ (let (_, _) := ?x in _) => destruct x
      end ].

Section CounterInvariant.
Context `{UaLibrary}.

Lemma counters_send_request request callback hint message_type :
  Coro_preserves handle_matches_id (send_request request callback hint message_type).
Proof. unfold send_request. repeat counters_coro_step. Qed.

Lemma counters_send_hello url m c :
  Coro_preserves handle_matches_id (send_hello url m c).
Proof. unfold send_hello. repeat counters_coro_step. Qed.

Lemma counters_open_secure_channel params :
  Coro_preserves handle_matches_id (open_secure_channel params).
Proof. unfold open_secure_channel. repeat counters_coro_step. Qed.

Lemma counters_close_secure_channel :
  Coro_preserves handle_matches_id close_secure_channel.
Proof. unfold close_secure_channel. repeat counters_coro_step. Qed.

Lemma counters_create_session parameters :
  Coro_preserves handle_matches_id (create_session parameters).
Proof. unfold create_session. repeat counters_coro_step. Qed.

Lemma counters_activate_session parameters :
  Coro_preserves handle_matches_id (activate_session parameters).
Proof.
  unfold activate_session.
  repeat first [apply counters_send_request | counters_coro_step].
Qed.

Lemma counters_close_session deletesubscriptions :
  Coro_preserves handle_matches_id (close_session deletesubscriptions).
Proof.
  unfold close_session.
  repeat first [ apply counters_send_request
               | apply holds_run; unfold close_session_check;
                 apply preserves_try_except;
                 [keeps_counters
                 |intros e h He; destruct (decide _); inversion He; subst; keeps_counters]
               | counters_coro_step ].
Qed.

Lemma counters_read nodes : Coro_preserves handle_matches_id (read nodes).
Proof.
  unfold read. repeat first [apply counters_send_request | counters_coro_step].
Qed.

Lemma counters_publish acks : Coro_preserves handle_matches_id (publish acks).
Proof.
  unfold publish. repeat first [apply counters_send_request | counters_coro_step].
Qed.

(** The publish handler keeps the state up to the log, hence the
    counters. *)
Lemma counters_publish_handle_data data :
  Coro_preserves handle_matches_id (publish_handle_data data).
Proof.
  intros w Hw.
  destruct (publish_handle_data_frame data w) as (r & w' & -> & (Hp & _) & _).
  simpl. unfold handle_matches_id in *. rewrite Hp. exact Hw.
Qed.

Lemma counters__call_publish_callback future :
  Coro_preserves handle_matches_id (_call_publish_callback future).
Proof.
  unfold _call_publish_callback.
  repeat first [apply counters_publish_handle_data | counters_coro_step].
Qed.

Lemma _send_request_returns_with_header request callback hint message_type w request' future w' :
  _send_request request callback hint message_type w = (Ok (request', future), w') ->
  request' = with_header request hint w /\
  exists binreq, struct_to_binary (with_header request hint w) = Ok binreq.
Proof.
  intros Hsend.
  destruct (struct_to_binary (with_header request hint w)) as [binreq|e] eqn:Henc.
  - split; [|eauto]. revert Hsend. unfold with_header in *.
    unfold _send_request, _create_request_header, bind, get_protocol,
      modify_protocol, ret, raise, log; simpl.
    rewrite Henc; simpl.
    destruct callback as [cb|]; simpl;
      [unfold add_done_callback, get_future; simpl; rewrite lookup_insert_eq; simpl|];
      destruct (message_to_binary _ _ _ _) as [[msg|e] conn]; simpl;
      unfold transport_write, bind, get_protocol, modify_protocol, lift, raise; simpl;
      destruct (transport (protocol w)); simpl; intros [= <- _ _]; reflexivity.
  - destruct (_send_request_encode_failure request callback hint message_type w e Henc)
      as (w1 & Heq & _). rewrite Heq in Hsend. discriminate.
Qed.

(** The request handle counter and the request id counter never part:
    they are equal at construction, and every method that hands back
    control leaves them equal, a failed write included.  So the
    [RequestHandle] in the header of a request that was sent is the
    request id under which it was framed and registered. *)
Theorem request_handle_equals_request_id :
  (forall t, handle_matches_id (UaClient_init t)) /\
  methods_preserve handle_matches_id /\
  (forall request callback hint message_type w request' future w',
     handle_matches_id w ->
     _send_request request callback hint message_type w = (Ok (request', future), w') ->
     RequestHandle (req_header request') = _request_id (protocol w') /\
     _callbackmap (protocol w') !! RequestHandle (req_header request') = Some future).
Proof.
  split; [reflexivity|]. split.
  - unfold methods_preserve.
    repeat apply conj;
      first [ apply counters__send_request | apply counters__call_callback
            | apply counters__receive_dispatch | apply counters_send_request
            | apply counters_send_hello | apply counters_open_secure_channel
            | apply counters_close_secure_channel | apply counters_create_session
            | apply counters_activate_session | apply counters_close_session
            | apply counters_read | apply counters_publish
            | apply counters__call_publish_callback ].
  - intros request callback hint message_type w request' future w' Hw Hsend.
    destruct (_send_request_returns_with_header _ _ _ _ _ _ _ _ Hsend)
      as (-> & binreq & Henc).
    pose proof (_send_request_encoded request callback hint message_type w binreq Henc)
      as Hid.
    rewrite Hsend in Hid. simpl in Hid. destruct Hid as [Hid Hmap].
    unfold handle_matches_id in Hw. unfold with_header; simpl.
    rewrite Hw, Hid. split; [reflexivity|].
    rewrite Hmap.
    assert (Hfuture : future = next_future w).
    { revert Hsend. unfold with_header in Henc.
      unfold _send_request, _create_request_header, bind, get_protocol,
        modify_protocol, ret, raise, log; simpl.
      rewrite Henc; simpl.
      destruct callback as [cb|]; simpl;
        [unfold add_done_callback, get_future; simpl; rewrite lookup_insert_eq; simpl|];
        destruct (message_to_binary _ _ _ _) as [[msg|e] conn]; simpl;
        unfold transport_write, bind, get_protocol, modify_protocol, lift, raise; simpl;
        destruct (transport (protocol w)); simpl; intros Heq; inversion Heq;
        reflexivity. }
    rewrite Hfuture. apply lookup_insert_eq.
Qed.

End CounterInvariant.

(** ** The properties above on the sample client *)

Section DispatchWitnesses.
#[local] Existing Instance sample_library.

Lemma dispatch_completes_only_its_request_witness :
  exists w',
    _call_callback 1 sample_notification sample_published = (Ok tt, w') /\
    futures w' !! 0%nat = Some (mkFuture (FINISHED sample_notification) []) /\
    _callbackmap (protocol w') !! 1 = None /\
    scheduled w' =
      scheduled sample_published ++ map (fun cb => (cb, 0%nat)) [call_publish_callback] /\
    (forall k, k <> 1 ->
       _callbackmap (protocol w') !! k = _callbackmap (protocol sample_published) !! k) /\
    (forall f, f <> 0%nat -> futures w' !! f = futures sample_published !! f).
Proof.
  apply (dispatch_completes_only_its_request 1 sample_notification sample_published
           0%nat [call_publish_callback]).
  - vm_compute. reflexivity.
  - vm_compute. reflexivity.
Defined.

Lemma response_completes_sent_request_witness :
  exists future w1 w2,
    _send_request sample_publish (Some call_publish_callback) 0 SecureMessage sample_world =
      (Ok (with_header sample_publish 0 sample_world, future), w1) /\
    _call_callback (_request_id (protocol w1)) sample_notification w1 = (Ok tt, w2) /\
    fut_state (get_future future w2) = FINISHED sample_notification /\
    scheduled w2 =
      scheduled sample_world ++
      map (fun cb => (cb, future)) (option_list (Some call_publish_callback)) /\
    _call_callback (_request_id (protocol w1)) [] w2 = (Raise UaError, w2).
Proof.
  apply (response_completes_sent_request sample_publish (Some call_publish_callback) 0
           SecureMessage sample_world [826; 0; 1; 0; 7] [] [1; 1; 826; 0; 1; 0; 7] 1
           sample_notification []).
  - reflexivity.
  - reflexivity.
  - reflexivity.
Defined.

Lemma late_response_raises_witness :
  let w1 := (cancel 0 sample_published).2 in
  exists w2,
    fut_state (get_future 0 w1) = CANCELLED /\
    _call_callback 1 sample_notification w1 = (Raise InvalidStateError, w2) /\
    _callbackmap (protocol w2) = delete 1 (_callbackmap (protocol sample_published)) /\
    fut_state (get_future 0 w2) = CANCELLED.
Proof.
  apply (late_response_raises 1 sample_notification sample_published 0%nat).
  - vm_compute. reflexivity.
  - vm_compute. reflexivity.
Defined.

Lemma send_without_transport_not_rolled_back_witness :
  exists w',
    _send_request sample_publish None 0 SecureMessage sample_unconnected =
      (Raise AttributeError, w') /\
    _request_id (protocol w') = _request_id (protocol sample_unconnected) + 1 /\
    _request_handle (protocol w') = _request_handle (protocol sample_unconnected) + 1 /\
    _callbackmap (protocol w') !! (_request_id (protocol sample_unconnected) + 1) =
      Some (next_future sample_unconnected) /\
    fut_state (get_future (next_future sample_unconnected) w') = PENDING /\
    transport (protocol w') = None.
Proof.
  apply (send_without_transport_not_rolled_back sample_publish None 0 SecureMessage
           sample_unconnected [826; 0; 1; 0; 7] [1; 1; 826; 0; 1; 0; 7] 1).
  - reflexivity.
  - reflexivity.
  - reflexivity.
Defined.

Lemma send_hello_returns_acknowledge_witness :
  exists w1 k,
    send_hello [104] 0 0 sample_world =
      Await (next_future sample_world) (Some (timeout (protocol sample_world))) w1 k /\
    transport (protocol w1) = Some ([] ++ [hello_to_binary [104] 0 0]) /\
    _callbackmap (protocol w1) =
      <[0 := next_future sample_world]> (_callbackmap (protocol sample_world)) /\
    exists w2,
      _receive_dispatch (Acknowledge [9]) w1 = (Ok tt, w2) /\
      _callbackmap (protocol w2) !! 0 = None /\
      k (Completed [9]) w2 = Done (Ok [9]) w2.
Proof.
  apply (send_hello_returns_acknowledge [104] 0 0 sample_world [] [9]).
  - reflexivity.
  - reflexivity.
Defined.

End DispatchWitnesses.

Section ChannelWitnesses.
#[local] Existing Instance sample_library.

Lemma open_secure_channel_commits_channel_witness :
  exists w1 k,
    open_secure_channel [5] sample_world =
      Await (next_future sample_world) (Some (timeout (protocol sample_world))) w1 k /\
    forall w2,
      fut_state (get_future (next_future sample_world) w2) = FINISHED sample_channel_response ->
      k (Completed sample_channel_response) w2 =
        if is_good 0
        then Done (Ok (mkChannelParameters 77 88))
               (set_protocol
                  (fun p => set_connection
                              (set_channel (_connection p) (mkChannelParameters 77 88)) p) w2)
        else Done (Raise (UaStatusCodeError 0)) w2.
Proof.
  apply (open_secure_channel_commits_channel [5] sample_world
           [446; 0; 1; 1000; 5] [] [1; 1; 446; 0; 1; 1000; 5] 1 sample_channel_response
           (mkOpenSecureChannelResponse (mkResponseHeader 1 0) (mkChannelParameters 77 88))).
  - reflexivity.
  - reflexivity.
  - reflexivity.
  - reflexivity.
  - reflexivity.
Defined.

Lemma close_secure_channel_forgets_pending_witness :
  exists w',
    close_secure_channel sample_published = Done (Ok tt) w' /\
    transport (protocol w') = Some ([[1; 1; 826; 0; 1; 0]] ++ [[2; 2; 452; 0; 2; 1000]]) /\
    _callbackmap (protocol w') = ∅ /\
    fut_state (get_future (next_future sample_published) w') = CANCELLED /\
    (forall f, f <> next_future sample_published ->
       futures w' !! f = futures sample_published !! f) /\
    (forall request_id body, _call_callback request_id body w' = (Raise UaError, w')).
Proof.
  apply (close_secure_channel_forgets_pending sample_published
           [452; 0; 2; 1000] [[1; 1; 826; 0; 1; 0]] [2; 2; 452; 0; 2; 1000] 2).
  - reflexivity.
  - reflexivity.
  - reflexivity.
Defined.

(** The publish request that was pending when the channel was closed is
    still pending afterwards: its future is neither completed nor
    cancelled, and no response can reach it any more. *)
Example close_secure_channel_strands_publish :
  fut_state (get_future 0 sample_published) = PENDING /\
  fut_state (get_future 0 (step_world (close_secure_channel sample_published))) = PENDING.
Proof. split; vm_compute; reflexivity. Qed.

Lemma publish_handler_changes_nothing_witness :
  exists r w',
    _call_publish_callback 0 (sample_completed (sample_fault BadNoSubscription)) =
      Done r w' /\
    same_state (sample_completed (sample_fault BadNoSubscription)) w' /\
    (r = Ok tt \/
     exists e,
       r = Raise e /\
       (check_answer (sample_fault BadNoSubscription) "while waiting for publish response"
          (sample_completed (sample_fault BadNoSubscription))).1 = Raise e /\
       e <> UaStatusCodeError BadTimeout /\
       e <> UaStatusCodeError BadNoSubscription).
Proof.
  apply (publish_handler_changes_nothing 0%nat (sample_fault BadNoSubscription) []
           (sample_completed (sample_fault BadNoSubscription))).
  vm_compute. reflexivity.
Defined.

(** A service fault with another status ([BadSessionClosed], say) is the
    one thing the handler passes on. *)
Example publish_handler_passes_other_faults :
  exists w',
    _call_publish_callback 0 (sample_completed (sample_fault BadSessionClosed)) =
      Done (Raise (UaStatusCodeError BadSessionClosed)) w'.
Proof. eexists. vm_compute. reflexivity. Qed.

Lemma publish_registers_handler_witness :
  exists w1 w2,
    publish None sample_world = Done (Ok tt) w1 /\
    transport (protocol w1) = Some ([] ++ [[1; 1; 826; 0; 1; 0]]) /\
    futures w1 !! next_future sample_world =
      Some (mkFuture PENDING [call_publish_callback]) /\
    _callbackmap (protocol w1) !! (_request_id (protocol sample_world) + 1) =
      Some (next_future sample_world) /\
    _call_callback (_request_id (protocol sample_world) + 1) sample_notification w1 =
      (Ok tt, w2) /\
    futures w2 !! next_future sample_world =
      Some (mkFuture (FINISHED sample_notification) []) /\
    scheduled w2 =
      scheduled sample_world ++ [(call_publish_callback, next_future sample_world)].
Proof.
  apply (publish_registers_handler None sample_world
           [826; 0; 1; 0] [] [1; 1; 826; 0; 1; 0] 1 sample_notification).
  - reflexivity.
  - reflexivity.
  - reflexivity.
Defined.

End ChannelWitnesses.

Section SubscriptionWitnesses.
#[local] Existing Instance sample_library.

Lemma create_subscription_registers_callback_witness :
  exists w1 k w2 w3,
    create_subscription [3] sample_raising_callback sample_world =
      Await (next_future sample_world) (Some (_timeout sample_world)) w1 k /\
    transport (protocol w1) = Some ([] ++ [[1; 1; 787; 0; 1; 1000; 3]]) /\
    _call_callback (_request_id (protocol sample_world) + 1)
      sample_subscription_response w1 = (Ok tt, w2) /\
    scheduled w2 =
      scheduled sample_world ++
      [(partial_callback (next_future sample_world),
        Datatypes.S (next_future sample_world))] /\
    _create_subscription_callback sample_decode_CreateSubscriptionResponse
      sample_raising_callback (next_future sample_world)
      (Datatypes.S (next_future sample_world)) w2 = (Ok tt, w3) /\
    _publishcallbacks w3 =
      <[3 := sample_raising_callback]> (_publishcallbacks sample_world) /\
    k (Completed [3; 100]) w3 = Done (Ok [3; 100]) w3.
Proof.
  apply (create_subscription_registers_callback sample_decode_CreateSubscriptionResponse
           [3] sample_raising_callback sample_world
           [787; 0; 1; 1000; 3] [] [1; 1; 787; 0; 1; 1000; 3] 1
           sample_subscription_response
           (mkCreateSubscriptionResponse (mkResponseHeader 1 0) 3 [3; 100])).
  - reflexivity.
  - reflexivity.
  - reflexivity.
  - reflexivity.
  - reflexivity.
  - reflexivity.
Defined.

Lemma delete_callback_unregisters_witness :
  exists w',
    _delete_subscriptions_callback sample_decode_DeleteSubscriptionsResponse
      [3; 4] 0 1 sample_deleting = (Ok tt, w') /\
    (forall k, _publishcallbacks w' !! k =
               if decide (k ∈ [3; 4]) then None else _publishcallbacks sample_deleting !! k) /\
    futures w' !! 0%nat = Some (mkFuture (FINISHED [0; 0]) []) /\
    protocol w' = protocol sample_deleting.
Proof.
  apply (delete_callback_unregisters sample_decode_DeleteSubscriptionsResponse
           [3; 4] 0%nat 1%nat sample_deleting [0; 850; 1; 0; 0; 0] [] []
           (mkDeleteSubscriptionsResponse (mkResponseHeader 1 0) [0; 0])).
  - vm_compute. reflexivity.
  - vm_compute. reflexivity.
  - reflexivity.
  - reflexivity.
  - apply NoDup_cons. split; [|apply NoDup_singleton].
    intros Hin. apply list_elem_of_singleton in Hin. discriminate.
  - intros sid Hin. apply elem_of_cons in Hin as [->|Hin];
      [|apply list_elem_of_singleton in Hin; subst sid];
      eexists; vm_compute; reflexivity.
Defined.

Lemma delete_callback_unknown_id_witness :
  exists w',
    _delete_subscriptions_callback sample_decode_DeleteSubscriptionsResponse
      ([3] ++ 5 :: [4]) 0 1 sample_deleting = (Raise KeyError, w') /\
    (forall k, _publishcallbacks w' !! k =
               if decide (k ∈ [3]) then None else _publishcallbacks sample_deleting !! k) /\
    futures w' = futures sample_deleting.
Proof.
  apply (delete_callback_unknown_id sample_decode_DeleteSubscriptionsResponse
           [3] 5 [4] 0%nat 1%nat sample_deleting [0; 850; 1; 0; 0; 0] []
           (mkDeleteSubscriptionsResponse (mkResponseHeader 1 0) [0; 0])).
  - vm_compute. reflexivity.
  - reflexivity.
  - reflexivity.
  - apply NoDup_singleton.
  - intros k Hin. apply list_elem_of_singleton in Hin. subst k.
    eexists. vm_compute. reflexivity.
  - right. vm_compute. reflexivity.
Defined.

Lemma delete_subscriptions_sends_nothing_witness :
  exists w1 k,
    delete_subscriptions sample_delete_request [3] sample_subscribed =
      Await (next_future sample_subscribed) (Some (_timeout sample_subscribed)) w1 k /\
    protocol w1 = protocol sample_subscribed /\
    scheduled w1 = scheduled sample_subscribed /\
    futures w1 =
      <[next_future sample_subscribed := mkFuture PENDING []]> (futures sample_subscribed) /\
    forall w2,
      fut_state (get_future (next_future sample_subscribed) w2) = PENDING ->
      exists w3,
        k TimedOut w2 = Done (Raise TimeoutError) w3 /\
        protocol w3 = protocol w2.
Proof.
  apply (delete_subscriptions_sends_nothing sample_delete_request [3] sample_subscribed).
  reflexivity.
Defined.

Lemma read_cast_fails_as_a_whole_witness :
  exists e, read_cast 0 sample_read_nodes [] = Raise e.
Proof.
  apply (read_cast_fails_as_a_whole sample_read_nodes [] 0%nat
           (mkReadValueId (mkNodeId 0 85) 2)).
  - reflexivity.
  - left. split; [reflexivity|]. left. reflexivity.
Defined.

(** A [NodeClass] of 3 has no member: the read of the two attributes fails
    with [ValueError] although the [ValueRank] could be cast. *)
Example read_cast_no_member :
  read_cast 0 sample_read_nodes [mkDataValue (VInt 3) 0; mkDataValue (VInt (-1)) 0] =
    Raise ValueError.
Proof. vm_compute. reflexivity. Qed.

Lemma read_cast_other_attributes_witness :
  read_cast 0 [mkReadValueId (mkNodeId 0 85) 13; mkReadValueId (mkNodeId 0 86) 13]
    [mkDataValue (VInt 1) 0] = Ok [mkDataValue (VInt 1) 0].
Proof.
  apply (read_cast_other_attributes
           [mkReadValueId (mkNodeId 0 85) 13; mkReadValueId (mkNodeId 0 86) 13]
           [mkDataValue (VInt 1) 0]).
  intros rv Hin.
  apply elem_of_cons in Hin as [->|Hin];
    [|apply list_elem_of_singleton in Hin; subst rv]; split; discriminate.
Defined.

Lemma request_handle_equals_request_id_witness :
  handle_matches_id sample_world /\
  forall request' future w',
    _send_request sample_publish None 0 SecureMessage sample_world =
      (Ok (request', future), w') ->
    RequestHandle (req_header request') = _request_id (protocol w') /\
    _callbackmap (protocol w') !! RequestHandle (req_header request') = Some future.
Proof.
  destruct request_handle_equals_request_id as (Hinit & Hmethods & Hsent).
  split; [reflexivity|].
  intros request' future w'.
  apply (Hsent sample_publish None 0 SecureMessage sample_world request' future w').
  reflexivity.
Defined.

End SubscriptionWitnesses.

Section ChannelTimeout.
Context `{UaLibrary}.

(** When no response to [open_secure_channel] arrives before the deadline,
    the call raises [TimeoutError] and its future is cancelled, but the
    entry of the request stays in the pending map: nothing removes it. *)
Theorem open_secure_channel_timeout_keeps_entry params w binreq written msg conn :
  struct_to_binary (with_header (new_request (OpenSecureChannelRequest params)) 1000 w) =
    Ok binreq ->
  transport (protocol w) = Some written ->
  message_to_binary (_connection (protocol w)) binreq SecureOpen
    (_request_id (protocol w) + 1) = (Ok msg, conn) ->
  0 < timeout (protocol w) ->
  exists w1 k,
    open_secure_channel params w =
      Await (next_future w) (Some (timeout (protocol w))) w1 k /\
    _callbackmap (protocol w1) !! (_request_id (protocol w) + 1) = Some (next_future w) /\
    fut_state (get_future (next_future w) w1) = PENDING /\
    exists w2,
      k TimedOut w1 = Done (Raise TimeoutError) w2 /\
      _callbackmap (protocol w2) !! (_request_id (protocol w) + 1) = Some (next_future w) /\
      fut_state (get_future (next_future w) w2) = CANCELLED.
Proof.
  intros Henc Htr Hmsg Hpos.
  set (request := new_request (OpenSecureChannelRequest params)) in *.
  set (w0 := (log INFO "open_secure_channel" w).2).
  destruct (_send_request_success request None 1000 SecureOpen w0
              binreq written msg conn Henc Htr Hmsg)
    as (w' & Heq & _ & _ & Hmap & _ & _ & Htimeout & _ & Hpending).
  unfold open_secure_channel, cbind.
  change (run (log INFO "open_secure_channel") w) with (@Done _ unit (Ok tt) w0).
  cbn [step_bind]. unfold run at 1. fold request. rewrite Heq. cbn [step_bind].
  unfold run at 1. unfold get_protocol. cbn [step_bind].
  unfold wait_for at 1. rewrite Hpending.
  destruct (decide (timeout (protocol w') <= 0)) as [Hle|_].
  { rewrite Htimeout in Hle. simpl in Hle. lia. }
  cbn [step_bind]. rewrite Htimeout. simpl protocol.
  change (next_future w0) with (next_future w) in *.
  change (_request_id (protocol w0)) with (_request_id (protocol w)) in *.
  change (_callbackmap (protocol w0)) with (_callbackmap (protocol w)) in *.
  eexists _, _. split; [reflexivity|].
  split; [rewrite Hmap; apply lookup_insert_eq|]. split; [exact Hpending|].
  cbn [step_bind]. unfold run at 1. unfold bind, cancel, raise. rewrite Hpending.
  cbn [step_bind]. eexists. split; [reflexivity|]. simpl.
  split; [rewrite Hmap; apply lookup_insert_eq|].
  unfold get_future; simpl. rewrite lookup_insert_eq. reflexivity.
Qed.

End ChannelTimeout.

Section ChannelTimeoutWitness.
#[local] Existing Instance sample_library.

Lemma open_secure_channel_timeout_keeps_entry_witness :
  exists w1 k,
    open_secure_channel [5] sample_world =
      Await (next_future sample_world) (Some (timeout (protocol sample_world))) w1 k /\
    _callbackmap (protocol w1) !! (_request_id (protocol sample_world) + 1) =
      Some (next_future sample_world) /\
    fut_state (get_future (next_future sample_world) w1) = PENDING /\
    exists w2,
      k TimedOut w1 = Done (Raise TimeoutError) w2 /\
      _callbackmap (protocol w2) !! (_request_id (protocol sample_world) + 1) =
        Some (next_future sample_world) /\
      fut_state (get_future (next_future sample_world) w2) = CANCELLED.
Proof.
  apply (open_secure_channel_timeout_keeps_entry [5] sample_world
           [446; 0; 1; 1000; 5] [] [1; 1; 446; 0; 1; 1000; 5] 1).
  - reflexivity.
  - reflexivity.
  - reflexivity.
  - reflexivity.
Defined.

End ChannelTimeoutWitness.
